(** * cert-lambda: an ACME (RFC 8555) client with DNS-01 validation

    A shallow embedding of [templates/https-cert/cert-lambda.py] and the
    properties of its specification that were checked against it.

    Layout:
    - Python values: [str], [bytes], JSON values, dictionaries;
    - the encoders of the source: [base64url_encode], [json.dumps],
      [jwk_thumbprint];
    - the effectful part: a small monad with exceptions, a counter state and
      a trace of the calls made to the outside world, in which
      [acme_request], [generate_certificate] and [handle_api_request] are
      written statement by statement;
    - the theorems. *)

From Stdlib Require Import ZArith NArith List String Ascii Bool Lia.
From Stdlib.Strings Require Import Byte.
From Stdlib Require Import DecimalString.
Import ListNotations.

Local Open Scope string_scope.
Local Open Scope list_scope.

Set Implicit Arguments.
#[local] Set Warnings "-register-all".

(* ------------------------------------------------------------------ *)
(** ** Python strings and bytes *)

(** A Python [str] is a sequence of code points.  The model keeps the code
    points 0..255, one [ascii] each; [bytes] is a list of bytes. *)
Definition pystr := string.
Definition bytes := list byte.

(** Python's [+] on [str]. *)
Infix "+++" := String.append (at level 60, right associativity).

Definition newline : pystr := String (ascii_of_nat 10) EmptyString.

(** [str.encode()]: UTF-8, one byte below U+0080 and two bytes from U+0080
    to U+00FF. *)
Definition utf8_char (c : ascii) : bytes :=
  let n := N_of_ascii c in
  if (n <? 128)%N then [byte_of_ascii c]
  else [byte_of_ascii (ascii_of_N (192 + n / 64));
        byte_of_ascii (ascii_of_N (128 + n mod 64))].

Fixpoint str_encode (s : pystr) : bytes :=
  match s with
  | EmptyString => []
  | String c s' => utf8_char c ++ str_encode s'
  end.

(** [bytes.decode()] on ASCII data (the source decodes base64 output only). *)
Definition bytes_decode (b : bytes) : pystr := string_of_list_byte b.

(** [isinstance(data, str)] in [base64url_encode] needs the dynamic type. *)
Inductive str_or_bytes :=
| Str (s : pystr)
| Bytes (b : bytes).

(** [str.startswith] *)
Definition startswith (s p : pystr) : bool := String.prefix p s.

(** [s[n:]] *)
Fixpoint str_from (n : nat) (s : pystr) : pystr :=
  match n, s with
  | O, _ => s
  | S k, EmptyString => EmptyString
  | S k, String _ s' => str_from k s'
  end.

(** [str.isspace] on one code point below U+0100. *)
Definition is_space (c : ascii) : bool :=
  let n := N_of_ascii c in
  ((9 <=? n) && (n <=? 13) || (28 <=? n) && (n <=? 32)
   || (n =? 133) || (n =? 160))%N.

Definition str_is_empty (s : pystr) : bool :=
  match s with EmptyString => true | _ => false end.

Fixpoint lstrip (s : pystr) : pystr :=
  match s with
  | EmptyString => EmptyString
  | String c s' => if is_space c then lstrip s' else s
  end.

Fixpoint rstrip (s : pystr) : pystr :=
  match s with
  | EmptyString => EmptyString
  | String c s' =>
      let r := rstrip s' in
      if is_space c && str_is_empty r then EmptyString else String c r
  end.

(** [str.strip()] *)
Definition strip (s : pystr) : pystr := rstrip (lstrip s).

(** [s.split(sep)] for a non-empty separator: the pieces between the
    non-overlapping occurrences of [sep], found from the left.  The result is
    never empty, so it is returned as its first piece and the others
    ([certs[0]] and [certs[1:]] in the source).  [skip] counts the characters
    of a matched separator still to pass over. *)
Fixpoint split_go (sep : pystr) (skip : nat) (s : pystr) : pystr * list pystr :=
  match s with
  | EmptyString => (EmptyString, [])
  | String c s' =>
      match skip with
      | S k => split_go sep k s'
      | O =>
          if String.prefix sep s
          then (EmptyString,
                let (p, ps) := split_go sep (String.length sep - 1) s' in p :: ps)
          else let (p, ps) := split_go sep 0 s' in (String c p, ps)
      end
  end.

Definition str_split (sep s : pystr) : pystr * list pystr := split_go sep 0 s.

(** [sep.join(pieces)] *)
Fixpoint str_join (sep : pystr) (pieces : list pystr) : pystr :=
  match pieces with
  | [] => EmptyString
  | [p] => p
  | p :: ps => p +++ sep +++ str_join sep ps
  end.

(* ------------------------------------------------------------------ *)
(** ** [base64url_encode] (source lines 361-365) *)

Definition b64_alphabet : pystr :=
  "ABCDEFGHIJKLMNOPQRSTUVWXYZabcdefghijklmnopqrstuvwxyz0123456789-_".

Definition pad : byte := "="%byte.

(** The character of one 6-bit group. *)
Definition b64_digit (n : N) : byte :=
  match String.get (N.to_nat n) b64_alphabet with
  | Some c => byte_of_ascii c
  | None => pad
  end.

(** [base64.urlsafe_b64encode]: three bytes give four characters; a last
    group of one or two bytes is padded with [=]. *)
Fixpoint urlsafe_b64encode (data : bytes) : bytes :=
  match data with
  | [] => []
  | [a] =>
      let a := Byte.to_N a in
      [b64_digit (a / 4); b64_digit ((a mod 4) * 16); pad; pad]
  | [a; b] =>
      let a := Byte.to_N a in
      let b := Byte.to_N b in
      [b64_digit (a / 4); b64_digit ((a mod 4) * 16 + b / 16);
       b64_digit ((b mod 16) * 4); pad]
  | a :: b :: c :: rest =>
      let a := Byte.to_N a in
      let b := Byte.to_N b in
      let c := Byte.to_N c in
      b64_digit (a / 4) :: b64_digit ((a mod 4) * 16 + b / 16)
        :: b64_digit ((b mod 16) * 4 + c / 64) :: b64_digit (c mod 64)
        :: urlsafe_b64encode rest
  end%N.

(** [b.rstrip(b'=')] *)
Fixpoint rstrip_pad (b : bytes) : bytes :=
  match b with
  | [] => []
  | x :: r =>
      match rstrip_pad r with
      | [] => if Byte.eqb x pad then [] else [x]
      | r' => x :: r'
      end
  end.

Definition base64url_encode (data : str_or_bytes) : pystr :=
  let data :=
    match data with
    | Str s => str_encode s
    | Bytes b => b
    end in
  bytes_decode (rstrip_pad (urlsafe_b64encode data)).

(* ------------------------------------------------------------------ *)
(** ** JSON values and [json.dumps] *)

(** The values [json.loads] returns and [json.dumps] accepts.  A dictionary
    keeps its insertion order, as a Python [dict] does. *)
Inductive json :=
| JNull
| JBool (b : bool)
| JNum (z : Z)
| JStr (s : pystr)
| JList (l : list json)
| JDict (d : list (pystr * json)).

Definition dict := list (pystr * json).

(** [key in d] and [d.get(key)] *)
Fixpoint dict_get (k : pystr) (d : dict) : option json :=
  match d with
  | [] => None
  | (k', v) :: d' => if String.eqb k k' then Some v else dict_get k d'
  end.

Definition dict_mem (k : pystr) (d : dict) : bool :=
  match dict_get k d with Some _ => true | None => false end.

(** [d.pop(key, None)]: the dictionary without [key]. *)
Fixpoint dict_pop (k : pystr) (d : dict) : dict :=
  match d with
  | [] => []
  | (k', v) :: d' =>
      if String.eqb k k' then dict_pop k d' else (k', v) :: dict_pop k d'
  end.

(** [d[key] = v]: in place when the key is there, at the end otherwise. *)
Fixpoint dict_set (k : pystr) (v : json) (d : dict) : dict :=
  match d with
  | [] => [(k, v)]
  | (k', v') :: d' =>
      if String.eqb k k' then (k, v) :: d' else (k', v') :: dict_set k v d'
  end.

Definition quote : pystr := String (ascii_of_nat 34) EmptyString.

Definition hex_digit (n : N) : ascii :=
  match String.get (N.to_nat n) "0123456789abcdef" with
  | Some c => c
  | None => "0"%char
  end.

(** One character of a string under [ensure_ascii=True]: the short escapes,
    [\u00xx] for everything else outside [' '..'~']. *)
Definition escape_char (c : ascii) : pystr :=
  let n := N_of_ascii c in
  if (n =? 34)%N then "\" +++ quote
  else if (n =? 92)%N then "\\"
  else if (n =? 10)%N then "\n"
  else if (n =? 13)%N then "\r"
  else if (n =? 9)%N then "\t"
  else if (n =? 8)%N then "\b"
  else if (n =? 12)%N then "\f"
  else if ((32 <=? n) && (n <=? 126))%N then String c EmptyString
  else "\u00" +++ String (hex_digit (n / 16)) (String (hex_digit (n mod 16)) EmptyString).

Fixpoint escape_str (s : pystr) : pystr :=
  match s with
  | EmptyString => EmptyString
  | String c s' => escape_char c +++ escape_str s'
  end.

Definition dumps_str (s : pystr) : pystr := quote +++ escape_str s +++ quote.

Definition dumps_int (z : Z) : pystr := NilZero.string_of_int (Z.to_int z).

(** [sorted(d.items())] on the rendered items: a stable insertion sort on
    the keys, compared code point by code point. *)
Fixpoint insert_item (kv : pystr * pystr) (l : list (pystr * pystr)) :=
  match l with
  | [] => [kv]
  | kv' :: l' =>
      if String.leb (fst kv) (fst kv') then kv :: l
      else kv' :: insert_item kv l'
  end.

Definition sort_items (l : list (pystr * pystr)) : list (pystr * pystr) :=
  fold_right insert_item [] l.

(** [json.dumps(obj, sort_keys=..., separators=(item_sep, key_sep))] *)
Fixpoint dumps (sort_keys : bool) (item_sep key_sep : pystr) (j : json) : pystr :=
  match j with
  | JNull => "null"
  | JBool true => "true"
  | JBool false => "false"
  | JNum z => dumps_int z
  | JStr s => dumps_str s
  | JList l =>
      "[" +++ str_join item_sep (map (dumps sort_keys item_sep key_sep) l) +++ "]"
  | JDict d =>
      let items :=
        map (fun kv => (fst kv, dumps sort_keys item_sep key_sep (snd kv))) d in
      let items := if sort_keys then sort_items items else items in
      "{" +++ str_join item_sep
                (map (fun kv => dumps_str (fst kv) +++ key_sep +++ snd kv) items)
          +++ "}"
  end.

(** [json.dumps(obj)]: the default separators are [', '] and [': ']. *)
Definition json_dumps (j : json) : pystr := dumps false ", " ": " j.

(** [json.dumps(obj, sort_keys=True, separators=(',', ':'))] *)
Definition json_dumps_canonical (j : json) : pystr := dumps true "," ":" j.

(** The most compact encoding, without insignificant white space, in the
    order of the dictionary: [separators=(',', ':')]. *)
Definition json_dumps_compact (j : json) : pystr := dumps false "," ":" j.


(* ------------------------------------------------------------------ *)
(** ** Exceptions and results *)

(** The text of the [Exception(...)] the source raises, by raise site. *)
Inductive message :=
| MsgHttp (code : Z) (body : pystr)       (* f"HTTP {e.code}: {body}" *)
| MsgAcme (code : Z) (body : pystr)       (* f"ACME error {e.code}: {body}" *)
| MsgNoDns01                              (* "No DNS-01 challenge found" *)
| MsgChallengeFailed (auth : json)        (* f"Challenge failed: {auth}" *)
| MsgChallengeTimeout                     (* "Challenge validation timeout" *)
| MsgOrderFailed (order : json)           (* f"Order failed: {order}" *)
| MsgOrderTimeout                         (* "Order finalization timeout" *)
| MsgUnsupportedKey.                      (* "Unsupported key type" *)

Inductive exn :=
| Exception (m : message)
| KeyError (k : pystr)
| IndexError
| TypeError
| AttributeError
| OverflowError
| ValueError
| JSONDecodeError
| URLError
| ResourceNotFoundException
| ClientError.

(** The result of a Python expression: a value or a raised exception. *)
Inductive result (A : Type) :=
| Ok (a : A)
| Raised (e : exn).
Arguments Ok {A} a.
Arguments Raised {A} e.

Definition rbind {A B} (r : result A) (f : A -> result B) : result B :=
  match r with
  | Ok a => f a
  | Raised e => Raised e
  end.

Notation "x <-- r ;; k" := (rbind r (fun x => k))
  (at level 61, r at next level, right associativity).

(** [d[key]] on a value: [KeyError] on a dictionary without the key,
    [TypeError] on a value that is no dictionary. *)
Definition getitem (j : json) (k : pystr) : result json :=
  match j with
  | JDict d =>
      match dict_get k d with
      | Some v => Ok v
      | None => Raised (KeyError k)
      end
  | _ => Raised TypeError
  end.

(** [l[0]] *)
Definition getitem0 (j : json) : result json :=
  match j with
  | JList (v :: _) => Ok v
  | JList [] => Raised IndexError
  | JStr (String c _) => Ok (JStr (String c EmptyString))
  | JStr EmptyString => Raised IndexError
  | JDict d =>
      (* the key [0] is never a key of a dictionary read from JSON *)
      Raised (KeyError "0")
  | _ => Raised TypeError
  end.

(** [v == 'text'] for a value read from JSON. *)
Definition is_str (v : json) (s : pystr) : bool :=
  match v with
  | JStr s' => String.eqb s' s
  | _ => false
  end.

(* ------------------------------------------------------------------ *)
(** ** Keys and integers as bytes *)

(** A private key of the [cryptography] library, as far as the source looks
    at it: its type and its public numbers. *)
Inductive private_key :=
| ECKey (x y : Z)      (* ec.EllipticCurvePrivateKey, public point (x, y) *)
| RSAKey (n e : Z).    (* rsa.RSAPrivateKey, public numbers (n, e) *)

Definition byte_of_Z (z : Z) : byte := byte_of_ascii (ascii_of_N (Z.to_N z)).

(** The [len] low-order base-256 digits of [z], most significant first. *)
Fixpoint be_bytes (len : nat) (z : Z) : bytes :=
  match len with
  | O => []
  | S n => be_bytes n (z / 256) ++ [byte_of_Z (z mod 256)]
  end.

(** [z.to_bytes(len, 'big')]: [OverflowError] on a negative integer and on
    one that does not fit. *)
Definition to_bytes (len : nat) (z : Z) : result bytes :=
  if ((0 <=? z) && (z <? 256 ^ Z.of_nat len))%Z then Ok (be_bytes len z)
  else Raised OverflowError.

(** The coordinates of a point of P-256 are below the field prime, hence
    below [2^256]. *)
Definition is_p256_key (k : private_key) : Prop :=
  match k with
  | ECKey x y => (0 <= x < 2 ^ 256 /\ 0 <= y < 2 ^ 256)%Z
  | RSAKey _ _ => False
  end.

(* ------------------------------------------------------------------ *)
(** ** [jwk_thumbprint] (source lines 368-389) *)

Section Thumbprint.

(** [hashlib.sha256(data).digest()] *)
Variable sha256 : bytes -> bytes.

(** The dictionary [jwk] of the source (lines 379-384 and 411-416). *)
Definition jwk_of (x y : bytes) : dict :=
  [("crv", JStr "P-256");
   ("kty", JStr "EC");
   ("x", JStr (base64url_encode (Bytes x)));
   ("y", JStr (base64url_encode (Bytes y)))].

Definition jwk_thumbprint (key : private_key) : result pystr :=
  match key with
  | ECKey nx ny =>
      x <-- to_bytes 32 nx ;;
      y <-- to_bytes 32 ny ;;
      let jwk := jwk_of x y in
      let jwk_json := json_dumps_canonical (JDict jwk) in
      Ok (base64url_encode (Bytes (sha256 (str_encode jwk_json))))
  | RSAKey _ _ => Raised (Exception MsgUnsupportedKey)
  end.

End Thumbprint.


(* ------------------------------------------------------------------ *)
(** ** The outside world *)

(** Response headers, in the order received. *)
Definition headers := list (pystr * pystr).

(** What [urllib.request.urlopen] does with a request. *)
Inductive http_result :=
| Http2xx (body : pystr) (hdrs : headers)              (* a response *)
| HttpError (code : Z) (body : pystr) (hdrs : headers) (* urllib.error.HTTPError *)
| HttpFail (e : exn).                                  (* any other exception *)

(** What [secrets.get_secret_value] does. *)
Inductive secret_result :=
| SecretString (s : pystr)
| SecretNotFound                (* secrets.exceptions.ResourceNotFoundException *)
| SecretFail (e : exn).

(** The services the program talks to, and the choices it does not make
    itself (fresh keys, signatures).  The ACME server answers the [n]-th
    signed request of a run; Route 53 answers the [n]-th status query. *)
Record World := {
  environ : list (pystr * pystr);
  cryptography_importable : bool;
  get_secret_value : pystr -> secret_result;
  put_secret_value : pystr -> pystr -> option exn;
  ec_generate_private_key : private_key;
  rsa_generate_private_key : private_key;
  ecdsa_sign : nat -> private_key -> bytes -> Z * Z;
  urlopen : pystr -> pystr -> http_result;
  acme_post : nat -> pystr -> bytes -> http_result;
  change_resource_record_sets :
    pystr -> pystr -> pystr -> pystr -> result json;
  get_change : nat -> json -> result json
}.

(** The calls that reach the outside world. *)
Inductive call :=
| GetSecretValue (secret_id : pystr)
| PutSecretValue (secret_id value : pystr)
| UrlOpen (method url : pystr)
| AcmePost (url : pystr) (nonce : option pystr) (payload : option json)
           (data : bytes) (reply : http_result)
| ChangeRecordSets (action zone name value : pystr)
| GetChange (id : json)
| Sleep (seconds : Z).

(** A call with the line of [generate_certificate] (or of the function at
    hand) whose statement made it. *)
Definition event := (nat * call)%type.

(* ------------------------------------------------------------------ *)
(** ** The monad of the effectful code *)

Record counters := { posts : nat; polls : nat }.

Definition start : counters := {| posts := 0; polls := 0 |}.

(** How a run ends: with a value, with an exception, or not within the
    fuel given to its unbounded loop. *)
Inductive outcome (A : Type) :=
| Returns (a : A)
| Raises (e : exn)
| OutOfFuel.
Arguments Returns {A} a.
Arguments Raises {A} e.
Arguments OutOfFuel {A}.

Definition M (A : Type) := counters -> outcome A * counters * list event.

Definition ret {A} (a : A) : M A := fun s => (Returns a, s, []).

Definition raise {A} (e : exn) : M A := fun s => (Raises e, s, []).

Definition out_of_fuel {A} : M A := fun s => (OutOfFuel, s, []).

Definition bind {A B} (m : M A) (f : A -> M B) : M B :=
  fun s =>
    match m s with
    | (Returns a, s1, t1) =>
        match f a s1 with
        | (o, s2, t2) => (o, s2, t1 ++ t2)
        end
    | (Raises e, s1, t1) => (Raises e, s1, t1)
    | (OutOfFuel, s1, t1) => (OutOfFuel, s1, t1)
    end.

Definition lift {A} (r : result A) : M A :=
  match r with
  | Ok a => ret a
  | Raised e => raise e
  end.

(** [try: m  except ...: h e] for a handler that takes every exception. *)
Definition try_except {A} (m : M A) (h : exn -> M A) : M A :=
  fun s =>
    match m s with
    | (Raises e, s1, t1) =>
        match h e s1 with
        | (o, s2, t2) => (o, s2, t1 ++ t2)
        end
    | r => r
    end.

(** One call: it is recorded, with no line yet. *)
Definition emit (c : call) : M unit := fun s => (Returns tt, s, [(0, c)]).

(** The events of [m] are those of the statement at line [l]. *)
Definition at_line {A} (l : nat) (m : M A) : M A :=
  fun s =>
    match m s with
    | (o, s1, t) => (o, s1, map (fun e => (l, snd e)) t)
    end.

Notation "x <- m ;; k" := (bind m (fun x => k))
  (at level 61, m at next level, right associativity).
Notation "' p <- m ;; k" := (bind m (fun p => k))
  (at level 61, p pattern, m at next level, right associativity).
Notation "m ;;; k" := (bind m (fun _ => k))
  (at level 61, right associativity).
Notation "m @@ l" := (at_line l m) (at level 59, left associativity).

Definition trace {A} (r : outcome A * counters * list event) : list event :=
  snd r.
Definition result_of {A} (r : outcome A * counters * list event) : outcome A :=
  fst (fst r).

(* ------------------------------------------------------------------ *)
(** ** Response headers *)

(** [str.lower] on one code point below U+0100. *)
Definition lower_char (c : ascii) : ascii :=
  let n := N_of_ascii c in
  if ((65 <=? n) && (n <=? 90)
      || (192 <=? n) && (n <=? 222) && negb (n =? 215))%N
  then ascii_of_N (n + 32) else c.

Fixpoint str_lower (s : pystr) : pystr :=
  match s with
  | EmptyString => EmptyString
  | String c s' => String (lower_char c) (str_lower s')
  end.

(** [response.headers.get(name)]: the first header of that name, whatever
    its case. *)
Fixpoint msg_get (name : pystr) (h : headers) : option pystr :=
  match h with
  | [] => None
  | (k, v) :: h' =>
      if String.eqb (str_lower k) (str_lower name) then Some v
      else msg_get name h'
  end.

Fixpoint sdict_get (k : pystr) (d : list (pystr * pystr)) : option pystr :=
  match d with
  | [] => None
  | (k', v) :: d' => if String.eqb k k' then Some v else sdict_get k d'
  end.

Fixpoint sdict_set (k v : pystr) (d : list (pystr * pystr)) :=
  match d with
  | [] => [(k, v)]
  | (k', v') :: d' =>
      if String.eqb k k' then (k, v) :: d' else (k', v') :: sdict_set k v d'
  end.

(** [dict(response.headers)]: every name as it was sent, with the value
    the message gives for it. *)
Definition dict_of_headers (h : headers) : list (pystr * pystr) :=
  fold_left
    (fun d kv =>
       match msg_get (fst kv) h with
       | Some v => sdict_set (fst kv) v d
       | None => d
       end)
    h [].

(** The value a signed request returns first: [{'body': ..., 'headers': ...}]. *)
Record response := {
  body : pystr;
  resp_headers : list (pystr * pystr)
}.

(* ------------------------------------------------------------------ *)
(** ** The program *)

Definition ACME_DIRECTORY : pystr :=
  "https://acme-v02.api.letsencrypt.org/directory".

Definition END_CERTIFICATE : pystr := "-----END CERTIFICATE-----".

(** Source lines 288-293: the leaf certificate and the chain of the
    downloaded PEM text. *)
Definition split_chain (cert_pem : pystr) : pystr * pystr :=
  let certs := str_split END_CERTIFICATE cert_pem in
  let certificate := fst certs +++ END_CERTIFICATE +++ newline in
  let chain := strip (str_join END_CERTIFICATE (snd certs)) in
  let chain := if str_is_empty chain then chain else chain +++ newline in
  (certificate, chain).

Definition BEGIN_CERTIFICATE : pystr := "-----BEGIN CERTIFICATE-----".

(** One certificate of a PEM text: the two marker lines around its base64
    text. *)
Definition certificate_block (text : pystr) : pystr :=
  BEGIN_CERTIFICATE +++ newline +++ text +++ END_CERTIFICATE +++ newline.



(** [None] and a string as JSON values. *)
Definition of_option (o : option pystr) : json :=
  match o with
  | Some s => JStr s
  | None => JNull
  end.

(** [urllib.request.Request(url, ...)] takes the text of its [url]; what is
    no string has no URL type and is refused with [ValueError]. *)
Definition request_url (url : json) : result pystr :=
  match url with
  | JStr s => Ok s
  | _ => Raised ValueError
  end.

(** [if account_url:] *)
Definition truthy (o : option pystr) : bool :=
  match o with
  | Some s => negb (str_is_empty s)
  | None => false
  end.

(** Functions of Python's library and of [cryptography] that the program
    calls and this development does not define. *)
Record Library := {
  (** [hashlib.sha256(data).digest()] *)
  sha256 : bytes -> bytes;
  (** [json.loads]; [None] stands for [json.JSONDecodeError]. *)
  json_loads : pystr -> option json;
  (** [serialization.load_pem_private_key]; [None] stands for its error. *)
  load_pem_private_key : bytes -> option private_key;
  (** [key.private_bytes(PEM, PKCS8, NoEncryption()).decode()] *)
  private_bytes : private_key -> pystr;
  (** The DER bytes of the signing request built at lines 176-183. *)
  csr_public_bytes : private_key -> pystr -> bytes;
  (** Lines 296-297: [not_valid_after_utc.isoformat()] of a PEM certificate;
      [None] stands for the error of [load_pem_x509_certificate]. *)
  not_valid_after : bytes -> option pystr;
  (** [repr] of a value that is no string. *)
  py_repr : json -> pystr
}.

(** Lines 419-428: the protected header. *)
Definition protected_header (url : json) (account_url nonce : option pystr)
    (jwk : dict) : dict :=
  let protected :=
    [("alg", JStr "ES256"); ("nonce", of_option nonce); ("url", url)] in
  if truthy account_url
  then dict_set "kid" (of_option account_url) protected
  else dict_set "jwk" (JDict jwk) protected.

(** Lines 432-435: the payload field. *)
Definition payload_b64 (payload : option json) : pystr :=
  match payload with
  | None => EmptyString
  | Some p => base64url_encode (Str (json_dumps p))
  end.

(** Lines 446-450: the flattened JWS. *)
Definition jws (protected_b64 payload_b64 : pystr) (signature_bytes : bytes)
  : dict :=
  [("protected", JStr protected_b64);
   ("payload", JStr payload_b64);
   ("signature", JStr (base64url_encode (Bytes signature_bytes)))].

Section Program.

Variable lib : Library.
Variable w : World.

(** [f"{v}"] *)
Definition format_value (v : json) : pystr :=
  match v with
  | JStr s => s
  | _ => py_repr lib v
  end.

Definition loads (s : pystr) : result json :=
  match json_loads lib s with
  | Some j => Ok j
  | None => Raised JSONDecodeError
  end.

(** [os.environ[name]] and [os.environ.get(name, '')] *)
Definition os_environ (name : pystr) : result pystr :=
  match sdict_get name (environ w) with
  | Some v => Ok v
  | None => Raised (KeyError name)
  end.

Definition os_environ_get (name : pystr) : pystr :=
  match sdict_get name (environ w) with
  | Some v => v
  | None => EmptyString
  end.

(** *** Calls to the services *)

Definition secrets_get_secret_value (secret_id : pystr) : M pystr :=
  emit (GetSecretValue secret_id) ;;;
  match get_secret_value w secret_id with
  | SecretString s => ret s
  | SecretNotFound => raise ResourceNotFoundException
  | SecretFail e => raise e
  end.

Definition secrets_put_secret_value (secret_id value : pystr) : M unit :=
  emit (PutSecretValue secret_id value) ;;;
  match put_secret_value w secret_id value with
  | None => ret tt
  | Some e => raise e
  end.

Definition route53_change (action zone name value : pystr) : M json :=
  emit (ChangeRecordSets action zone name value) ;;;
  lift (change_resource_record_sets w action zone name value).

Definition route53_get_change (id : json) : M json :=
  fun s =>
    (match get_change w (polls s) id with
     | Ok j => Returns j
     | Raised e => Raises e
     end,
     {| posts := posts s; polls := S (polls s) |},
     [(0, GetChange id)]).

Definition time_sleep (seconds : Z) : M unit := emit (Sleep seconds).

(** [urlopen] of a signed request: the server answers the next request. *)
Definition urlopen_post (url : pystr) (nonce : option pystr)
    (payload : option json) (data : bytes) : M http_result :=
  fun s =>
    let reply := acme_post w (posts s) url data in
    (Returns reply,
     {| posts := S (posts s); polls := polls s |},
     [(0, AcmePost url nonce payload data reply)]).

(** [decode_dss_signature(key.sign(signing_input, ...))] *)
Definition sign (key : private_key) (signing_input : bytes) : M (Z * Z) :=
  fun s => (Returns (ecdsa_sign w (posts s) key signing_input), s, []).

(** *** [fetch_url] (source lines 347-358) *)

Definition fetch (url : json) (method : pystr) : M (pystr * headers) :=
  u <- lift (request_url url) ;;
  emit (UrlOpen method u) ;;;
  match urlopen w method u with
  | Http2xx b h => ret (b, h)
  | HttpError code b _ => raise (Exception (MsgHttp code b))
  | HttpFail e => raise e
  end.

(** [fetch_url(url, method=method)] *)
Definition fetch_url (url : json) (method : pystr) : M pystr :=
  r <- fetch url method ;; ret (fst r).

(** [fetch_url(url, method=method, return_headers=True)] *)
Definition fetch_url_headers (url : json) (method : pystr)
  : M (list (pystr * pystr)) :=
  r <- fetch url method ;; ret (dict_of_headers (snd r)).

(** *** [acme_request] (source lines 400-469) *)

Definition acme_request (url : json) (key : private_key)
    (account_url : option pystr) (nonce : option pystr)
    (payload : option json) : M (response * option pystr) :=
  ' (nx, ny) <- match key with
                | ECKey nx ny => ret (nx, ny)
                | RSAKey _ _ => raise AttributeError
                end ;;
  x <- lift (to_bytes 32 nx) ;;
  y <- lift (to_bytes 32 ny) ;;
  let jwk := jwk_of x y in
  let protected := protected_header url account_url nonce jwk in
  let protected_b64 := base64url_encode (Str (json_dumps (JDict protected))) in
  let payload_b64 := payload_b64 payload in
  let signing_input := str_encode (protected_b64 +++ "." +++ payload_b64) in
  ' (r, s) <- sign key signing_input ;;
  r_bytes <- lift (to_bytes 32 r) ;;
  s_bytes <- lift (to_bytes 32 s) ;;
  let signature_bytes := r_bytes ++ s_bytes in
  let jws := jws protected_b64 payload_b64 signature_bytes in
  u <- lift (request_url url) ;;
  reply <- urlopen_post u nonce payload (str_encode (json_dumps (JDict jws))) ;;
  match reply with
  | Http2xx b h =>
      ret ({| body := b; resp_headers := dict_of_headers h |},
           msg_get "Replay-Nonce" h)
  | HttpError code b h =>
      let new_nonce :=
        match msg_get "Replay-Nonce" h with
        | Some n => Some n
        | None => nonce
        end in
      raise (Exception (MsgAcme code b))
  | HttpFail e => raise e
  end.

(** *** [acme_register] (source lines 392-397) *)

Definition acme_register (url : json) (key : private_key)
    (nonce : option pystr) : M (option pystr * option pystr) :=
  let payload := JDict [("termsOfServiceAgreed", JBool true)] in
  ' (response, new_nonce) <- acme_request url key None nonce (Some payload) ;;
  let account_url := sdict_get "Location" (resp_headers response) in
  ret (account_url, new_nonce).

(** *** [generate_certificate] (source lines 115-344)

    The function is one sequence of statements; it is cut here at the
    comments of the source, each part returning the variables the
    later parts read. *)

(** [key in value] for the text [key] *)
Definition contains (key : pystr) (value : json) : result bool :=
  match value with
  | JDict d => Ok (dict_mem key d)
  | JList l => Ok (existsb (fun v => is_str v key) l)
  | JStr s =>
      Ok (match String.index 0 key s with Some _ => true | None => false end)
  | _ => Raised TypeError
  end.

(** Lines 140-149, the body of the [try]. *)
Definition load_account_key (secret_arn : pystr) : M (option private_key) :=
  secret_string <- secrets_get_secret_value secret_arn @@ 140 ;;
  secret_data <- lift (loads secret_string) ;;
  present <- lift (contains "account_key" secret_data) ;;
  if present : bool then
    pem <- lift (getitem secret_data "account_key") ;;
    data <- match pem with
            | JStr s => ret (str_encode s)
            | _ => raise AttributeError
            end ;;
    match load_pem_private_key lib data with
    | Some key => ret (Some key)
    | None => raise ValueError
    end
  else ret None.

(** Lines 138-156: get or create the account key. *)
Definition get_or_create_account_key (secret_arn : pystr) : M private_key :=
  account_key <- try_except (load_account_key secret_arn)
                            (fun _ => ret None) ;;
  match account_key with
  | None => ret (ec_generate_private_key w)
  | Some key => ret key
  end.

(** Lines 158-166: directory, first nonce, account. *)
Definition open_account (account_key : private_key)
  : M (json * option pystr * option pystr) :=
  directory_text <- fetch_url (JStr ACME_DIRECTORY) "GET" @@ 159 ;;
  directory <- lift (loads directory_text) ;;
  new_nonce_url <- lift (getitem directory "newNonce") ;;
  hdrs <- fetch_url_headers new_nonce_url "HEAD" @@ 162 ;;
  nonce <- match sdict_get "Replay-Nonce" hdrs with
           | Some n => ret n
           | None => raise (KeyError "Replay-Nonce")
           end ;;
  new_account_url <- lift (getitem directory "newAccount") ;;
  ' (account_url, nonce) <-
      acme_register new_account_url account_key (Some nonce) @@ 165 ;;
  ret (directory, account_url, nonce).

(** Lines 186-198: the order and its first authorization. *)
Definition create_order (domain : pystr) (directory : json)
    (account_key : private_key) (account_url nonce : option pystr)
  : M (json * option pystr * json * json * option pystr) :=
  let order_payload :=
    JDict [("identifiers",
            JList [JDict [("type", JStr "dns"); ("value", JStr domain)]])] in
  new_order_url <- lift (getitem directory "newOrder") ;;
  ' (order_response, nonce) <-
      acme_request new_order_url account_key account_url nonce
                   (Some order_payload) @@ 188 ;;
  order <- lift (loads (body order_response)) ;;
  let order_url := sdict_get "Location" (resp_headers order_response) in
  authorizations <- lift (getitem order "authorizations") ;;
  auth_url <- lift (getitem0 authorizations) ;;
  ' (auth_response, nonce) <-
      acme_request auth_url account_key account_url nonce None @@ 197 ;;
  auth <- lift (loads (body auth_response)) ;;
  ret (order, order_url, auth_url, auth, nonce).

(** Lines 201-205: the first challenge of type [dns-01]. *)
Fixpoint first_dns01 (challenges : list json) : result (option json) :=
  match challenges with
  | [] => Ok None
  | c :: rest =>
      type <-- getitem c "type" ;;
      if is_str type "dns-01" then Ok (Some c) else first_dns01 rest
  end.

Definition find_challenge (challenges : json) : result (option json) :=
  match challenges with
  | JList l => first_dns01 l
  | JDict [] => Ok None
  | JStr EmptyString => Ok None
  | _ => Raised TypeError
  end.

(** Lines 236-241: wait until Route 53 reports the change as in sync.
    The loop of the source has no bound; [fuel] bounds its unfolding. *)
Fixpoint wait_insync (fuel : nat) (change_id : json) : M unit :=
  match fuel with
  | O => out_of_fuel
  | S fuel' =>
      change_status <- route53_get_change change_id @@ 238 ;;
      info <- lift (getitem change_status "ChangeInfo") ;;
      status <- lift (getitem info "Status") ;;
      if is_str status "INSYNC" then ret tt
      else time_sleep 5 @@ 241 ;;; wait_insync fuel' change_id
  end.

(** Lines 200-233: the DNS-01 challenge and its TXT record. *)
Definition provision_challenge (domain zone_id : pystr)
    (account_key : private_key) (auth : json)
  : M (json * pystr * pystr * json) :=
  challenges <- lift (getitem auth "challenges") ;;
  found <- lift (find_challenge challenges) ;;
  challenge <- match found with
               | Some c => ret c
               | None => raise (Exception MsgNoDns01)
               end ;;
  thumbprint <- lift (jwk_thumbprint (sha256 lib) account_key) ;;
  token <- lift (getitem challenge "token") ;;
  let key_auth := format_value token +++ "." +++ thumbprint in
  let dns_value :=
    base64url_encode (Bytes (sha256 lib (str_encode key_auth))) in
  let txt_name := "_acme-challenge." +++ domain in
  change_response <-
    route53_change "UPSERT" zone_id txt_name (quote +++ dns_value +++ quote)
    @@ 219 ;;
  change_info <- lift (getitem change_response "ChangeInfo") ;;
  change_id <- lift (getitem change_info "Id") ;;
  ret (challenge, txt_name, dns_value, change_id).

(** Lines 250-263: [for _ in range(30): ... else: raise ...], by the
    number of iterations left. *)
Fixpoint poll_authorization (attempts : nat) (auth_url : json)
    (account_key : private_key) (account_url nonce : option pystr)
  : M (option pystr) :=
  match attempts with
  | O => raise (Exception MsgChallengeTimeout)
  | S attempts' =>
      ' (auth_response, nonce) <-
          acme_request auth_url account_key account_url nonce None @@ 252 ;;
      auth <- lift (loads (body auth_response)) ;;
      status <- lift (getitem auth "status") ;;
      if is_str status "valid" then ret nonce
      else
        status <- lift (getitem auth "status") ;;
        if is_str status "invalid"
        then raise (Exception (MsgChallengeFailed auth))
        else
          time_sleep 2 @@ 261 ;;;
          poll_authorization attempts' auth_url account_key account_url nonce
  end.

(** Lines 269-281: the same loop on the order. *)
Fixpoint poll_order (attempts : nat) (order_url : option pystr)
    (account_key : private_key) (account_url nonce : option pystr)
  : M (json * option pystr) :=
  match attempts with
  | O => raise (Exception MsgOrderTimeout)
  | S attempts' =>
      ' (order_response, nonce) <-
          acme_request (of_option order_url) account_key account_url nonce
                       None @@ 271 ;;
      order <- lift (loads (body order_response)) ;;
      status <- lift (getitem order "status") ;;
      has_certificate <-
        (if is_str status "valid"
         then lift (contains "certificate" order) else ret false) ;;
      if has_certificate : bool then ret (order, nonce)
      else
        status <- lift (getitem order "status") ;;
        if is_str status "invalid"
        then raise (Exception (MsgOrderFailed order))
        else
          time_sleep 2 @@ 279 ;;;
          poll_order attempts' order_url account_key account_url nonce
  end.

(** Lines 283-297: the certificate, split, and its expiry. *)
Definition download_certificate (order : json) (account_key : private_key)
    (account_url nonce : option pystr) : M (pystr * pystr * pystr) :=
  certificate_url <- lift (getitem order "certificate") ;;
  ' (cert_response, _) <-
      acme_request certificate_url account_key account_url nonce None
      @@ 285 ;;
  let cert_pem := body cert_response in
  let '(certificate, chain) := split_chain cert_pem in
  expires <- match not_valid_after lib (str_encode certificate) with
             | Some e => ret e
             | None => raise ValueError
             end ;;
  ret (certificate, chain, expires).

(** Lines 299-317: the TXT record is deleted; a failure is only printed. *)
Definition cleanup (zone_id txt_name dns_value : pystr) : M unit :=
  try_except
    (route53_change "DELETE" zone_id txt_name (quote +++ dns_value +++ quote)
     @@ 302 ;;; ret tt)
    (fun _ => ret tt).

(** Lines 332-339: the bundle that is stored. *)
Definition cert_data (certificate chain private_key_pem domain expires
                      account_key_pem : pystr) : json :=
  JDict [("certificate", JStr certificate);
         ("chain", JStr chain);
         ("private_key", JStr private_key_pem);
         ("domain", JStr domain);
         ("expires", JStr expires);
         ("account_key", JStr account_key_pem)].

(** Lines 319-344: store the bundle, report. *)
Definition store (secret_arn domain : pystr) (cert_key account_key : private_key)
    (certificate chain expires : pystr) : M json :=
  let private_key_pem := private_bytes lib cert_key in
  let account_key_pem := private_bytes lib account_key in
  let data := cert_data certificate chain private_key_pem domain expires
                        account_key_pem in
  secrets_put_secret_value secret_arn (json_dumps data) @@ 341 ;;;
  ret (JDict [("statusCode", JNum 200);
              ("body",
               JStr (json_dumps
                       (JDict [("message", JStr "Certificate generated");
                               ("expires", JStr expires)])))]).

(** The local variables of [generate_certificate] that are read after the
    challenge is set up. *)
Record locals := {
  domain : pystr;
  zone_id : pystr;
  secret_arn : pystr;
  account_key : private_key;
  account_url : option pystr;
  cert_key : private_key;
  csr_b64 : pystr;
  order : json;
  order_url : option pystr;
  auth_url : json;
  challenge : json;
  txt_name : pystr;
  dns_value : pystr;
  change_id : json;
  nonce : option pystr
}.

(** Lines 135-233: account key, account, certificate key and signing
    request, order, authorization, challenge, TXT record. *)
Definition order_challenge (domain zone_id secret_arn : pystr) : M locals :=
  account_key <- get_or_create_account_key secret_arn ;;
  ' (directory, account_url, nonce) <- open_account account_key ;;
  let cert_key := rsa_generate_private_key w in
  let csr_der := csr_public_bytes lib cert_key domain in
  let csr_b64 := base64url_encode (Bytes csr_der) in
  ' (order, order_url, auth_url, auth, nonce) <-
      create_order domain directory account_key account_url nonce ;;
  ' (challenge, txt_name, dns_value, change_id) <-
      provision_challenge domain zone_id account_key auth ;;
  ret {| domain := domain; zone_id := zone_id; secret_arn := secret_arn;
         account_key := account_key; account_url := account_url;
         cert_key := cert_key; csr_b64 := csr_b64;
         order := order; order_url := order_url; auth_url := auth_url;
         challenge := challenge; txt_name := txt_name;
         dns_value := dns_value; change_id := change_id; nonce := nonce |}.

(** Lines 243-248: the extra wait, then the server is told to verify; the
    result is the new nonce. *)
Definition notify_challenge (v : locals) : M (option pystr) :=
  time_sleep 10 @@ 244 ;;;
  challenge_url <- lift (getitem (challenge v) "url") ;;
  ' (_, nonce) <-
      acme_request challenge_url (account_key v) (account_url v) (nonce v)
                   (Some (JDict [])) @@ 248 ;;
  ret nonce.

(** Lines 265-317: finalize, poll the order, download, clean up. *)
Definition obtain_certificate (v : locals) (nonce : option pystr)
  : M (pystr * pystr * pystr) :=
  finalize_url <- lift (getitem (order v) "finalize") ;;
  ' (_, nonce) <-
      acme_request finalize_url (account_key v) (account_url v) nonce
                   (Some (JDict [("csr", JStr (csr_b64 v))])) @@ 267 ;;
  ' (order, nonce) <-
      poll_order 30 (order_url v) (account_key v) (account_url v) nonce ;;
  ' (certificate, chain, expires) <-
      download_certificate order (account_key v) (account_url v) nonce ;;
  cleanup (zone_id v) (txt_name v) (dns_value v) ;;;
  ret (certificate, chain, expires).

(** Lines 135-344, once [cryptography] is imported. *)
Definition issue (fuel : nat) (domain_name zone arn : pystr) : M json :=
  v <- order_challenge domain_name zone arn ;;
  wait_insync fuel (change_id v) ;;;
  nonce <- notify_challenge v ;;
  nonce <- poll_authorization 30 (auth_url v) (account_key v) (account_url v)
                              nonce ;;
  ' (certificate, chain, expires) <- obtain_certificate v nonce ;;
  store (secret_arn v) (domain v) (cert_key v) (account_key v)
        certificate chain expires.

Definition generate_certificate (fuel : nat) : M json :=
  domain <- lift (os_environ "DOMAIN") ;;
  zone_id <- lift (os_environ "ZONE_ID") ;;
  secret_arn <- lift (os_environ "CERT_SECRET_ARN") ;;
  if cryptography_importable w
  then issue fuel domain zone_id secret_arn
  else ret (JDict [("statusCode", JNum 500);
                   ("body", JStr "cryptography library not available")]).

(** *** [handle_api_request] (source lines 36-71) *)

(** [d.get(key, default)] on a value *)
Definition value_get (d : json) (key : pystr) (default : json) : result json :=
  match d with
  | JDict d =>
      match dict_get key d with
      | Some v => Ok v
      | None => Ok default
      end
  | _ => Raised AttributeError
  end.

Definition forbidden : json :=
  JDict [("statusCode", JNum 403);
         ("body", JStr (json_dumps (JDict [("error", JStr "Invalid authorization")])))].

Definition not_found : json :=
  JDict [("statusCode", JNum 404);
         ("body", JStr (json_dumps (JDict [("error", JStr "Certificate not yet generated")])))].

Definition server_error : json :=
  JDict [("statusCode", JNum 500);
         ("body", JStr (json_dumps (JDict [("error", JStr "Failed to retrieve certificate")])))].

(** Lines 49-60, the body of the [try]. *)
Definition retrieve_certificate : M json :=
  secret_arn <- lift (os_environ "CERT_SECRET_ARN") ;;
  secret_string <- secrets_get_secret_value secret_arn @@ 50 ;;
  data <- lift (loads secret_string) ;;
  data <- match data with
          | JDict d => ret (JDict (dict_pop "account_key" d))
          | JList _ => raise TypeError
          | _ => raise AttributeError
          end ;;
  ret (JDict [("statusCode", JNum 200);
              ("headers", JDict [("Content-Type", JStr "application/json")]);
              ("body", JStr (json_dumps data))]).

(** Lines 61-71: the two [except] clauses. *)
Definition retrieval_failed (e : exn) : M json :=
  match e with
  | ResourceNotFoundException => ret not_found
  | _ => ret server_error
  end.

(** Lines 47-71 *)
Definition serve_certificate : M json :=
  try_except retrieve_certificate retrieval_failed.

Definition handle_api_request (event : json) : M json :=
  hdrs <- lift (value_get event "headers" (JDict [])) ;;
  auth_header <- lift (value_get hdrs "authorization" (JStr EmptyString)) ;;
  let expected_token := os_environ_get "CERT_TOKEN" in
  auth_header <- match auth_header with
                 | JStr s => ret s
                 | _ => raise AttributeError
                 end ;;
  if negb (startswith auth_header "Bearer ")
     || negb (String.eqb (str_from 7 auth_header) expected_token)
  then ret forbidden
  else serve_certificate.

End Program.

(* ------------------------------------------------------------------ *)
(** ** Concrete runs

    A small ACME server, DNS provider and secret store, used to run the
    program on concrete inputs. *)

Module Scenario.

Definition new_nonce_url : pystr := "https://acme.test/new-nonce".
Definition new_account_url : pystr := "https://acme.test/new-acct".
Definition new_order_url : pystr := "https://acme.test/new-order".
Definition account_url : pystr := "https://acme.test/acct/1".
Definition order_url : pystr := "https://acme.test/order/1".
Definition authz_url : pystr := "https://acme.test/authz/1".
Definition challenge_url : pystr := "https://acme.test/chall/1".
Definition finalize_url : pystr := "https://acme.test/order/1/finalize".
Definition certificate_url : pystr := "https://acme.test/cert/1".

Definition directory : json :=
  JDict [("newNonce", JStr new_nonce_url);
         ("newAccount", JStr new_account_url);
         ("newOrder", JStr new_order_url)].

Definition order (status : pystr) : json :=
  JDict ([("status", JStr status);
          ("authorizations", JList [JStr authz_url]);
          ("finalize", JStr finalize_url)]
         ++ (if String.eqb status "valid"
             then [("certificate", JStr certificate_url)] else [])).

Definition authorization (status : pystr) : json :=
  JDict [("status", JStr status);
         ("challenges",
          JList [JDict [("type", JStr "http-01");
                        ("url", JStr "https://acme.test/chall/0");
                        ("token", JStr "tok0")];
                 JDict [("type", JStr "dns-01");
                        ("url", JStr challenge_url);
                        ("token", JStr "tok1")]])].

Definition change (status : pystr) : json :=
  JDict [("ChangeInfo", JDict [("Id", JStr "/change/C1"); ("Status", JStr status)])].

Definition leaf_pem : pystr := certificate_block ("MIIBleaf" +++ newline).
Definition issuer_pem : pystr :=
  certificate_block ("MIIBissuer" +++ newline).

Definition stored_bundle : json :=
  JDict [("certificate", JStr leaf_pem);
         ("chain", JStr issuer_pem);
         ("private_key", JStr "PEM(rsa)");
         ("domain", JStr "example.com");
         ("expires", JStr "2027-01-01T00:00:00+00:00");
         ("account_key", JStr "PEM(ec)")].

(** The documents this server and store can send. *)
Definition documents : list json :=
  [directory; JDict [];
   order "pending"; order "ready"; order "processing"; order "valid";
   order "invalid";
   authorization "pending"; authorization "valid"; authorization "invalid";
   stored_bundle;
   JDict [("account_key", JStr "garbage")]].

(** [json.loads] on the texts of these documents. *)
Definition parse (s : pystr) : option json :=
  find (fun j => String.eqb (json_dumps j) s) documents.

(** A stand-in for SHA-256 in runs where the digest plays no role. *)
Definition digest (b : bytes) : bytes := b.

Definition account_key : private_key := ECKey 5 7.
Definition fresh_key : private_key := ECKey 11 13.
Definition certificate_key : private_key := RSAKey 3233 65537.

Definition load_pem (b : bytes) : option private_key :=
  if String.eqb (bytes_decode b) "PEM(ec)" then Some account_key else None.

Definition to_pem (k : private_key) : pystr :=
  match k with
  | ECKey _ _ => "PEM(ec)"
  | RSAKey _ _ => "PEM(rsa)"
  end.

Definition expiry (pem : bytes) : option pystr :=
  if String.eqb (bytes_decode pem) leaf_pem
  then Some "2027-01-01T00:00:00+00:00" else None.

Definition library : Library :=
  {| sha256 := digest;
     json_loads := parse;
     load_pem_private_key := load_pem;
     private_bytes := to_pem;
     csr_public_bytes := fun _ domain => str_encode ("CSR:" +++ domain);
     not_valid_after := expiry;
     py_repr := json_dumps |}.

Definition nonce_of (n : nat) : pystr :=
  "nonce-" +++ dumps_int (Z.of_nat n).

(** The server: [nonce] gives the nonce of the answer to the [n]-th
    signed request, [auth_status] and [order_status] the status the
    authorization and the order show at that request. *)
Definition server (nonce : nat -> pystr) (auth_status order_status : nat -> pystr)
    (n : nat) (url : pystr) (data : bytes) : http_result :=
  let reply (doc : json) (extra : headers) :=
    Http2xx (json_dumps doc) (extra ++ [("Replay-Nonce", nonce n)]) in
  if String.eqb url new_account_url then reply (JDict []) [("Location", account_url)]
  else if String.eqb url new_order_url then reply (order "pending") [("Location", order_url)]
  else if String.eqb url authz_url then reply (authorization (auth_status n)) []
  else if String.eqb url challenge_url then reply (JDict []) []
  else if String.eqb url finalize_url then reply (order "processing") []
  else if String.eqb url order_url then reply (order (order_status n)) []
  else if String.eqb url certificate_url
  then Http2xx (leaf_pem +++ issuer_pem) [("Replay-Nonce", nonce n)]
  else HttpError 404 "{}" [("Replay-Nonce", nonce n)].

Definition world (secret : secret_result) (token : list (pystr * pystr))
    (nonce : nat -> pystr) (auth_status order_status : nat -> pystr)
    (change_status : nat -> pystr) : World :=
  {| environ := [("DOMAIN", "example.com"); ("ZONE_ID", "Z1");
                 ("CERT_SECRET_ARN", "arn:cert")] ++ token;
     cryptography_importable := true;
     get_secret_value := fun _ => secret;
     put_secret_value := fun _ _ => None;
     ec_generate_private_key := fresh_key;
     rsa_generate_private_key := certificate_key;
     ecdsa_sign := fun n _ _ => (Z.of_nat n + 1, 2)%Z;
     urlopen := fun method url =>
       if String.eqb url ACME_DIRECTORY then Http2xx (json_dumps directory) []
       else if String.eqb url new_nonce_url
       then Http2xx EmptyString [("Replay-Nonce", "nonce-first")]
       else HttpError 404 "{}" [];
     acme_post := server nonce auth_status order_status;
     change_resource_record_sets := fun _ _ _ _ => Ok (change "PENDING");
     get_change := fun n _ => Ok (change (change_status n)) |}.

Definition run (w : World) (fuel : nat) :=
  generate_certificate library w fuel start.

(** The first run: no secret yet, the record in sync at the second
    query, the authorization valid at its second poll, the order at its
    third. *)
Definition first_run : World :=
  world SecretNotFound [] nonce_of
    (fun n => if (n <? 5)%nat then "pending" else "valid")
    (fun n => if (n <? 9)%nat then "processing" else "valid")
    (fun n => if (n <? 1)%nat then "PENDING" else "INSYNC").

(** A later run: a bundle is stored, a download token is configured. *)
Definition renewal : World :=
  world (SecretString (json_dumps stored_bundle)) [("CERT_TOKEN", "s3cret")]
    nonce_of
    (fun n => if (n <? 5)%nat then "pending" else "valid")
    (fun n => if (n <? 9)%nat then "processing" else "valid")
    (fun n => if (n <? 1)%nat then "PENDING" else "INSYNC").

(** The same store, with no download token configured. *)
Definition no_token : World :=
  world (SecretString (json_dumps stored_bundle)) [] nonce_of
    (fun _ => "valid") (fun _ => "valid") (fun _ => "INSYNC").

(** The store holds key bytes that are no PEM key. *)
Definition garbage_key : World :=
  world (SecretString (json_dumps (JDict [("account_key", JStr "garbage")])))
    [] nonce_of (fun _ => "valid") (fun _ => "valid") (fun _ => "INSYNC").


(** A DNS provider that never reports the change as in sync. *)
Definition never_insync : World :=
  world SecretNotFound [] nonce_of
    (fun _ => "valid") (fun _ => "valid") (fun _ => "PENDING").

(** The authorization turns invalid at its second poll. *)
Definition rejected : World :=
  world SecretNotFound [] nonce_of
    (fun n => if (n <? 5)%nat then "pending" else "invalid")
    (fun _ => "valid") (fun _ => "INSYNC").

(** The authorization stays pending. *)
Definition stalled : World :=
  world SecretNotFound [] nonce_of
    (fun _ => "pending") (fun _ => "valid") (fun _ => "INSYNC").

(** An API Gateway event for [GET /cert] with an authorization header. *)
Definition download_event (authorization : pystr) : json :=
  JDict [("requestContext", JDict [("http", JDict [("method", JStr "GET")])]);
         ("headers", JDict [("authorization", JStr authorization)])].

(** The payload of the account registration (source line 395), and the
    registration request of the first run. *)
Definition terms_of_service : json :=
  JDict [("termsOfServiceAgreed", JBool true)].

Definition registration :=
  acme_request first_run (JStr new_account_url) fresh_key None
    (Some "nonce-first") (Some terms_of_service) start.


(** The value of the last call of a trace, when it writes the secret. *)
Definition written (t : list event) : pystr :=
  match snd (last t (0, Sleep 0)) with
  | PutSecretValue _ value => value
  | _ => EmptyString
  end.


End Scenario.

(* ------------------------------------------------------------------ *)
(** ** Notions of the specification *)

(** A text between double quotes. *)
Definition quoted (s : pystr) : pystr := quote +++ s +++ quote.

(** The JSON object of RFC 7638 for an EC key: the members [crv], [kty],
    [x], [y] in this, the lexicographic, order, without white space. *)
Definition jwk_canonical_text (x64 y64 : pystr) : pystr :=
  "{" +++ quoted "crv" +++ ":" +++ quoted "P-256" +++ ","
      +++ quoted "kty" +++ ":" +++ quoted "EC" +++ ","
      +++ quoted "x" +++ ":" +++ quoted x64 +++ ","
      +++ quoted "y" +++ ":" +++ quoted y64 +++ "}".

(** A coordinate as 32 bytes, most significant first, in base64url. *)
Definition coordinate64 (z : Z) : pystr :=
  base64url_encode (Bytes (be_bytes 32 z)).

(** The text whose digest is the thumbprint of a key. *)
Definition thumbprint_input (k : private_key) : bytes :=
  match k with
  | ECKey x y =>
      str_encode (jwk_canonical_text (coordinate64 x) (coordinate64 y))
  | RSAKey _ _ => []
  end.

(** [h] tells [a] and [b] apart when they differ. *)
Definition no_collision (h : bytes -> bytes) (a b : bytes) : Prop :=
  a <> b -> h a <> h b.

(** The account key of the stored bundle, when the secret is there, is a
    JSON object with a text member [account_key], and that text is a PEM
    key that loads. *)
Definition stored_account_key (lib : Library) (w : World) (secret_arn : pystr)
  : option private_key :=
  match get_secret_value w secret_arn with
  | SecretString s =>
      match json_loads lib s with
      | Some (JDict d) =>
          match dict_get "account_key" d with
          | Some (JStr pem) => load_pem_private_key lib (str_encode pem)
          | _ => None
          end
      | _ => None
      end
  | _ => None
  end.

(* ------------------------------------------------------------------ *)
(** ** Base64url *)

(** Every character of [s] passes [p]. *)
Fixpoint all_chars (p : ascii -> bool) (s : pystr) : bool :=
match s with
| EmptyString => true
| String c s' => p c && all_chars p s'
end.

(** A character of the URL-safe alphabet; [=] is none. *)
Definition is_b64_char (c : ascii) : bool :=
existsb (Ascii.eqb c) (list_ascii_of_string b64_alphabet).

Definition b64_text (s : pystr) : bool := all_chars is_b64_char s.

(** The encoding without its padding. *)
Fixpoint b64_unpadded (data : bytes) : bytes :=
match data with
| [] => []
| [a] =>
    let a := Byte.to_N a in
    [b64_digit (a / 4); b64_digit ((a mod 4) * 16)]
| [a; b] =>
    let a := Byte.to_N a in
    let b := Byte.to_N b in
    [b64_digit (a / 4); b64_digit ((a mod 4) * 16 + b / 16);
     b64_digit ((b mod 16) * 4)]
| a :: b :: c :: rest =>
    let a := Byte.to_N a in
    let b := Byte.to_N b in
    let c := Byte.to_N c in
    b64_digit (a / 4) :: b64_digit ((a mod 4) * 16 + b / 16)
      :: b64_digit ((b mod 16) * 4 + c / 64) :: b64_digit (c mod 64)
      :: b64_unpadded rest
end%N.

(** The 6-bit group of a character of the alphabet. *)
Definition b64_value (c : byte) : N :=
match String.index 0 (String (ascii_of_byte c) EmptyString) b64_alphabet with
| Some n => N.of_nat n
| None => 64
end.

Section Base64.

Ltac nlia := zify; Z.to_euclidean_division_equations; lia.

(** A check of the 64 groups decides a property of all of them. *)
Lemma below_64 (p : N -> bool) :
  forallb (fun k => p (N.of_nat k)) (seq 0 64) = true ->
  forall n, (n < 64)%N -> p n = true.
Proof.
  intros H n Hn. rewrite forallb_forall in H.
  rewrite <- (N2Nat.id n). apply H. apply in_seq. lia.
Qed.

Lemma b64_value_digit n : (n < 64)%N -> b64_value (b64_digit n) = n.
Proof.
  intros Hn. apply N.eqb_eq. revert n Hn.
  apply (below_64 (fun n => N.eqb (b64_value (b64_digit n)) n)).
  vm_compute. reflexivity.
Qed.

Lemma b64_digit_inj n m :
  (n < 64)%N -> (m < 64)%N -> b64_digit n = b64_digit m -> n = m.
Proof.
  intros Hn Hm E. rewrite <- (b64_value_digit Hn), <- (b64_value_digit Hm), E.
  reflexivity.
Qed.

Lemma b64_digit_not_pad n : (n < 64)%N -> Byte.eqb (b64_digit n) pad = false.
Proof.
  intros Hn. apply negb_true_iff. revert n Hn.
  apply (below_64 (fun n => negb (Byte.eqb (b64_digit n) pad))).
  vm_compute. reflexivity.
Qed.

Lemma b64_digit_char n :
  (n < 64)%N -> is_b64_char (ascii_of_byte (b64_digit n)) = true.
Proof.
  revert n.
  apply (below_64 (fun n => is_b64_char (ascii_of_byte (b64_digit n)))).
  vm_compute. reflexivity.
Qed.

Lemma to_N_lt (b : byte) : (Byte.to_N b < 256)%N.
Proof. pose proof (Byte.to_N_bounded b). lia. Qed.

(** The groups of one, two and three bytes are below 64. *)
Lemma group_bounds (a b c : byte) :
  let a := Byte.to_N a in
  let b := Byte.to_N b in
  let c := Byte.to_N c in
  (a / 4 < 64 /\ (a mod 4) * 16 < 64 /\ (a mod 4) * 16 + b / 16 < 64
   /\ (b mod 16) * 4 < 64 /\ (b mod 16) * 4 + c / 64 < 64 /\ c mod 64 < 64)%N.
Proof.
  cbv zeta. pose proof (to_N_lt a). pose proof (to_N_lt b).
  pose proof (to_N_lt c). repeat split; nlia.
Qed.

Lemma rstrip_pad_cons x r :
  Byte.eqb x pad = false -> rstrip_pad (x :: r) = x :: rstrip_pad r.
Proof.
  intros H. cbn [rstrip_pad]. rewrite H. destruct (rstrip_pad r); reflexivity.
Qed.

Lemma rstrip_pad_pads : rstrip_pad [pad; pad] = [] /\ rstrip_pad [pad] = [].
Proof. split; reflexivity. Qed.

(** Induction three bytes at a time. *)
Lemma bytes_ind3 (P : bytes -> Prop) :
  P [] -> (forall a, P [a]) -> (forall a b, P [a; b]) ->
  (forall a b c rest, P rest -> P (a :: b :: c :: rest)) ->
  forall data, P data.
Proof.
  intros H0 H1 H2 H3.
  fix F 1.
  intros [| a [| b [| c rest]]];
    [apply H0 | apply H1 | apply H2 | apply H3; apply F].
Qed.

(** [rstrip(b'=')] takes the padding off, and nothing else. *)
Lemma rstrip_pad_encode data :
  rstrip_pad (urlsafe_b64encode data) = b64_unpadded data.
Proof.
  induction data as [| a | a b | a b c rest IH] using bytes_ind3.
  - reflexivity.
  - destruct (group_bounds a a a) as (H1 & H2 & _).
    cbn [urlsafe_b64encode b64_unpadded].
    rewrite !rstrip_pad_cons by (apply b64_digit_not_pad; assumption).
    reflexivity.
  - destruct (group_bounds a b b) as (H1 & _ & H3 & H4 & _).
    cbn [urlsafe_b64encode b64_unpadded].
    rewrite !rstrip_pad_cons by (apply b64_digit_not_pad; assumption).
    reflexivity.
  - destruct (group_bounds a b c) as (H1 & _ & H3 & _ & H5 & H6).
    cbn [urlsafe_b64encode b64_unpadded].
    rewrite !rstrip_pad_cons by (apply b64_digit_not_pad; assumption).
    rewrite IH. reflexivity.
Qed.

Lemma to_N_inj (a b : byte) : Byte.to_N a = Byte.to_N b -> a = b.
Proof.
  intros E. pose proof (Byte.of_to_N a) as Ha. rewrite E, Byte.of_to_N in Ha.
  congruence.
Qed.

Lemma unpack16 (h l h' l' : N) :
  (l < 16 -> l' < 16 -> h * 16 + l = h' * 16 + l' -> h = h' /\ l = l')%N.
Proof. intros. nlia. Qed.

Lemma unpack4 (h l h' l' : N) :
  (l < 4 -> l' < 4 -> h * 4 + l = h' * 4 + l' -> h = h' /\ l = l')%N.
Proof. intros. nlia. Qed.

Lemma div16_lt (b : N) : (b < 256 -> b / 16 < 16)%N.
Proof. intros. nlia. Qed.

Lemma div64_lt (c : N) : (c < 256 -> c / 64 < 4)%N.
Proof. intros. nlia. Qed.

Lemma unpack_byte (a a' : N) (k : N) :
  (k <> 0 -> a / k = a' / k -> a mod k = a' mod k -> a = a')%N.
Proof.
  intros Hk Hd Hm.
  rewrite (N.div_mod a k Hk), (N.div_mod a' k Hk), Hd, Hm. reflexivity.
Qed.

(** The encoding without padding is injective. *)
Lemma b64_unpadded_inj data data' :
  b64_unpadded data = b64_unpadded data' -> data = data'.
Proof.
  revert data'.
  induction data as [| a | a b | a b c rest IH] using bytes_ind3;
    intros [| a' [| b' [| c' rest']]] E;
    cbn [b64_unpadded] in E; try discriminate E; try reflexivity.
  - injection E as E1 E2.
    destruct (group_bounds a a a) as (H1 & H2 & _).
    destruct (group_bounds a' a' a') as (H1' & H2' & _).
    apply b64_digit_inj in E1, E2; try assumption.
    f_equal. apply to_N_inj.
    apply (@unpack_byte _ _ 4%N); [discriminate | exact E1 | lia].
  - injection E as E1 E2 E3.
    destruct (group_bounds a b b) as (H1 & _ & H3 & H4 & _).
    destruct (group_bounds a' b' b') as (H1' & _ & H3' & H4' & _).
    apply b64_digit_inj in E1, E2, E3; try assumption.
    apply unpack16 in E2;
      [| apply div16_lt, to_N_lt | apply div16_lt, to_N_lt].
    f_equal; [| f_equal]; apply to_N_inj.
    + apply (@unpack_byte _ _ 4%N); [discriminate | exact E1 | apply E2].
    + apply (@unpack_byte _ _ 16%N); [discriminate | apply E2 | lia].
  - injection E as E1 E2 E3 E4 E5.
    destruct (group_bounds a b c) as (H1 & _ & H3 & _ & H5 & H6).
    destruct (group_bounds a' b' c') as (H1' & _ & H3' & _ & H5' & H6').
    apply b64_digit_inj in E1, E2, E3, E4; try assumption.
    apply unpack16 in E2;
      [| apply div16_lt, to_N_lt | apply div16_lt, to_N_lt].
    apply unpack4 in E3;
      [| apply div64_lt, to_N_lt | apply div64_lt, to_N_lt].
    f_equal; [| f_equal; [| f_equal]]; try apply to_N_inj.
    + apply (@unpack_byte _ _ 4%N); [discriminate | exact E1 | apply E2].
    + apply (@unpack_byte _ _ 16%N); [discriminate | apply E2 | apply E3].
    + apply (@unpack_byte _ _ 64%N); [discriminate | apply E3 | exact E4].
    + apply IH. exact E5.
Qed.

Lemma base64url_encode_bytes data :
  base64url_encode (Bytes data) = bytes_decode (b64_unpadded data).
Proof. unfold base64url_encode. rewrite rstrip_pad_encode. reflexivity. Qed.

Lemma bytes_decode_inj (a b : bytes) : bytes_decode a = bytes_decode b -> a = b.
Proof.
  intros E. apply (f_equal list_byte_of_string) in E.
  unfold bytes_decode in E. rewrite !list_byte_of_string_of_list_byte in E.
  exact E.
Qed.

(** C6, C8: the unpadded encoding of bytes is injective. *)
Lemma base64url_encode_inj data data' :
  base64url_encode (Bytes data) = base64url_encode (Bytes data') ->
  data = data'.
Proof.
  rewrite !base64url_encode_bytes. intros E.
  apply b64_unpadded_inj, bytes_decode_inj, E.
Qed.

Lemma bytes_decode_cons b l :
  bytes_decode (b :: l) = String (ascii_of_byte b) (bytes_decode l).
Proof. reflexivity. Qed.

Lemma b64_unpadded_text data : b64_text (bytes_decode (b64_unpadded data)) = true.
Proof.
  unfold b64_text.
  induction data as [| a | a b | a b c rest IH] using bytes_ind3.
  - reflexivity.
  - destruct (group_bounds a a a) as (H1 & H2 & _).
    cbn [b64_unpadded]. rewrite !bytes_decode_cons. cbn [all_chars].
    rewrite !b64_digit_char by assumption. reflexivity.
  - destruct (group_bounds a b b) as (H1 & _ & H3 & H4 & _).
    cbn [b64_unpadded]. rewrite !bytes_decode_cons. cbn [all_chars].
    rewrite !b64_digit_char by assumption. reflexivity.
  - destruct (group_bounds a b c) as (H1 & _ & H3 & _ & H5 & H6).
    cbn [b64_unpadded]. rewrite !bytes_decode_cons. cbn [all_chars].
    rewrite !b64_digit_char by assumption. exact IH.
Qed.

(** The encoding uses the URL-safe alphabet only: it carries no [=]. *)
Lemma base64url_encode_text data : b64_text (base64url_encode data) = true.
Proof.
  unfold base64url_encode. rewrite rstrip_pad_encode. apply b64_unpadded_text.
Qed.

End Base64.


(* ------------------------------------------------------------------ *)
(** ** Splitting the PEM text *)

Section Strings.

Lemma append_assoc (a b c : pystr) : (a +++ b) +++ c = a +++ b +++ c.
Proof. induction a; simpl; [reflexivity | rewrite IHa; reflexivity]. Qed.


Lemma length_append (a b : pystr) :
  String.length (a +++ b) = String.length a + String.length b.
Proof. induction a; simpl; [reflexivity | rewrite IHa; reflexivity]. Qed.


Lemma prefix_cons a p b s :
  String.prefix (String a p) (String b s)
  = if Ascii.eqb a b then String.prefix p s else false.
Proof.
  cbn [String.prefix]. destruct (ascii_dec a b) as [-> | Hne].
  - rewrite Ascii.eqb_refl. reflexivity.
  - apply Ascii.eqb_neq in Hne. rewrite Hne. reflexivity.
Qed.


(** A prefix can be cut off again. *)
Lemma prefix_cut (p s : pystr) :
  String.prefix p s = true -> s = p +++ str_from (String.length p) s.
Proof.
  revert s. induction p as [| c p IH]; intros s H.
  - destruct s; reflexivity.
  - destruct s as [| d s]; [discriminate |].
    rewrite prefix_cons in H. destruct (Ascii.eqb c d) eqn:E; [| discriminate].
    apply Ascii.eqb_eq in E. subst d.
    cbn [String.length str_from append]. rewrite <- (IH s H). reflexivity.
Qed.







(** *** [split] *)



Lemma str_join_cons sep c p ps :
  str_join sep (String c p :: ps) = String c (str_join sep (p :: ps)).
Proof. destruct ps; reflexivity. Qed.

(** Joining the pieces gives the text back. *)
Lemma join_split_go c sep s k :
  str_join (String c sep)
           (fst (split_go (String c sep) k s)
            :: snd (split_go (String c sep) k s))
  = str_from k s.
Proof.
  revert k. induction s as [| d s IH]; intros k.
  - destruct k; reflexivity.
  - destruct k as [| k]; cbn [split_go str_from]; [| apply IH].
    destruct (String.prefix (String c sep) (String d s)) eqn:E.
    + specialize (IH (String.length (String c sep) - 1)).
      destruct (split_go (String c sep) (String.length (String c sep) - 1) s)
        as [p ps].
      cbn [fst snd] in *.
      change (str_join (String c sep) (EmptyString :: p :: ps))
        with (EmptyString +++ String c sep +++ str_join (String c sep) (p :: ps)).
      rewrite IH.
      apply prefix_cut in E. cbn [String.length str_from] in E.
      replace (String.length (String c sep) - 1) with (String.length sep)
        by (cbn [String.length]; lia).
      symmetry. exact E.
    + specialize (IH 0).
      destruct (split_go (String c sep) 0 s) as [p ps].
      cbn [fst snd] in *. rewrite str_join_cons. f_equal. exact IH.
Qed.

Lemma join_split c sep s :
  str_join (String c sep)
           (fst (str_split (String c sep) s)
            :: snd (str_split (String c sep) s)) = s.
Proof. apply (join_split_go c sep s 0). Qed.

(** *** [strip] *)



End Strings.


Section PemSplit.








End PemSplit.


(* ------------------------------------------------------------------ *)
(** ** The JWK thumbprint *)

Section Encodings.

(** *** UTF-8 *)

Lemma byte_of_ascii_inj a b : byte_of_ascii a = byte_of_ascii b -> a = b.
Proof.
  intros E. rewrite <- (ascii_of_byte_of_ascii a), E.
  apply ascii_of_byte_of_ascii.
Qed.

Lemma ascii_of_N_inj n m :
  (n < 256)%N -> (m < 256)%N -> ascii_of_N n = ascii_of_N m -> n = m.
Proof.
  intros Hn Hm E.
  rewrite <- (N_ascii_embedding n Hn), <- (N_ascii_embedding m Hm), E.
  reflexivity.
Qed.

Lemma N_of_ascii_inj a b : N_of_ascii a = N_of_ascii b -> a = b.
Proof.
  intros E. rewrite <- (ascii_N_embedding a), E. apply ascii_N_embedding.
Qed.

Lemma utf8_char_inj c1 c2 l1 l2 :
  utf8_char c1 ++ l1 = utf8_char c2 ++ l2 -> c1 = c2 /\ l1 = l2.
Proof.
  unfold utf8_char.
  pose proof (N_ascii_bounded c1) as B1. pose proof (N_ascii_bounded c2) as B2.
  assert (D1 : (N_of_ascii c1 / 64 < 4)%N)
    by (apply N.Div0.div_lt_upper_bound; lia).
  assert (D2 : (N_of_ascii c2 / 64 < 4)%N)
    by (apply N.Div0.div_lt_upper_bound; lia).
  assert (M1 : (N_of_ascii c1 mod 64 < 64)%N) by (apply N.mod_lt; discriminate).
  assert (M2 : (N_of_ascii c2 mod 64 < 64)%N) by (apply N.mod_lt; discriminate).
  remember (N_of_ascii c1 / 64)%N as q1 eqn:Eq1.
  remember (N_of_ascii c2 / 64)%N as q2 eqn:Eq2.
  remember (N_of_ascii c1 mod 64)%N as r1 eqn:Er1.
  remember (N_of_ascii c2 mod 64)%N as r2 eqn:Er2.
  remember (192 + q1)%N as h1 eqn:Eh1.
  remember (192 + q2)%N as h2 eqn:Eh2.
  remember (128 + r1)%N as t1 eqn:Et1.
  remember (128 + r2)%N as t2 eqn:Et2.
  destruct (N.ltb_spec (N_of_ascii c1) 128) as [S1 | L1];
    destruct (N.ltb_spec (N_of_ascii c2) 128) as [S2 | L2];
    intros E; injection E; clear E.
  - intros E2 E1. apply byte_of_ascii_inj in E1. auto.
  - intros E2 E1. apply byte_of_ascii_inj in E1.
    apply (f_equal N_of_ascii) in E1.
    rewrite N_ascii_embedding in E1 by lia. exfalso. lia.
  - intros E2 E1. apply byte_of_ascii_inj in E1.
    apply (f_equal N_of_ascii) in E1.
    rewrite N_ascii_embedding in E1 by lia. exfalso. lia.
  - intros E3 E2 E1.
    apply byte_of_ascii_inj, ascii_of_N_inj in E1; [| lia | lia].
    apply byte_of_ascii_inj, ascii_of_N_inj in E2; [| lia | lia].
    split; [| exact E3]. apply N_of_ascii_inj.
    apply (@unpack_byte _ _ 64%N); [discriminate | lia | lia].
Qed.

(** [str.encode] is injective. *)
Lemma str_encode_inj s1 s2 : str_encode s1 = str_encode s2 -> s1 = s2.
Proof.
  revert s2. induction s1 as [| c1 s1 IH]; intros [| c2 s2] E.
  - reflexivity.
  - cbn [str_encode] in E. unfold utf8_char in E.
    destruct (N_of_ascii c2 <? 128)%N; discriminate E.
  - cbn [str_encode] in E. unfold utf8_char in E.
    destruct (N_of_ascii c1 <? 128)%N; discriminate E.
  - cbn [str_encode] in E. apply utf8_char_inj in E. destruct E as [-> E].
    f_equal. apply IH. exact E.
Qed.

(** *** Integers as bytes *)

Lemma byte_of_Z_inj a b :
  (0 <= a < 256)%Z -> (0 <= b < 256)%Z -> byte_of_Z a = byte_of_Z b -> a = b.
Proof.
  unfold byte_of_Z. intros Ha Hb E.
  apply byte_of_ascii_inj, ascii_of_N_inj in E; lia.
Qed.

Lemma be_bytes_inj len a b :
  (0 <= a < 256 ^ Z.of_nat len)%Z -> (0 <= b < 256 ^ Z.of_nat len)%Z ->
  be_bytes len a = be_bytes len b -> a = b.
Proof.
  revert a b. induction len as [| len IH]; intros a b Ha Hb E.
  - change (256 ^ Z.of_nat 0)%Z with 1%Z in *. lia.
  - rewrite Nat2Z.inj_succ, Z.pow_succ_r in Ha, Hb by lia.
    cbn [be_bytes] in E. apply app_inj_tail in E. destruct E as [E1 E2].
    apply byte_of_Z_inj in E2; try (apply Z.mod_pos_bound; lia).
    apply IH in E1.
    + rewrite (Z.div_mod a 256), (Z.div_mod b 256), E1, E2 by lia.
      reflexivity.
    + split; [apply Z.div_pos; lia | apply Z.div_lt_upper_bound; lia].
    + split; [apply Z.div_pos; lia | apply Z.div_lt_upper_bound; lia].
Qed.

Lemma to_bytes_ok len z :
  (0 <= z < 256 ^ Z.of_nat len)%Z -> to_bytes len z = Ok (be_bytes len z).
Proof.
  intros [H1 H2]. unfold to_bytes.
  apply Z.leb_le in H1. apply Z.ltb_lt in H2. rewrite H1, H2. reflexivity.
Qed.

(** *** Strings of the alphabet in JSON *)

Lemma b64_char_cases c :
  is_b64_char c = true ->
  escape_char c = String c EmptyString /\ Ascii.eqb c (ascii_of_nat 34) = false.
Proof.
  unfold is_b64_char. intros H. apply existsb_exists in H.
  destruct H as (x & Hin & Hx). apply Ascii.eqb_eq in Hx. subst x.
  cbv [b64_alphabet list_ascii_of_string] in Hin.
  repeat (destruct Hin as [<- | Hin]; [split; reflexivity |]).
  contradiction.
Qed.

Lemma escape_b64_text s : b64_text s = true -> escape_str s = s.
Proof.
  unfold b64_text. induction s as [| c s IH]; intros H; [reflexivity |].
  cbn [all_chars] in H. apply andb_true_iff in H. destruct H as [Hc Hs].
  cbn [escape_str]. rewrite (proj1 (b64_char_cases c Hc)), (IH Hs).
  reflexivity.
Qed.

Lemma dumps_str_b64 s : b64_text s = true -> dumps_str s = quoted s.
Proof. intros H. unfold dumps_str, quoted. rewrite escape_b64_text; auto. Qed.

(** Two texts of the alphabet, each followed by a double quote. *)
Lemma quoted_tail_inj a b r r' :
  b64_text a = true -> b64_text b = true ->
  a +++ quote +++ r = b +++ quote +++ r' -> a = b /\ r = r'.
Proof.
  unfold b64_text. revert b.
  induction a as [| c a IH]; intros [| d b] Ha Hb E.
  - injection E as E. auto.
  - cbn [all_chars] in Hb. apply andb_true_iff in Hb. destruct Hb as [Hd _].
    apply b64_char_cases in Hd. destruct Hd as [_ Hd].
    injection E as E _. rewrite <- E in Hd. discriminate Hd.
  - cbn [all_chars] in Ha. apply andb_true_iff in Ha. destruct Ha as [Hc _].
    apply b64_char_cases in Hc. destruct Hc as [_ Hc].
    injection E as E _. rewrite E in Hc. discriminate Hc.
  - cbn [all_chars] in Ha, Hb.
    apply andb_true_iff in Ha. apply andb_true_iff in Hb.
    injection E as -> E. apply IH in E; [| apply Ha | apply Hb].
    destruct E as [-> ->]. auto.
Qed.

Lemma coordinate64_text z : b64_text (coordinate64 z) = true.
Proof. apply base64url_encode_text. Qed.

Lemma append_inv_head (p a b : pystr) : p +++ a = p +++ b -> a = b.
Proof.
  induction p as [| c p IH]; intros E; [exact E |].
  injection E as E. apply IH. exact E.
Qed.

Lemma jwk_canonical_text_inj x y x' y' :
  b64_text x = true -> b64_text y = true ->
  b64_text x' = true -> b64_text y' = true ->
  jwk_canonical_text x y = jwk_canonical_text x' y' -> x = x' /\ y = y'.
Proof.
  intros Hx Hy Hx' Hy' E. unfold jwk_canonical_text, quoted in E.
  rewrite !append_assoc in E.
  repeat apply append_inv_head in E.
  apply quoted_tail_inj in E; try assumption. destruct E as [-> E].
  repeat apply append_inv_head in E.
  apply quoted_tail_inj in E; try assumption. destruct E as [-> _]. auto.
Qed.

End Encodings.

Section ThumbprintFacts.

Variable sha256 : bytes -> bytes.

(** The members of [jwk] are written in sorted order already. *)
Lemma sort_items_jwk (a b c d : pystr) :
  sort_items [("crv", a); ("kty", b); ("x", c); ("y", d)]
  = [("crv", a); ("kty", b); ("x", c); ("y", d)].
Proof. reflexivity. Qed.

(** The canonical JSON of the source is the text of RFC 7638. *)
Lemma jwk_json_canonical x y :
  json_dumps_canonical
    (JDict (jwk_of (be_bytes 32 x) (be_bytes 32 y)))
  = jwk_canonical_text (coordinate64 x) (coordinate64 y).
Proof.
  unfold json_dumps_canonical, jwk_of.
  cbn [dumps map fst snd]. rewrite sort_items_jwk.
  cbn [str_join map fst snd].
  fold (coordinate64 x). fold (coordinate64 y).
  rewrite !dumps_str_b64 by (reflexivity || apply coordinate64_text).
  unfold jwk_canonical_text. rewrite !append_assoc. reflexivity.
Qed.

Lemma jwk_thumbprint_p256 x y :
  (0 <= x < 2 ^ 256)%Z -> (0 <= y < 2 ^ 256)%Z ->
  jwk_thumbprint sha256 (ECKey x y)
  = Ok (base64url_encode (Bytes (sha256 (thumbprint_input (ECKey x y))))).
Proof.
  intros Hx Hy. unfold jwk_thumbprint, thumbprint_input.
  rewrite !to_bytes_ok by (change (256 ^ Z.of_nat 32)%Z with (2 ^ 256)%Z; lia).
  cbn [rbind]. rewrite jwk_json_canonical. reflexivity.
Qed.

Lemma thumbprint_input_inj x y x' y' :
  (0 <= x < 2 ^ 256)%Z -> (0 <= y < 2 ^ 256)%Z ->
  (0 <= x' < 2 ^ 256)%Z -> (0 <= y' < 2 ^ 256)%Z ->
  thumbprint_input (ECKey x y) = thumbprint_input (ECKey x' y') ->
  x = x' /\ y = y'.
Proof.
  intros Hx Hy Hx' Hy' E. unfold thumbprint_input in E.
  apply str_encode_inj, jwk_canonical_text_inj in E;
    try apply coordinate64_text.
  destruct E as [Ex Ey]. unfold coordinate64 in Ex, Ey.
  change (2 ^ 256)%Z with (256 ^ Z.of_nat 32)%Z in Hx, Hy, Hx', Hy'.
  apply base64url_encode_inj, be_bytes_inj in Ex; [| assumption | assumption].
  apply base64url_encode_inj, be_bytes_inj in Ey; [| assumption | assumption].
  split; assumption.
Qed.

(** C6: for a P-256 key the thumbprint is the unpadded base64url of the
    SHA-256 digest of the JSON object with exactly the members [crv], [kty],
    [x] and [y], in lexicographic order and without white space, [x] and [y]
    being the 32-byte big-endian coordinates in base64url.  It is a function
    of the key, and it differs between two distinct keys whenever SHA-256
    tells their two JSON texts apart. *)
Theorem jwk_thumbprint_rfc7638 k1 k2 :
  is_p256_key k1 -> is_p256_key k2 ->
  jwk_thumbprint sha256 k1
  = Ok (base64url_encode (Bytes (sha256 (thumbprint_input k1))))
  /\ (k1 = k2 -> jwk_thumbprint sha256 k1 = jwk_thumbprint sha256 k2)
  /\ (no_collision sha256 (thumbprint_input k1) (thumbprint_input k2) ->
      k1 <> k2 -> jwk_thumbprint sha256 k1 <> jwk_thumbprint sha256 k2).
Proof.
  destruct k1 as [x y | n e]; [| intros []].
  destruct k2 as [x' y' | n e]; [| intros _ []].
  intros [Hx Hy] [Hx' Hy']. split; [| split].
  - apply jwk_thumbprint_p256; assumption.
  - intros ->. reflexivity.
  - intros Hsha Hne E. rewrite !jwk_thumbprint_p256 in E by assumption.
    injection E as E. apply base64url_encode_inj in E.
    destruct (list_eq_dec Byte.byte_eq_dec (thumbprint_input (ECKey x y))
                (thumbprint_input (ECKey x' y'))) as [Eq | Neq].
    + apply thumbprint_input_inj in Eq; try assumption.
      destruct Eq as [-> ->]. apply Hne. reflexivity.
    + exact (Hsha Neq E).
Qed.

End ThumbprintFacts.


(* ------------------------------------------------------------------ *)
(** ** Reasoning about runs *)

(** *** Properties of every event of a computation *)

Definition emits {A} (P : event -> Prop) (m : M A) : Prop :=
  forall s, Forall P (trace (m s)).

Lemma emits_ret {A} P (a : A) : emits P (ret a).
Proof. intros s. constructor. Qed.

Lemma emits_raise {A} P e : emits P (@raise A e).
Proof. intros s. constructor. Qed.

Lemma emits_out_of_fuel {A} P : emits P (@out_of_fuel A).
Proof. intros s. constructor. Qed.

Lemma emits_lift {A} P (r : result A) : emits P (lift r).
Proof. destruct r; [apply emits_ret | apply emits_raise]. Qed.

Lemma emits_emit P c : P (0, c) -> emits P (emit c).
Proof. intros H s. repeat constructor. exact H. Qed.

Lemma emits_bind {A B} P (m : M A) (f : A -> M B) :
  emits P m -> (forall a, emits P (f a)) -> emits P (bind m f).
Proof.
  intros Hm Hf s. unfold trace, bind. specialize (Hm s). unfold trace in Hm.
  destruct (m s) as [[o s1] t1]. destruct o; simpl in *; auto.
  specialize (Hf a s1). unfold trace in Hf.
  destruct (f a s1) as [[o2 s2] t2]. simpl in *.
  apply Forall_app. split; assumption.
Qed.

Lemma emits_try {A} P (m : M A) (h : exn -> M A) :
  emits P m -> (forall e, emits P (h e)) -> emits P (try_except m h).
Proof.
  intros Hm Hh s. unfold trace, try_except. specialize (Hm s). unfold trace in Hm.
  destruct (m s) as [[o s1] t1]. destruct o; simpl in *; auto.
  specialize (Hh e s1). unfold trace in Hh.
  destruct (h e s1) as [[o2 s2] t2]. simpl in *.
  apply Forall_app. split; assumption.
Qed.

Lemma emits_at_line {A} (P : event -> Prop) l (m : M A) :
  emits (fun e => P (l, snd e)) m -> emits P (m @@ l).
Proof.
  intros Hm s. unfold trace, at_line. specialize (Hm s). unfold trace in Hm.
  destruct (m s) as [[o s1] t1]. simpl in *.
  apply Forall_map. exact Hm.
Qed.


Lemma emits_weaken {A} (P Q : event -> Prop) (m : M A) :
  (forall e, P e -> Q e) -> emits P m -> emits Q m.
Proof. intros HPQ Hm s. eapply Forall_impl; [exact HPQ | apply Hm]. Qed.

(** *** Computations that leave the query counter alone and need no fuel *)

Definition steady {A} (m : M A) : Prop :=
  forall s, polls (snd (fst (m s))) = polls s /\ result_of (m s) <> OutOfFuel.

Lemma steady_ret {A} (a : A) : steady (ret a).
Proof. intros s; split; [reflexivity | discriminate]. Qed.

Lemma steady_raise {A} e : steady (@raise A e).
Proof. intros s; split; [reflexivity | discriminate]. Qed.

Lemma steady_lift {A} (r : result A) : steady (lift r).
Proof. destruct r; [apply steady_ret | apply steady_raise]. Qed.

Lemma steady_emit c : steady (emit c).
Proof. intros s; split; [reflexivity | discriminate]. Qed.

Lemma steady_bind {A B} (m : M A) (f : A -> M B) :
  steady m -> (forall a, steady (f a)) -> steady (bind m f).
Proof.
  intros Hm Hf s. unfold result_of, bind. destruct (Hm s) as [Hp Hr].
  unfold result_of in Hr.
  destruct (m s) as [[o s1] t1]. destruct o; simpl in *;
    try (split; [assumption | congruence]).
  destruct (Hf a s1) as [Hp2 Hr2]. unfold result_of in Hr2.
  destruct (f a s1) as [[o2 s2] t2]. simpl in *. split; congruence.
Qed.

Lemma steady_try {A} (m : M A) (h : exn -> M A) :
  steady m -> (forall e, steady (h e)) -> steady (try_except m h).
Proof.
  intros Hm Hh s. unfold result_of, try_except. destruct (Hm s) as [Hp Hr].
  unfold result_of in Hr.
  destruct (m s) as [[o s1] t1]. destruct o; simpl in *;
    try (split; [assumption | congruence]).
  destruct (Hh e s1) as [Hp2 Hr2]. unfold result_of in Hr2.
  destruct (h e s1) as [[o2 s2] t2]. simpl in *. split; congruence.
Qed.

Lemma steady_at_line {A} l (m : M A) : steady m -> steady (m @@ l).
Proof.
  intros Hm s. unfold result_of, at_line. destruct (Hm s) as [Hp Hr].
  unfold result_of in Hr.
  destruct (m s) as [[o s1] t1]. simpl in *. auto.
Qed.

(** *** Inversion of a sequence *)

Lemma bind_inv {A B} (m : M A) (f : A -> M B) s o s' t :
  bind m f s = (o, s', t) ->
  (exists a s1 t1 t2,
      m s = (Returns a, s1, t1) /\ f a s1 = (o, s', t2) /\ t = t1 ++ t2)
  \/ (exists e, m s = (Raises e, s', t) /\ o = Raises e)
  \/ (m s = (OutOfFuel, s', t) /\ o = OutOfFuel).
Proof.
  unfold bind. destruct (m s) as [[o1 s1] t1]. destruct o1.
  - destruct (f a s1) as [[o2 s2] t2] eqn:E. intros H; inversion H; subst.
    left. exists a, s1, t1, t2. auto.
  - intros H; inversion H; subst. right; left. eauto.
  - intros H; inversion H; subst. right; right. auto.
Qed.

Lemma bind_returns {A B} (m : M A) (f : A -> M B) s a s1 t1 :
  m s = (Returns a, s1, t1) ->
  bind m f s =
  (fst (fst (f a s1)), snd (fst (f a s1)), t1 ++ snd (f a s1)).
Proof.
  intros H. unfold bind. rewrite H. destruct (f a s1) as [[o2 s2] t2].
  reflexivity.
Qed.

Lemma bind_raises {A B} (m : M A) (f : A -> M B) s e s1 t1 :
  m s = (Raises e, s1, t1) -> bind m f s = (Raises e, s1, t1).
Proof. intros H. unfold bind. rewrite H. reflexivity. Qed.

Lemma bind_out_of_fuel {A B} (m : M A) (f : A -> M B) s s1 t1 :
  m s = (OutOfFuel, s1, t1) -> bind m f s = (OutOfFuel, s1, t1).
Proof. intros H. unfold bind. rewrite H. reflexivity. Qed.

(** *** Equations of a sequence *)

Lemma bind_ret {A B} (a : A) (f : A -> M B) s : bind (ret a) f s = f a s.
Proof. unfold bind, ret. destruct (f a s) as [[o s1] t1]. reflexivity. Qed.

Lemma bind_raise {A B} e (f : A -> M B) s :
  bind (raise e) f s = (Raises e, s, []).
Proof. reflexivity. Qed.

Lemma bind_lift {A B} (r : result A) (f : A -> M B) s :
  bind (lift r) f s =
  match r with
  | Ok a => f a s
  | Raised e => (Raises e, s, [])
  end.
Proof. destruct r; [apply bind_ret | reflexivity]. Qed.

(** *** Signed requests *)

(** What [acme_request] makes of the reply to its request. *)
Definition acme_outcome (reply : http_result)
  : outcome (response * option pystr) :=
  match reply with
  | Http2xx b h =>
      Returns ({| body := b; resp_headers := dict_of_headers h |},
               msg_get "Replay-Nonce" h)
  | HttpError code b _ => Raises (Exception (MsgAcme code b))
  | HttpFail e => Raises e
  end.

Section Facts.

Variable lib : Library.
Variable w : World.

Lemma bind_sign {B} key input (f : Z * Z -> M B) s :
  bind (sign w key input) f s = f (ecdsa_sign w (posts s) key input) s.
Proof.
  unfold bind, sign.
  destruct (f (ecdsa_sign w (posts s) key input) s) as [[o s1] t1].
  reflexivity.
Qed.

(** [acme_request] either raises before it sends anything, or sends
    exactly one request, with the nonce and the payload it was given, and
    ends as the reply to that request decides. *)
Lemma acme_request_inv url key au nonce payload s o s' t :
  acme_request w url key au nonce payload s = (o, s', t) ->
  (t = [] /\ s' = s /\ exists e, o = Raises e)
  \/ (exists u prot sig,
        url = JStr u /\
        let data :=
          str_encode (json_dumps (JDict (jws prot (payload_b64 payload) sig))) in
        let reply := acme_post w (posts s) u data in
        t = [(0, AcmePost u nonce payload data reply)]
        /\ s' = {| posts := S (posts s); polls := polls s |}
        /\ o = acme_outcome reply).
Proof.
  unfold acme_request. intros H.
  destruct key as [nx ny | n e];
    [rewrite bind_ret in H | rewrite bind_raise in H].
  2: { inversion H; subst. left; repeat split; eauto. }
  rewrite bind_lift in H. destruct (to_bytes 32 nx) as [x | e].
  2: { inversion H; subst. left; repeat split; eauto. }
  rewrite bind_lift in H. destruct (to_bytes 32 ny) as [y | e].
  2: { inversion H; subst. left; repeat split; eauto. }
  cbv zeta in H. rewrite bind_sign in H.
  destruct (ecdsa_sign w (posts s) (ECKey nx ny) _) as [r sg].
  rewrite bind_lift in H. destruct (to_bytes 32 r) as [rb | e].
  2: { inversion H; subst. left; repeat split; eauto. }
  rewrite bind_lift in H. destruct (to_bytes 32 sg) as [sb | e].
  2: { inversion H; subst. left; repeat split; eauto. }
  rewrite bind_lift in H.
  destruct url; cbv beta iota delta [request_url] in H;
    try (inversion H; subst; left; repeat split; eauto; fail).
  right. do 3 eexists. split; [reflexivity |]. cbv zeta.
  unfold bind, urlopen_post in H.
  match type of H with
  | context [acme_post w (posts s) ?u ?d] =>
      destruct (acme_post w (posts s) u d) eqn:E
  end; unfold ret, raise in H; inversion H; subst; clear H;
    rewrite E; repeat split; reflexivity.
Qed.

Lemma emits_acme_request (P : event -> Prop) url key au nonce payload :
  (forall u d r, P (0, AcmePost u nonce payload d r)) ->
  emits P (acme_request w url key au nonce payload).
Proof.
  intros HP s. unfold trace.
  destruct (acme_request w url key au nonce payload s) as [[o s'] t] eqn:E.
  apply acme_request_inv in E.
  destruct E as [(-> & _) | (u & prot & sg & _ & E)]; simpl.
  - constructor.
  - cbv zeta in E. destruct E as (-> & _). repeat constructor. apply HP.
Qed.

Lemma emits_get_change (P : event -> Prop) id :
  P (0, GetChange id) -> emits P (route53_get_change w id).
Proof. intros HP s. repeat constructor. exact HP. Qed.

Lemma steady_acme_request url key au nonce payload :
  steady (acme_request w url key au nonce payload).
Proof.
  intros s. unfold result_of.
  destruct (acme_request w url key au nonce payload s) as [[o s'] t] eqn:E.
  apply acme_request_inv in E.
  destruct E as [(_ & -> & e & ->) | (u & prot & sg & _ & E)]; simpl.
  - split; [reflexivity | discriminate].
  - cbv zeta in E. destruct E as (_ & -> & ->). split; [reflexivity |].
    destruct (acme_post w (posts s) u _); discriminate.
Qed.

(** *** Where each call is made *)

(** Every kind of call has its lines in [generate_certificate]. *)
Definition well_placed (e : event) : Prop :=
  match snd e with
  | GetSecretValue _ => fst e = 140
  | PutSecretValue _ _ => fst e = 341
  | UrlOpen _ _ => In (fst e) [159; 162]
  | AcmePost _ _ _ _ _ => In (fst e) [165; 188; 197; 248; 252; 267; 271; 285]
  | ChangeRecordSets _ _ _ _ => In (fst e) [219; 302]
  | GetChange _ => fst e = 238
  | Sleep n =>
      In (fst e, n) [(241, 5%Z); (244, 10%Z); (261, 2%Z); (279, 2%Z)]
  end.

(** An event of the lines [lo..hi], at a line of its kind. *)
Definition placed (lo hi : nat) (e : event) : Prop :=
  lo <= fst e <= hi /\ well_placed e.

Lemma placed_weaken lo hi lo' hi' e :
  lo' <= lo -> hi <= hi' -> placed lo hi e -> placed lo' hi' e.
Proof. unfold placed. intros ? ? [? ?]. split; [lia | assumption]. Qed.

Ltac emits_leaf :=
  intros; cbv beta; unfold placed, well_placed; simpl;
  repeat split; auto 12; lia.

Ltac emits_go :=
  repeat first
    [ apply emits_acme_request; intros
    | apply emits_get_change
    | apply emits_ret | apply emits_raise | apply emits_lift
    | apply emits_out_of_fuel
    | apply emits_bind; [| intros]
    | apply emits_try; [| intros]
    | apply emits_at_line
    | apply emits_emit
    | match goal with
      | |- emits _ (match ?x with _ => _ end) => destruct x
      end
    | progress unfold secrets_get_secret_value, secrets_put_secret_value,
        route53_change, time_sleep, fetch_url, fetch_url_headers, fetch,
        acme_register ];
  try emits_leaf.

Ltac steady_go :=
  repeat first
    [ apply steady_acme_request
    | apply steady_ret | apply steady_raise | apply steady_lift
    | apply steady_bind; [| intros]
    | apply steady_try; [| intros]
    | apply steady_at_line
    | apply steady_emit
    | match goal with
      | |- steady (match ?x with _ => _ end) => destruct x
      end
    | progress unfold secrets_get_secret_value, secrets_put_secret_value,
        route53_change, time_sleep, fetch_url, fetch_url_headers, fetch,
        acme_register ].

Lemma get_or_create_account_key_placed secret_arn :
  emits (placed 140 140) (get_or_create_account_key lib w secret_arn).
Proof. unfold get_or_create_account_key, load_account_key. emits_go. Qed.

Lemma open_account_placed key :
  emits (placed 159 165) (open_account lib w key).
Proof. unfold open_account. emits_go. Qed.

Lemma create_order_placed domain directory key au nonce :
  emits (placed 188 197) (create_order lib w domain directory key au nonce).
Proof. unfold create_order. emits_go. Qed.

Lemma provision_challenge_placed domain zone key auth :
  emits (placed 219 219) (provision_challenge lib w domain zone key auth).
Proof. unfold provision_challenge. emits_go. Qed.

Lemma wait_insync_placed fuel id :
  emits (placed 238 241) (wait_insync w fuel id).
Proof. induction fuel; simpl; emits_go; try apply IHfuel. Qed.

Lemma poll_authorization_placed n auth_url key au nonce :
  emits (placed 252 261) (poll_authorization lib w n auth_url key au nonce).
Proof.
  revert nonce. induction n; intros nonce; simpl; emits_go; try apply IHn.
Qed.

Lemma poll_order_placed n order_url key au nonce :
  emits (placed 271 279) (poll_order lib w n order_url key au nonce).
Proof.
  revert nonce. induction n; intros nonce; simpl; emits_go; try apply IHn.
Qed.

Lemma download_certificate_placed order key au nonce :
  emits (placed 285 285) (download_certificate lib w order key au nonce).
Proof. unfold download_certificate. emits_go. Qed.

Lemma cleanup_placed zone txt_name dns_value :
  emits (placed 302 302) (cleanup w zone txt_name dns_value).
Proof. unfold cleanup. emits_go. Qed.

Lemma store_placed secret_arn domain cert_key key certificate chain expires :
  emits (placed 341 341)
        (store lib w secret_arn domain cert_key key certificate chain expires).
Proof. unfold store. emits_go. Qed.

Lemma get_or_create_account_key_steady secret_arn :
  steady (get_or_create_account_key lib w secret_arn).
Proof. unfold get_or_create_account_key, load_account_key. steady_go. Qed.

Lemma open_account_steady key : steady (open_account lib w key).
Proof. unfold open_account. steady_go. Qed.

Lemma create_order_steady domain directory key au nonce :
  steady (create_order lib w domain directory key au nonce).
Proof. unfold create_order. steady_go. Qed.

Lemma provision_challenge_steady domain zone key auth :
  steady (provision_challenge lib w domain zone key auth).
Proof. unfold provision_challenge. steady_go. Qed.

Lemma poll_authorization_steady n auth_url key au nonce :
  steady (poll_authorization lib w n auth_url key au nonce).
Proof.
  revert nonce. induction n; intros nonce; simpl; steady_go; try apply IHn.
Qed.

Lemma poll_order_steady n order_url key au nonce :
  steady (poll_order lib w n order_url key au nonce).
Proof.
  revert nonce. induction n; intros nonce; simpl; steady_go; try apply IHn.
Qed.

Lemma download_certificate_steady order key au nonce :
  steady (download_certificate lib w order key au nonce).
Proof. unfold download_certificate. steady_go. Qed.

Lemma cleanup_steady zone txt_name dns_value :
  steady (cleanup w zone txt_name dns_value).
Proof. unfold cleanup. steady_go. Qed.

Lemma store_steady secret_arn domain cert_key key certificate chain expires :
  steady (store lib w secret_arn domain cert_key key certificate chain expires).
Proof. unfold store. steady_go. Qed.

Lemma emits_placed_in {A} lo hi lo' hi' (m : M A) :
  emits (placed lo hi) m -> lo' <= lo -> hi <= hi' ->
  emits (placed lo' hi') m.
Proof.
  intros H Hlo Hhi. eapply emits_weaken; [| exact H].
  intros e. apply placed_weaken; assumption.
Qed.

Ltac emits_phases :=
  repeat first
    [ eapply emits_placed_in;
      [ first [ apply get_or_create_account_key_placed
              | apply open_account_placed
              | apply create_order_placed
              | apply provision_challenge_placed
              | apply wait_insync_placed
              | apply poll_authorization_placed
              | apply poll_order_placed
              | apply download_certificate_placed
              | apply cleanup_placed
              | apply store_placed ]
      | lia | lia ]
    | apply emits_acme_request; intros
    | apply emits_ret | apply emits_raise | apply emits_lift
    | apply emits_bind; [| intros]
    | apply emits_at_line
    | apply emits_emit
    | match goal with
      | |- emits _ (match ?x with _ => _ end) => destruct x
      end
    | progress unfold time_sleep ];
  try emits_leaf.

Ltac steady_phases :=
  repeat first
    [ apply get_or_create_account_key_steady
    | apply open_account_steady
    | apply create_order_steady
    | apply provision_challenge_steady
    | apply poll_authorization_steady
    | apply poll_order_steady
    | apply download_certificate_steady
    | apply cleanup_steady
    | apply store_steady
    | apply steady_acme_request
    | apply steady_ret | apply steady_raise | apply steady_lift
    | apply steady_bind; [| intros]
    | apply steady_at_line
    | apply steady_emit
    | match goal with
      | |- steady (match ?x with _ => _ end) => destruct x
      end
    | progress unfold time_sleep ].

Lemma order_challenge_placed d z a :
  emits (placed 140 219) (order_challenge lib w d z a).
Proof. unfold order_challenge. emits_phases. Qed.

Lemma notify_challenge_placed v :
  emits (placed 244 248) (notify_challenge w v).
Proof. unfold notify_challenge. emits_phases. Qed.

Lemma obtain_certificate_placed v nonce :
  emits (placed 267 302) (obtain_certificate lib w v nonce).
Proof. unfold obtain_certificate. emits_phases. Qed.

Lemma order_challenge_steady d z a : steady (order_challenge lib w d z a).
Proof. unfold order_challenge. steady_phases. Qed.

Lemma notify_challenge_steady v : steady (notify_challenge w v).
Proof. unfold notify_challenge. steady_phases. Qed.

Lemma obtain_certificate_steady v nonce :
  steady (obtain_certificate lib w v nonce).
Proof. unfold obtain_certificate. steady_phases. Qed.

(** Every call of a run is made at a line of its kind. *)
Lemma issue_placed fuel d z a : emits (placed 140 341) (issue lib w fuel d z a).
Proof.
  unfold issue. emits_phases;
    first [ eapply emits_placed_in;
            [ first [ apply order_challenge_placed
                    | apply notify_challenge_placed
                    | apply obtain_certificate_placed ] | lia | lia ] ].
Qed.

Lemma generate_certificate_placed fuel :
  emits (placed 140 341) (generate_certificate lib w fuel).
Proof.
  unfold generate_certificate.
  repeat (apply emits_bind; [apply emits_lift | intros]).
  destruct (cryptography_importable w); [apply issue_placed | apply emits_ret].
Qed.

(** The events of a run that ended, by the property of its computation. *)
Lemma emits_run {A} (P : event -> Prop) (m : M A) s o s' t :
  emits P m -> m s = (o, s', t) -> Forall P t.
Proof. intros H E. specialize (H s). unfold trace in H. rewrite E in H. exact H. Qed.


(* ---------------------------------------------------------------- *)
(** ** The account key *)

(** C3 (amended): loading the account key never fails.  The stored key is
    reused whenever it is there and loads; in every other case (no secret,
    a secret that cannot be read or parsed, no key in it, key bytes that
    are malformed) a fresh key is generated, and no error is signalled. *)
Theorem account_key_reused_or_created secret_arn s :
  result_of (get_or_create_account_key lib w secret_arn s)
  = Returns (match stored_account_key lib w secret_arn with
             | Some key => key
             | None => ec_generate_private_key w
             end).
Proof.
  unfold get_or_create_account_key, load_account_key, stored_account_key,
    secrets_get_secret_value, loads, contains, getitem, dict_mem, result_of,
    try_except, bind, at_line, lift, emit, ret, raise.
  destruct (get_secret_value w secret_arn) as [str | | e]; simpl; auto.
  destruct (json_loads lib str) as [j |]; simpl; auto.
  destruct j as [ | b | z | text | l | d]; simpl; auto.
  - destruct (String.index 0 "account_key" text); reflexivity.
  - destruct (existsb _ l); reflexivity.
  - destruct (dict_get "account_key" d) as [v |]; simpl; auto.
    destruct v as [ | b | z | pem | l | d']; simpl; auto.
    destruct (load_pem_private_key lib (str_encode pem)); reflexivity.
Qed.

(* ---------------------------------------------------------------- *)
(** ** The download of the certificate *)

Lemma dict_pop_gone k d : dict_get k (dict_pop k d) = None.
Proof.
  induction d as [| [k' v] d IH]; simpl; [reflexivity |].
  destruct (String.eqb k k') eqn:E; [exact IH |].
  simpl. rewrite E. exact IH.
Qed.

Lemma dict_pop_other k k' d :
  k' <> k -> dict_get k' (dict_pop k d) = dict_get k' d.
Proof.
  intros Hk. induction d as [| [k0 v] d IH]; simpl; [reflexivity |].
  destruct (String.eqb k k0) eqn:E.
  - apply String.eqb_eq in E. subst k0.
    destruct (String.eqb k' k) eqn:E'; [| exact IH].
    apply String.eqb_eq in E'. contradiction.
  - simpl. rewrite IH. reflexivity.
Qed.

(** The answer to an authorized download when the secret holds a JSON
    object. *)
Definition certificate_response (d : dict) : json :=
  JDict [("statusCode", JNum 200);
         ("headers", JDict [("Content-Type", JStr "application/json")]);
         ("body", JStr (json_dumps (JDict (dict_pop "account_key" d))))].

Lemma serve_certificate_not_found secret_arn s :
  os_environ w "CERT_SECRET_ARN" = Ok secret_arn ->
  get_secret_value w secret_arn = SecretNotFound ->
  result_of (serve_certificate lib w s) = Returns not_found.
Proof.
  intros Harn Hget.
  unfold serve_certificate, retrieve_certificate, try_except, result_of.
  rewrite bind_lift, Harn.
  unfold secrets_get_secret_value, bind, at_line, emit. rewrite Hget.
  reflexivity.
Qed.

Lemma serve_certificate_found secret_arn text d s :
  os_environ w "CERT_SECRET_ARN" = Ok secret_arn ->
  get_secret_value w secret_arn = SecretString text ->
  json_loads lib text = Some (JDict d) ->
  result_of (serve_certificate lib w s) = Returns (certificate_response d).
Proof.
  intros Harn Hget Hloads.
  unfold serve_certificate, retrieve_certificate, try_except, result_of.
  rewrite bind_lift, Harn.
  unfold secrets_get_secret_value, loads, bind, at_line, emit, lift.
  rewrite Hget. simpl. rewrite Hloads. reflexivity.
Qed.

Lemma serve_certificate_not_forbidden s :
  result_of (serve_certificate lib w s) <> Returns forbidden.
Proof.
  unfold serve_certificate, retrieve_certificate, try_except, result_of.
  rewrite bind_lift. destruct (os_environ w "CERT_SECRET_ARN") as [arn | e].
  2: { destruct e; discriminate. }
  unfold secrets_get_secret_value, loads, bind, at_line, emit, lift.
  destruct (get_secret_value w arn) as [text | | e]; simpl;
    [| discriminate | destruct e; discriminate].
  destruct (json_loads lib text) as [j |]; simpl; [| discriminate].
  destruct j; simpl; discriminate.
Qed.

Lemma authorized_request event hdrs token s :
  value_get event "headers" (JDict []) = Ok hdrs ->
  value_get hdrs "authorization" (JStr EmptyString)
  = Ok (JStr ("Bearer " +++ token)) ->
  os_environ_get w "CERT_TOKEN" = token ->
  handle_api_request lib w event s = serve_certificate lib w s.
Proof.
  intros Hh Ha Ht. unfold handle_api_request.
  rewrite bind_lift, Hh, bind_lift, Ha. cbv zeta. rewrite bind_ret, Ht.
  simpl. rewrite String.eqb_refl.
  replace (startswith token EmptyString) with true
    by (destruct token; reflexivity).
  reflexivity.
Qed.

(** C9: a download that passes the authorization check is answered with
    the stored bundle without its member [account_key], every other member
    kept; when the secret store has no value yet, the answer is the
    not-found response (status 404). *)
Theorem fetch_current_hides_account_key event hdrs token secret_arn s :
  value_get event "headers" (JDict []) = Ok hdrs ->
  value_get hdrs "authorization" (JStr EmptyString)
  = Ok (JStr ("Bearer " +++ token)) ->
  os_environ_get w "CERT_TOKEN" = token ->
  os_environ w "CERT_SECRET_ARN" = Ok secret_arn ->
  (get_secret_value w secret_arn = SecretNotFound ->
   result_of (handle_api_request lib w event s) = Returns not_found
   /\ getitem not_found "statusCode" = Ok (JNum 404))
  /\ (forall text d,
        get_secret_value w secret_arn = SecretString text ->
        json_loads lib text = Some (JDict d) ->
        result_of (handle_api_request lib w event s)
        = Returns (certificate_response d)
        /\ dict_get "account_key" (dict_pop "account_key" d) = None
        /\ forall k, k <> "account_key" ->
                     dict_get k (dict_pop "account_key" d) = dict_get k d).
Proof.
  intros Hh Ha Ht Harn. split.
  - intros Hget. split; [| reflexivity].
    rewrite (authorized_request event s Hh Ha Ht).
    eapply serve_certificate_not_found; eassumption.
  - intros text d Hget Hloads. split; [| split].
    + rewrite (authorized_request event s Hh Ha Ht).
      eapply serve_certificate_found; eassumption.
    + apply dict_pop_gone.
    + intros k Hk. apply dict_pop_other. exact Hk.
Qed.

(** C10: when no token is configured, or an empty one, a download whose
    authorization header is exactly ["Bearer "] passes the check: it is
    served as an authorized request is, never with the 403 response, and
    with the certificate when the secret holds one. *)
Theorem empty_token_is_accepted event hdrs s :
  sdict_get "CERT_TOKEN" (environ w) = None
  \/ sdict_get "CERT_TOKEN" (environ w) = Some EmptyString ->
  value_get event "headers" (JDict []) = Ok hdrs ->
  value_get hdrs "authorization" (JStr EmptyString) = Ok (JStr "Bearer ") ->
  handle_api_request lib w event s = serve_certificate lib w s
  /\ result_of (handle_api_request lib w event s) <> Returns forbidden
  /\ forall secret_arn text d,
       os_environ w "CERT_SECRET_ARN" = Ok secret_arn ->
       get_secret_value w secret_arn = SecretString text ->
       json_loads lib text = Some (JDict d) ->
       result_of (handle_api_request lib w event s)
       = Returns (certificate_response d).
Proof.
  intros Htoken Hh Ha.
  assert (Ht : os_environ_get w "CERT_TOKEN" = EmptyString).
  { unfold os_environ_get. destruct Htoken as [-> | ->]; reflexivity. }
  assert (E : handle_api_request lib w event s = serve_certificate lib w s).
  { apply authorized_request with (hdrs := hdrs) (token := EmptyString);
      assumption. }
  split; [exact E |]. rewrite E. split.
  - apply serve_certificate_not_forbidden.
  - intros secret_arn text d Harn Hget Hloads.
    eapply serve_certificate_found; eassumption.
Qed.


(* ---------------------------------------------------------------- *)
(** ** The payload of a signed request *)

(** C8 (amended): the body of every signed request is the JSON text of a
    JWS whose member [payload] is the empty string when the request has no
    payload (POST-as-GET), and otherwise the unpadded base64url of
    [json.dumps] of the payload with its default separators, [", "] between
    items and [": "] after a key.  The field is in the URL-safe alphabet,
    so it has no [=]. *)
Theorem jws_payload_field url key au nonce payload s l u n p data reply :
  In (l, AcmePost u n p data reply)
     (trace (acme_request w url key au nonce payload s)) ->
  exists protected_b64 signature_bytes,
    let field :=
      match payload with
      | None => EmptyString
      | Some request_body => base64url_encode (Str (json_dumps request_body))
      end in
    data = str_encode
             (json_dumps (JDict (jws protected_b64 field signature_bytes)))
    /\ dict_get "payload" (jws protected_b64 field signature_bytes)
       = Some (JStr field)
    /\ b64_text field = true.
Proof.
  unfold trace.
  destruct (acme_request w url key au nonce payload s) as [[o s'] t] eqn:E.
  apply acme_request_inv in E. cbn [snd].
  destruct E as [(-> & _) | (u' & prot & sg & _ & E)]; [intros [] |].
  cbv zeta in E. destruct E as (-> & _ & _). intros [H | []].
  injection H as _ _ _ _ <- _. exists prot, sg. cbv zeta.
  split; [reflexivity | split; [reflexivity |]].
  destruct payload; [apply base64url_encode_text | reflexivity].
Qed.


(* ---------------------------------------------------------------- *)
(** ** The authorization poll loop *)

Lemma at_line_inv {A} l (m : M A) s o s' t :
  (m @@ l) s = (o, s', t) ->
  exists t0, m s = (o, s', t0) /\ t = map (fun e => (l, snd e)) t0.
Proof.
  unfold at_line. destruct (m s) as [[o0 s0] t0]. intros E.
  injection E as -> -> <-. eauto.
Qed.

(** A signed request made at line [l]. *)
Lemma acme_request_at_inv l url key au nonce payload s o s' t :
  (acme_request w url key au nonce payload @@ l) s = (o, s', t) ->
  (t = [] /\ s' = s /\ exists e, o = Raises e)
  \/ (exists u data,
        url = JStr u
        /\ t = [(l, AcmePost u nonce payload data (acme_post w (posts s) u data))]
        /\ s' = {| posts := S (posts s); polls := polls s |}
        /\ o = acme_outcome (acme_post w (posts s) u data)).
Proof.
  intros E. apply at_line_inv in E. destruct E as (t0 & E & ->).
  apply acme_request_inv in E.
  destruct E as [(-> & -> & e & ->) | (u & prot & sg & -> & E)].
  - left. repeat split. eauto.
  - cbv zeta in E. destruct E as (-> & -> & ->). right.
    do 2 eexists. repeat split.
Qed.

(** The number of events of line [l]. *)
Definition count_line (l : nat) (t : list event) : nat :=
  List.length (filter (fun e : event => Nat.eqb (fst e) l) t).

Lemma count_line_app l t1 t2 :
  count_line l (t1 ++ t2) = count_line l t1 + count_line l t2.
Proof. unfold count_line. rewrite filter_app, List.length_app. reflexivity. Qed.

(** No event of [t] is of line [l] when all are of other lines. *)
Lemma count_line_placed l lo hi t :
  Forall (placed lo hi) t -> l < lo \/ hi < l -> count_line l t = 0.
Proof.
  intros H Hl. unfold count_line. induction H as [| e t [He _] _ IH]; [reflexivity |].
  cbn [filter]. destruct (Nat.eqb_spec (fst e) l); [lia | exact IH].
Qed.

(** The JSON document a poll received, when it got one. *)
Definition poll_reply (e : event) : option json :=
  match snd e with
  | AcmePost _ _ _ _ (Http2xx b _) => json_loads lib b
  | _ => None
  end.

(** The status of a document is neither ["valid"] nor ["invalid"]. *)
Definition undecided (doc : json) : Prop :=
  exists status,
    getitem doc "status" = Ok status
    /\ is_str status "valid" = false /\ is_str status "invalid" = false.

(** Requests of line [l], with a sleep of two seconds at line [l'] after
    each one that is followed by anything. *)
Fixpoint spaced (l l' : nat) (t : list event) : Prop :=
  match t with
  | [] => True
  | request :: rest =>
      fst request = l
      /\ match rest with
         | [] => True
         | pause :: rest' => pause = (l', Sleep 2) /\ spaced l l' rest'
         end
  end.

(** One iteration of the loop of lines 251-263. *)
Lemma poll_authorization_step n url key au nonce s :
  poll_authorization lib w (S n) url key au nonce s
  = match (acme_request w url key au nonce None @@ 252) s with
    | (Returns (resp, nonce'), s1, t1) =>
        match json_loads lib (body resp) with
        | None => (Raises JSONDecodeError, s1, t1)
        | Some auth =>
            match getitem auth "status" with
            | Raised e => (Raises e, s1, t1)
            | Ok status =>
                if is_str status "valid" then (Returns nonce', s1, t1)
                else if is_str status "invalid"
                then (Raises (Exception (MsgChallengeFailed auth)), s1, t1)
                else
                  match poll_authorization lib w n url key au nonce' s1 with
                  | (o, s2, t2) => (o, s2, t1 ++ (261, Sleep 2) :: t2)
                  end
            end
        end
    | (Raises e, s1, t1) => (Raises e, s1, t1)
    | (OutOfFuel, s1, t1) => (OutOfFuel, s1, t1)
    end.
Proof.
  cbn [poll_authorization]. unfold bind at 1.
  destruct ((acme_request w url key au nonce None @@ 252) s)
    as [[[[resp nonce'] | e |] s1] t1]; try reflexivity.
  rewrite bind_lift. unfold loads.
  destruct (json_loads lib (body resp)) as [auth |];
    [| cbn; rewrite app_nil_r; reflexivity].
  rewrite bind_lift.
  destruct (getitem auth "status") as [status | e] eqn:Es;
    [| cbn; rewrite app_nil_r; reflexivity].
  destruct (is_str status "valid");
    [unfold ret; rewrite app_nil_r; reflexivity |].
  rewrite bind_lift.
  destruct (is_str status "invalid");
    [unfold raise; rewrite app_nil_r; reflexivity |].
  unfold bind, at_line, time_sleep, emit.
  destruct (poll_authorization lib w n url key au nonce' s1) as [[o s2] t2].
  reflexivity.
Qed.

Lemma is_str_eq v s : is_str v s = true -> v = JStr s.
Proof.
  destruct v; try discriminate. cbn. intros H.
  apply String.eqb_eq in H. congruence.
Qed.

(** What a run of the loop looks like. *)
Lemma poll_authorization_run n url key au nonce s o s' t :
  poll_authorization lib w n url key au nonce s = (o, s', t) ->
  count_line 252 t <= n
  /\ spaced 252 261 t
  /\ (forall pre e post auth,
         t = pre ++ e :: post -> fst e = 252 ->
         poll_reply e = Some auth ->
         getitem auth "status" = Ok (JStr "invalid") ->
         post = [] /\ o = Raises (Exception (MsgChallengeFailed auth)))
  /\ (count_line 252 t = n ->
      (forall e, In e t -> fst e = 252 ->
                 exists doc, poll_reply e = Some doc /\ undecided doc) ->
      o = Raises (Exception MsgChallengeTimeout)).
Proof.
  revert nonce s o s' t. induction n as [| n IH]; intros nonce s o s' t H.
  - cbn in H. injection H as <- <- <-.
    split; [cbn; lia | split; [exact I | split]].
    + intros [| ? ?] ? ? ? E; discriminate E.
    + reflexivity.
  - rewrite poll_authorization_step in H.
    destruct ((acme_request w url key au nonce None @@ 252) s)
      as [[o1 s1] t1] eqn:E1.
    apply acme_request_at_inv in E1.
    destruct E1 as [(-> & -> & e & ->) | (u & data & -> & -> & -> & ->)].
    { injection H as <- <- <-.
      split; [cbn; lia | split; [exact I | split]].
      - intros [| ? ?] ? ? ? E; discriminate E.
      - intros E; discriminate E. }
    set (reply := acme_post w (posts s) u data) in *.
    set (ev := (252, AcmePost u nonce None data reply)) in *.
    assert (Hone : forall (o0 : outcome (option pystr)),
               (forall auth, poll_reply ev = Some auth ->
                             getitem auth "status" = Ok (JStr "invalid") ->
                             o0 = Raises (Exception (MsgChallengeFailed auth))) ->
               (forall doc, poll_reply ev = Some doc -> ~ undecided doc) ->
               count_line 252 [ev] <= S n
               /\ spaced 252 261 [ev]
               /\ (forall pre e post auth,
                      [ev] = pre ++ e :: post -> fst e = 252 ->
                      poll_reply e = Some auth ->
                      getitem auth "status" = Ok (JStr "invalid") ->
                      post = [] /\ o0 = Raises (Exception (MsgChallengeFailed auth)))
               /\ (count_line 252 [ev] = S n ->
                   (forall e, In e [ev] -> fst e = 252 ->
                              exists doc, poll_reply e = Some doc /\ undecided doc) ->
                   o0 = Raises (Exception MsgChallengeTimeout))).
    { intros o0 Hinv Hund.
      split; [cbn; lia | split; [split; [reflexivity | exact I] | split]].
      - intros pre e post auth E He Hr Hs.
        destruct pre as [| x pre]; [| destruct pre; discriminate E].
        injection E as <- <-. split; [reflexivity | apply Hinv; assumption].
      - intros _ Hall. destruct (Hall ev (or_introl eq_refl) eq_refl)
          as (doc & Hdoc & Hu). destruct (Hund doc Hdoc Hu). }
    assert (Hrep : poll_reply ev
                   = match reply with
                     | Http2xx b _ => json_loads lib b
                     | _ => None
                     end) by reflexivity.
    assert (Hline : fst ev = 252) by reflexivity.
    clearbody ev. unfold acme_outcome in H.
    destruct reply as [b h | code b h | e];
      try (injection H as <- <- <-; apply Hone; rewrite Hrep;
           [intros auth Ha; discriminate Ha | intros doc Ha; discriminate Ha]).
    cbn [body] in H.
    destruct (json_loads lib b) as [auth |] eqn:El;
      [| injection H as <- <- <-; apply Hone; rewrite Hrep;
         [intros a Ha; discriminate Ha | intros a Ha; discriminate Ha]].
    destruct (getitem auth "status") as [status | e] eqn:Es;
      [| injection H as <- <- <-; apply Hone; rewrite Hrep;
         [intros a Ha; injection Ha as <-; congruence
         | intros a Ha [st [Hst _]]; injection Ha as <-; congruence]].
    destruct (is_str status "valid") eqn:Ev.
    { injection H as <- <- <-. apply is_str_eq in Ev. subst status.
      apply Hone; rewrite Hrep.
      - intros a Ha Hs. injection Ha as <-. rewrite Es in Hs. discriminate Hs.
      - intros a Ha [st (Hst & Hv & _)]. injection Ha as <-.
        rewrite Es in Hst. injection Hst as <-. discriminate Hv. }
    destruct (is_str status "invalid") eqn:Ei.
    { injection H as <- <- <-. apply Hone; rewrite Hrep.
      - intros a Ha _. injection Ha as <-. reflexivity.
      - intros a Ha [st (Hst & _ & Hi)]. injection Ha as <-.
        rewrite Es in Hst. injection Hst as <-. congruence. }
    destruct (poll_authorization lib w n (JStr u) key au
                (msg_get "Replay-Nonce" h)
                {| posts := S (posts s); polls := polls s |})
      as [[o2 s2] t2] eqn:E2.
    injection H as <- <- <-. apply IH in E2.
    destruct E2 as (Hc & Hsp & Hinv & Hto).
    change ([ev] ++ (261, Sleep 2) :: t2) with (ev :: (261, Sleep 2) :: t2).
    split; [| split; [| split]].
    + unfold count_line in *. cbn [filter]. rewrite Hline.
      cbn [Nat.eqb fst filter List.length]. cbn in Hc |- *. lia.
    + split; [exact Hline | split; [reflexivity | exact Hsp]].
    + intros pre e post auth0 E He Hr Hs.
      destruct pre as [| x pre].
      * injection E as <- _. rewrite Hrep in Hr. injection Hr as <-.
        rewrite Es in Hs. injection Hs as ->. discriminate Ei.
      * destruct pre as [| y pre].
        -- injection E as _ <- _. discriminate He.
        -- injection E as _ _ E.
           apply (Hinv pre e post auth0 E He Hr Hs).
    + intros Hn Hall. apply Hto.
      * unfold count_line in *. cbn [filter] in Hn. rewrite Hline in Hn.
        cbn in Hn |- *. lia.
      * intros e He. apply Hall. right. right. exact He.
Qed.


(** An element found in the middle one of three lists. *)
Lemma split_middle {A} (P : A -> Prop) (t0 tl t2 pre : list A) e post :
  Forall (fun x => ~ P x) t0 -> Forall (fun x => ~ P x) t2 -> P e ->
  t0 ++ tl ++ t2 = pre ++ e :: post ->
  exists pre' post', tl = pre' ++ e :: post' /\ pre = t0 ++ pre'
                     /\ post = post' ++ t2.
Proof.
  intros H0 H2 He. revert pre.
  induction H0 as [| x t0 Hx _ IH0]; intros pre E.
  - cbn [app] in E. revert pre E.
    induction tl as [| x tl IHl]; intros pre E.
    + cbn [app] in E. exfalso. rewrite Forall_forall in H2.
      apply (H2 e); [rewrite E; apply in_elt | exact He].
    + destruct pre as [| y pre].
      * injection E as -> E. exists [], tl. auto.
      * injection E as -> E. destruct (IHl pre E) as (pre' & post' & -> & -> & ->).
        exists (y :: pre'), post'. auto.
  - destruct pre as [| y pre].
    + injection E as -> _. contradiction.
    + injection E as -> E. destruct (IH0 pre E) as (pre' & post' & -> & -> & ->).
      exists pre', post'. auto.
Qed.

Lemma placed_line lo hi e : placed lo hi e -> lo <= fst e <= hi.
Proof. intros [H _]. exact H. Qed.

Lemma placed_not_line l lo hi t :
  Forall (placed lo hi) t -> l < lo \/ hi < l ->
  Forall (fun e => ~ fst e = l) t.
Proof.
  intros H Hl. eapply Forall_impl; [| exact H].
  intros e [He _] E. lia.
Qed.

(** The events of lines 252 and 261. *)
Definition in_poll_loop (e : event) : bool :=
  Nat.eqb (fst e) 252 || Nat.eqb (fst e) 261.

Lemma filter_outside lo hi t :
  Forall (placed lo hi) t -> hi < 252 \/ 261 < lo -> filter in_poll_loop t = [].
Proof.
  intros H Hl. induction H as [| e t [He _] _ IH]; [reflexivity |].
  cbn [filter]. unfold in_poll_loop at 1.
  destruct (Nat.eqb_spec (fst e) 252); [lia |].
  destruct (Nat.eqb_spec (fst e) 261); [lia |]. exact IH.
Qed.

Lemma filter_inside t :
  Forall (placed 252 261) t -> filter in_poll_loop t = t.
Proof.
  intros H. induction H as [| e t [He Hw] _ IH]; [reflexivity |].
  cbn [filter]. rewrite IH. unfold in_poll_loop.
  assert (Hl : fst e = 252 \/ fst e = 261).
  { unfold well_placed in Hw. destruct e as [l c]. cbn [fst snd] in *.
    destruct c; cbn [In] in Hw;
      repeat match goal with
             | H : _ \/ _ |- _ => destruct H
             | H : (_, _) = (_, _) |- _ => injection H as ? ?
             end; subst; try lia; try contradiction; auto. }
  destruct Hl as [-> | ->]; reflexivity.
Qed.

(** A run of [issue] stops before the loop of lines 251-263, or goes
    through it. *)
Lemma issue_poll_inv fuel d z a s o s' t :
  issue lib w fuel d z a s = (o, s', t) ->
  (Forall (placed 140 248) t /\ forall x, o <> Returns x)
  \/ exists t0 v nonce s1 ol sl tl t2,
       Forall (placed 140 248) t0
       /\ poll_authorization lib w 30 (auth_url v) (account_key v)
                             (account_url v) nonce s1 = (ol, sl, tl)
       /\ t = t0 ++ tl ++ t2
       /\ Forall (placed 267 341) t2
       /\ match ol with
          | Returns _ => True
          | Raises e => o = Raises e /\ t2 = []
          | OutOfFuel => o = OutOfFuel /\ t2 = []
          end.
Proof.
  unfold issue. intros H.
  assert (W : forall lo hi, 140 <= lo -> hi <= 248 ->
                   forall e : event, placed lo hi e -> placed 140 248 e).
  { intros lo hi ? ? e. apply placed_weaken; assumption. }
  apply bind_inv in H.
  destruct H as [(v & s1 & t1 & r1 & E1 & H & ->) | [(e & E1 & ->) | (E1 & ->)]].
  2, 3: left; split; [| discriminate];
    (eapply emits_run in E1; [| apply order_challenge_placed]);
    eapply Forall_impl; [apply (W 140 219); lia | exact E1].
  (eapply emits_run in E1; [| apply order_challenge_placed]).
  apply bind_inv in H.
  destruct H as [(u & s2 & t2 & r2 & E2 & H & ->) | [(e & E2 & ->) | (E2 & ->)]].
  2, 3: left; split; [| discriminate];
    (eapply emits_run in E2; [| apply wait_insync_placed]);
    apply Forall_app; split;
    (eapply Forall_impl; [| eassumption]); [apply (W 140 219) | apply (W 238 241)]; lia.
  (eapply emits_run in E2; [| apply wait_insync_placed]).
  apply bind_inv in H.
  destruct H as [(nonce & s3 & t3 & r3 & E3 & H & ->) | [(e & E3 & ->) | (E3 & ->)]].
  2, 3: left; split; [| discriminate];
    (eapply emits_run in E3; [| apply notify_challenge_placed]);
    repeat (apply Forall_app; split);
    (eapply Forall_impl; [| eassumption]);
    [apply (W 140 219) | apply (W 238 241) | apply (W 244 248)]; lia.
  (eapply emits_run in E3; [| apply notify_challenge_placed]).
  assert (F0 : Forall (placed 140 248) (t1 ++ t2 ++ t3)).
  { repeat (apply Forall_app; split);
      (eapply Forall_impl; [| eassumption]);
      [apply (W 140 219) | apply (W 238 241) | apply (W 244 248)]; lia. }
  right. exists (t1 ++ t2 ++ t3), v, nonce, s3.
  apply bind_inv in H.
  destruct H as [(n' & s4 & tl & r4 & E4 & H & ->) | [(e & E4 & ->) | (E4 & ->)]].
  - exists (Returns n'), s4, tl, r4. split; [exact F0 |]. split; [exact E4 |].
    split; [rewrite <- !app_assoc; reflexivity |]. split; [| exact I].
    revert H. apply emits_run. emits_phases;
      eapply emits_placed_in;
      first [ apply obtain_certificate_placed | apply store_placed | lia ].
  - exists (Raises e), s', r3, []. split; [exact F0 |]. split; [exact E4 |].
    split; [rewrite app_nil_r, <- !app_assoc; reflexivity |]. auto.
  - exists OutOfFuel, s', r3, []. split; [exact F0 |]. split; [exact E4 |].
    split; [rewrite app_nil_r, <- !app_assoc; reflexivity |]. auto.
Qed.

(** A run of [generate_certificate] makes no call, or is a run of
    [issue]. *)
Lemma generate_certificate_inv fuel s o s' t :
  generate_certificate lib w fuel s = (o, s', t) ->
  (t = [] /\ o <> OutOfFuel)
  \/ exists d z a, issue lib w fuel d z a s = (o, s', t).
Proof.
  unfold generate_certificate. intros H.
  rewrite bind_lift in H. destruct (os_environ w "DOMAIN") as [d | e].
  2: { injection H as <- <- <-. left. split; [reflexivity | discriminate]. }
  rewrite bind_lift in H. destruct (os_environ w "ZONE_ID") as [z | e].
  2: { injection H as <- <- <-. left. split; [reflexivity | discriminate]. }
  rewrite bind_lift in H. destruct (os_environ w "CERT_SECRET_ARN") as [a | e].
  2: { injection H as <- <- <-. left. split; [reflexivity | discriminate]. }
  destruct (cryptography_importable w).
  - right. eauto.
  - injection H as <- <- <-. left. split; [reflexivity | discriminate].
Qed.


(** C4: in every run the authorization is polled (line 252) at most 30
    times, with a sleep of two seconds (line 261) between one poll and the
    next; a poll that receives the status ["invalid"] is the last call of
    the run, which raises the exception for a failed challenge with the
    document received; and when 30 polls each receive a status that is
    neither ["valid"] nor ["invalid"] (as ["pending"] is), the run raises
    the timeout exception and makes no finalize request (line 267). *)
Theorem authorization_polling fuel s :
  count_line 252 (trace (generate_certificate lib w fuel s)) <= 30
  /\ spaced 252 261
       (filter in_poll_loop (trace (generate_certificate lib w fuel s)))
  /\ (forall pre e post auth,
         trace (generate_certificate lib w fuel s) = pre ++ e :: post ->
         fst e = 252 ->
         poll_reply e = Some auth ->
         getitem auth "status" = Ok (JStr "invalid") ->
         post = []
         /\ result_of (generate_certificate lib w fuel s)
            = Raises (Exception (MsgChallengeFailed auth)))
  /\ (count_line 252 (trace (generate_certificate lib w fuel s)) = 30 ->
      (forall e, In e (trace (generate_certificate lib w fuel s)) ->
                 fst e = 252 ->
                 exists doc, poll_reply e = Some doc /\ undecided doc) ->
      result_of (generate_certificate lib w fuel s)
      = Raises (Exception MsgChallengeTimeout)
      /\ count_line 267 (trace (generate_certificate lib w fuel s)) = 0).
Proof.
  unfold trace, result_of.
  destruct (generate_certificate lib w fuel s) as [[o s'] t] eqn:E.
  cbn [fst snd].
  assert (Hnone : Forall (placed 140 248) t ->
            count_line 252 t <= 30
            /\ spaced 252 261 (filter in_poll_loop t)
            /\ (forall pre e post auth,
                   t = pre ++ e :: post -> fst e = 252 ->
                   poll_reply e = Some auth ->
                   getitem auth "status" = Ok (JStr "invalid") ->
                   post = [] /\ o = Raises (Exception (MsgChallengeFailed auth)))
            /\ (count_line 252 t = 30 ->
                (forall e, In e t -> fst e = 252 ->
                           exists doc, poll_reply e = Some doc /\ undecided doc) ->
                o = Raises (Exception MsgChallengeTimeout)
                /\ count_line 267 t = 0)).
  { intros F.
    assert (C : count_line 252 t = 0)
      by (eapply count_line_placed; [exact F | lia]).
    split; [lia | split; [| split]].
    - rewrite (@filter_outside _ _ _ F) by lia. exact I.
    - intros pre e post auth Et He _ _. exfalso.
      rewrite Forall_forall in F.
      assert (Hin : In e t) by (rewrite Et; apply in_elt).
      apply F, placed_line in Hin. lia.
    - intros C30 _. lia. }
  apply generate_certificate_inv in E.
  destruct E as [(-> & _) | (d & z & a & E)]; [apply Hnone; constructor |].
  apply issue_poll_inv in E.
  destruct E as [(F & _) | (t0 & v & nonce & s1 & ol & sl & tl & t2
                             & F0 & Ep & -> & F2 & Hol)];
    [apply Hnone; exact F |].
  clear Hnone.
  assert (Fl : Forall (placed 252 261) tl)
    by (eapply emits_run; [apply poll_authorization_placed | exact Ep]).
  apply poll_authorization_run in Ep.
  destruct Ep as (Hc & Hsp & Hinv & Hto).
  assert (C0 : count_line 252 t0 = 0)
    by (eapply count_line_placed; [exact F0 | lia]).
  assert (C2 : count_line 252 t2 = 0)
    by (eapply count_line_placed; [exact F2 | lia]).
  split; [| split; [| split]].
  - rewrite !count_line_app. lia.
  - rewrite !filter_app, (@filter_outside _ _ _ F0), (@filter_outside _ _ _ F2) by lia.
    rewrite (@filter_inside _ Fl), app_nil_r. exact Hsp.
  - intros pre e post auth Et He Hr Hs.
    apply (split_middle (fun x : event => fst x = 252)) in Et;
      [| apply (@placed_not_line 252 _ _ _ F0); lia
       | apply (@placed_not_line 252 _ _ _ F2); lia
       | exact He].
    destruct Et as (pre' & post' & Etl & -> & ->).
    destruct (Hinv pre' e post' auth Etl He Hr Hs) as [-> ->].
    destruct Hol as [-> ->]. auto.
  - intros C30 Hall. rewrite !count_line_app in C30.
    assert (Hol' : ol = Raises (Exception MsgChallengeTimeout)).
    { apply Hto; [lia |]. intros e He. apply Hall.
      apply in_or_app. right. apply in_or_app. left. exact He. }
    rewrite Hol' in Hol. destruct Hol as [-> ->]. split; [reflexivity |].
    rewrite !count_line_app.
    rewrite (@count_line_placed 267 _ _ _ F0), (@count_line_placed 267 _ _ _ Fl) by lia.
    reflexivity.
Qed.


(* ---------------------------------------------------------------- *)
(** ** The write to the secret store *)

Lemma bind_returns_inv {A B} (m : M A) (f : A -> M B) s b s' t :
  bind m f s = (Returns b, s', t) ->
  exists a s1 t1 t2,
    m s = (Returns a, s1, t1) /\ f a s1 = (Returns b, s', t2) /\ t = t1 ++ t2.
Proof.
  intros H. apply bind_inv in H.
  destruct H as [H | [(e & _ & H) | (_ & H)]]; [exact H | discriminate H ..].
Qed.

(** A write to the secret store. *)
Definition is_write (e : event) : bool :=
  match snd e with
  | PutSecretValue _ _ => true
  | _ => false
  end.

Lemma placed_no_write lo hi t :
  Forall (placed lo hi) t -> hi < 341 -> filter is_write t = [].
Proof.
  intros H Hhi. induction H as [| e t [He Hw] _ IH]; [reflexivity |].
  cbn [filter]. rewrite IH. unfold is_write, well_placed in *.
  destruct (snd e); try reflexivity. lia.
Qed.

(** The certificate was downloaded at line 285 and the bundle put
    together from it: [value] is the JSON text of the bundle whose
    certificate and chain are the two parts of the text received, and whose
    expiry is read from that certificate. *)
Definition assembled_from (pre : list event) (value : pystr) : Prop :=
  exists url nonce data pem hdrs site cert_key account_key expires,
    In (285, AcmePost url nonce None data (Http2xx pem hdrs)) pre
    /\ not_valid_after lib (str_encode (fst (split_chain pem))) = Some expires
    /\ value
       = json_dumps
           (cert_data (fst (split_chain pem)) (snd (split_chain pem))
              (private_bytes lib cert_key) site expires
              (private_bytes lib account_key)).

Lemma download_certificate_inv doc key au nonce s certificate chain expires s' t :
  download_certificate lib w doc key au nonce s
  = (Returns (certificate, chain, expires), s', t) ->
  exists url data pem hdrs,
    t = [(285, AcmePost url nonce None data (Http2xx pem hdrs))]
    /\ split_chain pem = (certificate, chain)
    /\ not_valid_after lib (str_encode certificate) = Some expires.
Proof.
  unfold download_certificate. intros H. rewrite bind_lift in H.
  destruct (getitem doc "certificate") as [url |]; [| discriminate H].
  apply bind_returns_inv in H.
  destruct H as ([resp n'] & s1 & t1 & t2 & E1 & H & ->).
  apply acme_request_at_inv in E1.
  destruct E1 as [(_ & _ & e & E1) | (u & data & -> & -> & -> & E1)];
    [discriminate E1 |].
  destruct (acme_post w (posts s) u data) as [pem hdrs | |] eqn:Er;
    try discriminate E1.
  cbn [acme_outcome] in E1. injection E1 as -> ->. cbn [body] in H.
  destruct (split_chain pem) as [c ch] eqn:Es.
  destruct (not_valid_after lib (str_encode c)) as [ex |] eqn:Ex;
    [| discriminate H].
  rewrite bind_ret in H. injection H as <- <- <- _ <-.
  exists u, data, pem, hdrs. auto.
Qed.

Lemma obtain_certificate_inv v nonce s certificate chain expires s' t :
  obtain_certificate lib w v nonce s
  = (Returns (certificate, chain, expires), s', t) ->
  exists url n data pem hdrs,
    In (285, AcmePost url n None data (Http2xx pem hdrs)) t
    /\ split_chain pem = (certificate, chain)
    /\ not_valid_after lib (str_encode certificate) = Some expires.
Proof.
  unfold obtain_certificate. intros H. rewrite bind_lift in H.
  destruct (getitem (order v) "finalize") as [url |]; [| discriminate H].
  apply bind_returns_inv in H.
  destruct H as ([resp n1] & s1 & t1 & r1 & _ & H & ->).
  apply bind_returns_inv in H.
  destruct H as ([doc n2] & s2 & t2 & r2 & _ & H & ->).
  apply bind_returns_inv in H.
  destruct H as ([[c ch] ex] & s3 & t3 & r3 & E3 & H & ->).
  apply download_certificate_inv in E3.
  destruct E3 as (u & data & pem & hdrs & -> & Es & Ex).
  apply bind_returns_inv in H.
  destruct H as ([] & s4 & t4 & r4 & _ & H & ->).
  injection H as <- <- <- _ _.
  exists u, n2, data, pem, hdrs. split; [| auto].
  apply in_or_app. right. apply in_or_app. right. left. reflexivity.
Qed.

(** [store] makes one call, the write, and ends as that call does. *)
Lemma store_inv arn site ck ak certificate chain expires s o s' t :
  store lib w arn site ck ak certificate chain expires s = (o, s', t) ->
  t = [(341, PutSecretValue arn
               (json_dumps (cert_data certificate chain (private_bytes lib ck)
                                      site expires (private_bytes lib ak))))].
Proof.
  unfold store, secrets_put_secret_value, bind, at_line, emit. cbv zeta.
  destruct (put_secret_value w arn _); cbn; intros H; injection H as _ _ <-;
    reflexivity.
Qed.

(** A run of [issue] stops before line 341, or reaches it with the
    certificate downloaded, and ends with the write. *)
Lemma issue_store_inv fuel d z a s o s' t :
  issue lib w fuel d z a s = (o, s', t) ->
  (Forall (placed 140 302) t /\ forall x, o <> Returns x)
  \/ exists t0 id value,
       Forall (placed 140 302) t0
       /\ assembled_from t0 value
       /\ t = t0 ++ [(341, PutSecretValue id value)].
Proof.
  unfold issue. intros H.
  assert (W : forall lo hi, 140 <= lo -> hi <= 302 ->
                   forall e : event, placed lo hi e -> placed 140 302 e).
  { intros lo hi ? ? e. apply placed_weaken; assumption. }
  apply bind_inv in H.
  destruct H as [(v & s1 & t1 & r1 & E1 & H & ->) | [(e & E1 & ->) | (E1 & ->)]];
    (eapply emits_run in E1; [| apply order_challenge_placed]);
    apply (Forall_impl _ (W 140 219 ltac:(lia) ltac:(lia))) in E1.
  2, 3: left; split; [exact E1 | discriminate].
  apply bind_inv in H.
  destruct H as [(u & s2 & t2 & r2 & E2 & H & ->) | [(e & E2 & ->) | (E2 & ->)]];
    (eapply emits_run in E2; [| apply wait_insync_placed]);
    apply (Forall_impl _ (W 238 241 ltac:(lia) ltac:(lia))) in E2.
  2, 3: left; split; [apply Forall_app; auto | discriminate].
  apply bind_inv in H.
  destruct H as [(n & s3 & t3 & r3 & E3 & H & ->) | [(e & E3 & ->) | (E3 & ->)]];
    (eapply emits_run in E3; [| apply notify_challenge_placed]);
    apply (Forall_impl _ (W 244 248 ltac:(lia) ltac:(lia))) in E3.
  2, 3: left; split; [repeat (apply Forall_app; split); auto | discriminate].
  apply bind_inv in H.
  destruct H as [(n' & s4 & t4 & r4 & E4 & H & ->) | [(e & E4 & ->) | (E4 & ->)]];
    (eapply emits_run in E4; [| apply poll_authorization_placed]);
    apply (Forall_impl _ (W 252 261 ltac:(lia) ltac:(lia))) in E4.
  2, 3: left; split; [repeat (apply Forall_app; split); auto | discriminate].
  apply bind_inv in H.
  destruct H as [([[c ch] ex] & s5 & t5 & r5 & E5 & H & ->)
                | [(e & E5 & ->) | (E5 & ->)]];
    pose proof E5 as E5';
    (eapply emits_run in E5; [| apply obtain_certificate_placed]);
    apply (Forall_impl _ (W 267 302 ltac:(lia) ltac:(lia))) in E5.
  2, 3: left; split; [repeat (apply Forall_app; split); auto | discriminate].
  apply obtain_certificate_inv in E5'.
  destruct E5' as (url & n2 & data & pem & hdrs & Hin & Es & Ex).
  apply store_inv in H. subst r5. right.
  exists (t1 ++ t2 ++ t3 ++ t4 ++ t5). do 2 eexists.
  split; [repeat (apply Forall_app; split); auto |].
  split; [| rewrite <- !app_assoc; reflexivity].
  exists url, n2, data, pem, hdrs, (domain v), (cert_key v), (account_key v), ex.
  rewrite Es. cbn [fst snd]. split; [| split; [exact Ex | reflexivity]].
  repeat (apply in_or_app; right). exact Hin.
Qed.

(** C5: a run writes to the secret store at most once; the write is the
    last call of the run, is made only after the certificate was downloaded
    (line 285), and stores the bundle put together from that download.  So
    a run that stops at any earlier step writes nothing. *)
Theorem secret_written_once_at_the_end fuel s :
  List.length (filter is_write (trace (generate_certificate lib w fuel s))) <= 1
  /\ forall pre line id value post,
       trace (generate_certificate lib w fuel s)
       = pre ++ (line, PutSecretValue id value) :: post ->
       post = [] /\ assembled_from pre value.
Proof.
  unfold trace.
  destruct (generate_certificate lib w fuel s) as [[o s'] t] eqn:E.
  cbn [snd].
  assert (Hnone : Forall (placed 140 302) t ->
            List.length (filter is_write t) <= 1
            /\ forall pre line id value post,
                 t = pre ++ (line, PutSecretValue id value) :: post ->
                 post = [] /\ assembled_from pre value).
  { intros F. split.
    - rewrite (@placed_no_write _ _ _ F) by lia. cbn. lia.
    - intros pre line id value post Et. exfalso.
      assert (Hw : filter is_write t = [])
        by (eapply placed_no_write; [exact F | lia]).
      rewrite Et, filter_app in Hw. apply app_eq_nil in Hw.
      destruct Hw as [_ Hw]. discriminate Hw. }
  apply generate_certificate_inv in E.
  destruct E as [(-> & _) | (d & z & a & E)]; [apply Hnone; constructor |].
  apply issue_store_inv in E.
  destruct E as [(F & _) | (t0 & id0 & value0 & F & Ha & ->)];
    [apply Hnone; exact F |].
  clear Hnone.
  assert (Hw : filter is_write t0 = [])
    by (eapply placed_no_write; [exact F | lia]).
  split.
  - rewrite filter_app, Hw. cbn. lia.
  - intros pre line id value post Et.
    assert (Et' : t0 ++ [(341, PutSecretValue id0 value0)] ++ []
                  = pre ++ (line, PutSecretValue id value) :: post)
      by (cbn [app]; exact Et).
    clear Et. rename Et' into Et.
    apply (split_middle (fun x : event => is_write x = true)) in Et.
    + destruct Et as (pre' & post' & Etl & -> & ->).
      destruct pre' as [| x pre']; [| destruct pre'; discriminate Etl].
      injection Etl as _ <- <- <-. rewrite !app_nil_r. auto.
    + apply Forall_forall. intros x Hx Hwx.
      assert (Hin : In x (filter is_write t0))
        by (apply filter_In; auto).
      rewrite Hw in Hin. destruct Hin.
    + constructor.
    + reflexivity.
Qed.


(* ---------------------------------------------------------------- *)
(** ** Waiting and termination *)

(** Route 53 reports the change as in sync. *)
Definition reports_insync (r : result json) : bool :=
  match r with
  | Ok doc =>
      match getitem doc "ChangeInfo" with
      | Ok info =>
          match getitem info "Status" with
          | Ok status => is_str status "INSYNC"
          | Raised _ => false
          end
      | Raised _ => false
      end
  | Raised _ => false
  end.

(** Route 53 answers, and the change is not in sync. *)
Definition reports_pending (r : result json) : bool :=
  match r with
  | Ok doc =>
      match getitem doc "ChangeInfo" with
      | Ok info =>
          match getitem info "Status" with
          | Ok status => negb (is_str status "INSYNC")
          | Raised _ => false
          end
      | Raised _ => false
      end
  | Raised _ => false
  end.

(** One iteration of the loop of lines 237-241. *)
Lemma wait_insync_step fuel id s :
  wait_insync w (S fuel) id s
  = let s1 := {| posts := posts s; polls := S (polls s) |} in
    let query := (238, GetChange id) in
    match get_change w (polls s) id with
    | Raised e => (Raises e, s1, [query])
    | Ok doc =>
        match getitem doc "ChangeInfo" with
        | Raised e => (Raises e, s1, [query])
        | Ok info =>
            match getitem info "Status" with
            | Raised e => (Raises e, s1, [query])
            | Ok status =>
                if is_str status "INSYNC" then (Returns tt, s1, [query])
                else
                  match wait_insync w fuel id s1 with
                  | (o, s2, t2) => (o, s2, query :: (241, Sleep 5) :: t2)
                  end
            end
        end
    end.
Proof.
  cbn [wait_insync]. unfold bind at 1. unfold at_line at 1.
  unfold route53_get_change. cbv zeta.
  destruct (get_change w (polls s) id) as [doc | e]; [| reflexivity].
  cbn [map snd]. rewrite bind_lift.
  destruct (getitem doc "ChangeInfo") as [info | e]; [| reflexivity].
  rewrite bind_lift.
  destruct (getitem info "Status") as [status | e]; [| reflexivity].
  destruct (is_str status "INSYNC"); [reflexivity |].
  unfold bind, at_line, time_sleep, emit.
  destruct (wait_insync w fuel id _) as [[o s2] t2]. reflexivity.
Qed.

Lemma count_line_cons l e t :
  count_line l (e :: t)
  = (if Nat.eqb (fst e) l then 1 else 0) + count_line l t.
Proof.
  unfold count_line. cbn [filter]. destruct (Nat.eqb (fst e) l); reflexivity.
Qed.

(** The wait ends at the first query that is answered with INSYNC, at
    the latest. *)
Lemma wait_insync_ends fuel id s k :
  k < fuel ->
  reports_insync (get_change w (polls s + k) id) = true ->
  result_of (wait_insync w fuel id s) <> OutOfFuel
  /\ count_line 238 (trace (wait_insync w fuel id s)) <= k + 1.
Proof.
  revert s k. induction fuel as [| fuel IH]; intros s k Hk Hin; [lia |].
  rewrite wait_insync_step. cbv zeta. unfold reports_insync in Hin.
  destruct k as [| k].
  - rewrite Nat.add_0_r in Hin.
    destruct (get_change w (polls s) id) as [doc | e]; [| discriminate Hin].
    destruct (getitem doc "ChangeInfo") as [info | e]; [| discriminate Hin].
    destruct (getitem info "Status") as [status | e]; [| discriminate Hin].
    rewrite Hin. split; [discriminate | cbn; lia].
  - assert (Hone : forall o : outcome unit, o <> OutOfFuel ->
               forall s1,
               result_of (o, s1, [(238, GetChange id)]) <> OutOfFuel
               /\ count_line 238 (trace (o, s1, [(238, GetChange id)]))
                  <= S k + 1).
    { intros o Ho s1. split; [exact Ho | cbn; lia]. }
    destruct (get_change w (polls s) id) as [doc | e];
      [| apply Hone; discriminate].
    destruct (getitem doc "ChangeInfo") as [info | e];
      [| apply Hone; discriminate].
    destruct (getitem info "Status") as [status | e];
      [| apply Hone; discriminate].
    destruct (is_str status "INSYNC"); [apply Hone; discriminate |].
    specialize (IH {| posts := posts s; polls := S (polls s) |} k).
    cbn [polls] in IH. rewrite <- Nat.add_succ_comm in Hin.
    destruct (IH ltac:(lia) Hin) as [IH1 IH2].
    unfold result_of, trace in *.
    destruct (wait_insync w fuel id _) as [[o s2] t2]. cbn [fst snd] in *.
    split; [exact IH1 |].
    rewrite !count_line_cons. cbn. lia.
Qed.

(** With a provider that never reports INSYNC the wait does not end:
    whatever the fuel, it is used up, one query for each unit. *)
Lemma wait_insync_diverges fuel id s :
  (forall n, reports_pending (get_change w n id) = true) ->
  result_of (wait_insync w fuel id s) = OutOfFuel
  /\ count_line 238 (trace (wait_insync w fuel id s)) = fuel.
Proof.
  intros Hp. revert s. induction fuel as [| fuel IH]; intros s.
  - split; reflexivity.
  - rewrite wait_insync_step. cbv zeta.
    specialize (Hp (polls s)). unfold reports_pending in Hp.
    destruct (get_change w (polls s) id) as [doc | e]; [| discriminate Hp].
    destruct (getitem doc "ChangeInfo") as [info | e]; [| discriminate Hp].
    destruct (getitem info "Status") as [status | e]; [| discriminate Hp].
    apply negb_true_iff in Hp. rewrite Hp.
    destruct (IH {| posts := posts s; polls := S (polls s) |}) as [IH1 IH2].
    unfold result_of, trace in *.
    destruct (wait_insync w fuel id _) as [[o s2] t2]. cbn [fst snd] in *.
    split; [exact IH1 |]. rewrite !count_line_cons. cbn. lia.
Qed.

Lemma steady_run {A} (m : M A) s o s' t :
  steady m -> m s = (o, s', t) -> polls s' = polls s /\ o <> OutOfFuel.
Proof.
  intros H E. specialize (H s). unfold result_of in H. rewrite E in H.
  exact H.
Qed.

(** What follows the wait needs no fuel and queries Route 53 no more. *)
Lemma after_wait_steady v :
  steady
    (nonce <- notify_challenge w v ;;
     nonce <- poll_authorization lib w 30 (auth_url v) (account_key v)
                                 (account_url v) nonce ;;
     ' (certificate, chain, expires) <- obtain_certificate lib w v nonce ;;
     store lib w (secret_arn v) (domain v) (cert_key v) (account_key v)
           certificate chain expires).
Proof.
  steady_phases;
    first [ apply notify_challenge_steady | apply obtain_certificate_steady ].
Qed.

Lemma after_wait_placed v :
  emits (placed 244 341)
    (nonce <- notify_challenge w v ;;
     nonce <- poll_authorization lib w 30 (auth_url v) (account_key v)
                                 (account_url v) nonce ;;
     ' (certificate, chain, expires) <- obtain_certificate lib w v nonce ;;
     store lib w (secret_arn v) (domain v) (cert_key v) (account_key v)
           certificate chain expires).
Proof.
  emits_phases;
    eapply emits_placed_in;
    first [ apply notify_challenge_placed | apply obtain_certificate_placed
          | lia ].
Qed.

(** A run of [issue] stops before the wait, or is the wait and what
    follows it. *)
Lemma issue_wait_inv fuel d z a s o s' t :
  issue lib w fuel d z a s = (o, s', t) ->
  (Forall (placed 140 219) t /\ o <> OutOfFuel)
  \/ exists t0 v s1 ow sw tw t2,
       Forall (placed 140 219) t0 /\ polls s1 = polls s
       /\ wait_insync w fuel (change_id v) s1 = (ow, sw, tw)
       /\ t = t0 ++ tw ++ t2
       /\ Forall (placed 244 341) t2
       /\ match ow with
          | Returns _ => o <> OutOfFuel
          | Raises e => o = Raises e /\ t2 = []
          | OutOfFuel => o = OutOfFuel /\ t2 = []
          end.
Proof.
  unfold issue. intros H. apply bind_inv in H.
  destruct H as [(v & s1 & t1 & r1 & E1 & H & ->) | [(e & E1 & ->) | (E1 & ->)]];
    pose proof (@steady_run _ _ _ _ _ _ (order_challenge_steady d z a) E1)
      as [P1 N1];
    (eapply emits_run in E1; [| apply order_challenge_placed]).
  2: left; split; [exact E1 | discriminate].
  2: exfalso; apply N1; reflexivity.
  right. exists t1, v, s1. apply bind_inv in H.
  destruct H as [(u & s2 & t2 & r2 & E2 & H & ->) | [(e & E2 & ->) | (E2 & ->)]].
  - exists (Returns u), s2, t2, r2.
    pose proof (@steady_run _ _ _ _ _ _ (after_wait_steady v) H) as [_ N2].
    eapply emits_run in H; [| apply after_wait_placed].
    repeat split; auto.
  - exists (Raises e), s', r1, []. rewrite app_nil_r. repeat split; auto.
  - exists OutOfFuel, s', r1, []. rewrite app_nil_r. repeat split; auto.
Qed.


(** *** Bounds on the number of calls of a line *)

Definition at_most {A} (l n : nat) (m : M A) : Prop :=
  forall s, count_line l (trace (m s)) <= n.

Lemma at_most_weaken {A} l n n' (m : M A) :
  at_most l n m -> n <= n' -> at_most l n' m.
Proof. intros H Hn s. specialize (H s). lia. Qed.

Lemma at_most_bind {A B} l n1 n2 (m : M A) (f : A -> M B) :
  at_most l n1 m -> (forall a, at_most l n2 (f a)) ->
  at_most l (n1 + n2) (bind m f).
Proof.
  intros Hm Hf s. specialize (Hm s). unfold trace, bind in *.
  destruct (m s) as [[o s1] t1]. cbn [snd] in Hm.
  destruct o; cbn [snd]; try lia.
  specialize (Hf a s1). unfold trace in Hf.
  destruct (f a s1) as [[o2 s2] t2]. cbn [snd] in *.
  rewrite count_line_app. lia.
Qed.

Lemma at_most_skip {A B} l n (m : M A) (f : A -> M B) :
  at_most l 0 m -> (forall a, at_most l n (f a)) -> at_most l n (bind m f).
Proof. intros Hm Hf. exact (@at_most_bind _ _ l 0 n m f Hm Hf). Qed.

Lemma at_most_then {A B} l n (m : M A) (f : A -> M B) :
  at_most l n m -> (forall a, at_most l 0 (f a)) -> at_most l n (bind m f).
Proof.
  intros Hm Hf.
  eapply at_most_weaken; [exact (@at_most_bind _ _ l n 0 m f Hm Hf) | lia].
Qed.

Lemma at_most_out {A} l lo hi (m : M A) :
  emits (placed lo hi) m -> l < lo \/ hi < l -> at_most l 0 m.
Proof.
  intros H Hl s. specialize (H s).
  rewrite (@count_line_placed l lo hi _ H Hl). lia.
Qed.

Lemma at_most_silent {A} l (m : M A) :
  emits (fun _ => False) m -> at_most l 0 m.
Proof.
  intros H s. specialize (H s). destruct (trace (m s)) as [| e t].
  - cbn. lia.
  - inversion H; contradiction.
Qed.

Lemma at_most_acme_request l' l url key au nonce payload :
  at_most l 1 (acme_request w url key au nonce payload @@ l').
Proof.
  intros s. unfold trace.
  destruct ((acme_request w url key au nonce payload @@ l') s)
    as [[o s'] t] eqn:E.
  apply acme_request_at_inv in E.
  destruct E as [(-> & _) | (u & data & _ & -> & _)]; cbn [snd].
  - cbn. lia.
  - rewrite count_line_cons. destruct (Nat.eqb _ l); cbn; lia.
Qed.

Lemma poll_authorization_at_most n url key au nonce :
  at_most 252 n (poll_authorization lib w n url key au nonce).
Proof.
  intros s. unfold trace.
  destruct (poll_authorization lib w n url key au nonce s) as [[o s'] t] eqn:E.
  apply poll_authorization_run in E. apply E.
Qed.

Lemma poll_order_at_most n url key au nonce :
  at_most 271 n (poll_order lib w n url key au nonce).
Proof.
  revert nonce. induction n as [| n IH]; intros nonce.
  - intros s. cbn. lia.
  - cbn [poll_order]. change (S n) with (1 + n).
    apply at_most_bind; [apply at_most_acme_request |].
    intros [resp nonce'].
    assert (Z0 : forall A (m : M A), at_most 271 0 m -> at_most 271 n m)
      by (intros A m H; eapply at_most_weaken; [exact H | lia]).
    apply at_most_skip; [apply at_most_silent, emits_lift | intros doc].
    apply at_most_skip; [apply at_most_silent, emits_lift | intros status].
    apply at_most_skip.
    { destruct (is_str status "valid");
        [apply at_most_silent, emits_lift | apply at_most_silent, emits_ret]. }
    intros [|]; [apply Z0, at_most_silent, emits_ret |].
    apply at_most_skip; [apply at_most_silent, emits_lift | intros status'].
    destruct (is_str status' "invalid");
      [apply Z0, at_most_silent, emits_raise |].
    apply at_most_skip; [| intros _; apply IH].
    apply (@at_most_out _ 271 279 279); [| lia].
    unfold time_sleep. apply emits_at_line, emits_emit.
    unfold placed, well_placed. cbn. auto 10.
Qed.

Lemma obtain_certificate_at_most v nonce :
  at_most 271 30 (obtain_certificate lib w v nonce).
Proof.
  unfold obtain_certificate.
  apply at_most_skip; [apply at_most_silent, emits_lift | intros url].
  apply at_most_skip.
  { apply (@at_most_out _ 271 267 267); [| lia].
    apply emits_at_line, emits_acme_request. intros.
    unfold placed, well_placed. cbn. auto 10. }
  intros [resp n1]. apply at_most_then; [apply poll_order_at_most |].
  intros [doc n2]. apply (@at_most_out _ 271 285 302); [| lia].
  emits_phases.
Qed.

(** In every run the authorization is polled at most 30 times, and so is
    the order. *)
Lemma issue_at_most fuel d z a :
  at_most 252 30 (issue lib w fuel d z a)
  /\ at_most 271 30 (issue lib w fuel d z a).
Proof.
  unfold issue. split.
  - apply at_most_skip;
      [apply (@at_most_out _ 252 140 219);
       [apply order_challenge_placed | lia] | intros v].
    apply at_most_skip;
      [apply (@at_most_out _ 252 238 241);
       [apply wait_insync_placed | lia] | intros _].
    apply at_most_skip;
      [apply (@at_most_out _ 252 244 248);
       [apply notify_challenge_placed | lia] | intros n].
    apply at_most_then; [apply poll_authorization_at_most | intros n'].
    apply (@at_most_out _ 252 267 341); [| lia].
    emits_phases; eapply emits_placed_in;
      first [ apply obtain_certificate_placed | lia ].
  - apply at_most_skip;
      [apply (@at_most_out _ 271 140 219);
       [apply order_challenge_placed | lia] | intros v].
    apply at_most_skip;
      [apply (@at_most_out _ 271 238 241);
       [apply wait_insync_placed | lia] | intros _].
    apply at_most_skip;
      [apply (@at_most_out _ 271 244 248);
       [apply notify_challenge_placed | lia] | intros n].
    apply at_most_skip;
      [apply (@at_most_out _ 271 252 261);
       [apply poll_authorization_placed | lia] | intros n'].
    apply at_most_then; [apply obtain_certificate_at_most |].
    intros [[c ch] ex]. apply (@at_most_out _ 271 341 341); [| lia].
    apply store_placed.
Qed.


(** Once the environment is read and [cryptography] imported, the run is
    the issuance itself. *)
Lemma generate_certificate_issue fuel d z a s :
  os_environ w "DOMAIN" = Ok d -> os_environ w "ZONE_ID" = Ok z ->
  os_environ w "CERT_SECRET_ARN" = Ok a -> cryptography_importable w = true ->
  generate_certificate lib w fuel s = issue lib w fuel d z a s.
Proof.
  intros Hd Hz Ha Hc. unfold generate_certificate.
  rewrite bind_lift, Hd, bind_lift, Hz, bind_lift, Ha, Hc. reflexivity.
Qed.

(** With a provider that never reports INSYNC, a run that gets as far as
    the TXT record stays in the wait of lines 236-241. *)
Lemma issue_diverges fuel d z a s :
  (exists v, result_of (order_challenge lib w d z a s) = Returns v) ->
  (forall n id, reports_pending (get_change w n id) = true) ->
  result_of (issue lib w fuel d z a s) = OutOfFuel
  /\ count_line 238 (trace (issue lib w fuel d z a s)) = fuel.
Proof.
  intros [v Hv] Hp. unfold result_of in Hv.
  destruct (order_challenge lib w d z a s) as [[o s1] t1] eqn:E.
  cbn [fst] in Hv. subst o.
  assert (F : Forall (placed 140 219) t1)
    by (eapply emits_run; [apply order_challenge_placed | exact E]).
  unfold issue. erewrite bind_returns by exact E.
  destruct (@wait_insync_diverges fuel (change_id v) s1
              (fun n => Hp n (change_id v))) as [R C].
  unfold result_of, trace in *.
  destruct (wait_insync w fuel (change_id v) s1) as [[ow sw] tw] eqn:Ew.
  cbn [fst snd] in R, C. subst ow.
  erewrite bind_out_of_fuel by exact Ew. cbn [fst snd].
  split; [reflexivity |]. rewrite count_line_app.
  rewrite (@count_line_placed 238 140 219 _ F) by lia. lia.
Qed.


(** C2 (amended): challenge validation and order finalization are bounded
    polling, at most 30 requests each; every sleep of a run is one of the
    four fixed ones (5 s at line 241, 10 s at line 244, 2 s at lines 261
    and 279).  The wait for DNS propagation polls every 5 s with no cap of
    its own: a run ends, with at most [k + 1] status queries, as soon as
    Route 53 answers the [k]-th query after its start with INSYNC. *)
Theorem bounded_polling fuel s :
  count_line 252 (trace (generate_certificate lib w fuel s)) <= 30
  /\ count_line 271 (trace (generate_certificate lib w fuel s)) <= 30
  /\ (forall l n,
         In (l, Sleep n) (trace (generate_certificate lib w fuel s)) ->
         In (l, n) [(241, 5%Z); (244, 10%Z); (261, 2%Z); (279, 2%Z)])
  /\ (forall k,
         k < fuel ->
         (forall id, reports_insync (get_change w (polls s + k) id) = true) ->
         result_of (generate_certificate lib w fuel s) <> OutOfFuel
         /\ count_line 238 (trace (generate_certificate lib w fuel s))
            <= k + 1).
Proof.
  pose proof (generate_certificate_placed fuel s) as Hp.
  unfold trace, result_of in *.
  destruct (generate_certificate lib w fuel s) as [[o s'] t] eqn:E.
  cbn [fst snd] in *.
  assert (Hsleep : forall l n, In (l, Sleep n) t ->
             In (l, n) [(241, 5%Z); (244, 10%Z); (261, 2%Z); (279, 2%Z)]).
  { intros l n Hin. rewrite Forall_forall in Hp.
    destruct (Hp _ Hin) as [_ Hw]. exact Hw. }
  apply generate_certificate_inv in E.
  destruct E as [(-> & No) | (d & z & a & E)].
  { repeat split; try (cbn; lia); try assumption. }
  destruct (issue_at_most fuel d z a) as [B1 B2].
  specialize (B1 s). specialize (B2 s). unfold trace in B1, B2.
  rewrite E in B1, B2. cbn [snd] in B1, B2.
  split; [exact B1 | split; [exact B2 | split; [exact Hsleep |]]].
  intros k Hk Hin. apply issue_wait_inv in E.
  destruct E as [(F & No) | (t0 & v & s1 & ow & sw & tw & t2
                             & F0 & P1 & Ew & -> & F2 & How)].
  { split; [exact No |].
    rewrite (@count_line_placed 238 140 219 _ F) by lia. lia. }
  rewrite <- P1 in Hin.
  destruct (@wait_insync_ends fuel (change_id v) s1 k Hk (Hin (change_id v)))
    as [Nw Cw].
  unfold result_of, trace in Nw, Cw. rewrite Ew in Nw, Cw.
  cbn [fst snd] in Nw, Cw.
  split.
  - destruct ow; [exact How | destruct How as [-> _]; discriminate
                  | exfalso; apply Nw; reflexivity].
  - rewrite !count_line_app.
    rewrite (@count_line_placed 238 140 219 _ F0) by lia.
    rewrite (@count_line_placed 238 244 341 _ F2) by lia. lia.
Qed.


(* ---------------------------------------------------------------- *)
(** ** The nonce of a signed request *)






(** The nonce in hand, if one was received yet. *)
Definition holder := option (option pystr).

Definition fits (h : holder) (nonce : option pystr) : Prop :=
  match h with
  | Some cur => nonce = cur
  | None => True
  end.





Definition quiet (e : event) : Prop :=
  match snd e with
  | AcmePost _ _ _ _ _ => False
  | _ => True
  end.




Lemma fits_fresh h nonce : fits h nonce -> fits None nonce.
Proof. intros _. exact I. Qed.




















Ltac quiet_leaf := intros; cbv beta; unfold quiet; simpl; exact I.

Ltac quiet_go :=
  solve
    [ repeat first
        [ apply emits_get_change
        | apply emits_ret | apply emits_raise | apply emits_lift
        | apply emits_out_of_fuel
        | apply emits_bind; [| intros]
        | apply emits_try; [| intros]
        | apply emits_at_line
        | apply emits_emit
        | match goal with
          | |- emits _ (match ?x with _ => _ end) => destruct x
          end
        | progress unfold secrets_get_secret_value, secrets_put_secret_value,
            route53_change, time_sleep, fetch_url, fetch_url_headers, fetch ];
      try quiet_leaf ].


Lemma get_or_create_account_key_quiet secret_arn :
  emits quiet (get_or_create_account_key lib w secret_arn).
Proof. unfold get_or_create_account_key, load_account_key. quiet_go. Qed.

Lemma provision_challenge_quiet domain zone key auth :
  emits quiet (provision_challenge lib w domain zone key auth).
Proof. unfold provision_challenge. quiet_go. Qed.

Lemma wait_insync_quiet fuel id : emits quiet (wait_insync w fuel id).
Proof.
  induction fuel; simpl; [apply emits_out_of_fuel |].
  apply emits_bind; [quiet_go | intros].
  apply emits_bind; [quiet_go | intros].
  apply emits_bind; [quiet_go | intros].
  destruct (is_str _ _); [apply emits_ret |].
  apply emits_bind; [quiet_go | intros; apply IHfuel].
Qed.

Lemma cleanup_quiet zone txt_name dns_value :
  emits quiet (cleanup w zone txt_name dns_value).
Proof. unfold cleanup. quiet_go. Qed.

Lemma store_quiet secret_arn domain cert_key key certificate chain expires :
  emits quiet
        (store lib w secret_arn domain cert_key key certificate chain expires).
Proof. unfold store. quiet_go. Qed.















End Facts.

(* ------------------------------------------------------------------ *)
(** ** The theorems on concrete runs *)



(** In the first run Route 53 reports INSYNC at the second query: the run
    ends, with two queries. *)
Lemma bounded_polling_witness :
  result_of (Scenario.run Scenario.first_run 5) <> OutOfFuel
  /\ count_line 238 (trace (Scenario.run Scenario.first_run 5)) <= 2.
Proof.
  destruct (bounded_polling Scenario.library Scenario.first_run 5 start)
    as (_ & _ & _ & H).
  apply (H 1); [lia | intros id; reflexivity].
Defined.

(** With a provider that never reports INSYNC no number of iterations
    ends the wait of lines 236-241: the loop makes as many queries as it
    is allowed to. *)
Lemma dns_wait_has_no_cap :
  ~ exists fuel,
      result_of (Scenario.run Scenario.never_insync fuel) <> OutOfFuel
      \/ count_line 238 (trace (Scenario.run Scenario.never_insync fuel))
         <> fuel.
Proof.
  intros [fuel H]. unfold Scenario.run in H.
  rewrite (@generate_certificate_issue Scenario.library Scenario.never_insync
             fuel "example.com" "Z1" "arn:cert" start
             eq_refl eq_refl eq_refl eq_refl) in H.
  destruct (@issue_diverges Scenario.library Scenario.never_insync fuel
              "example.com" "Z1" "arn:cert" start) as [R C].
  - eexists. vm_compute. reflexivity.
  - intros n id. reflexivity.
  - destruct H as [H | H]; [apply H, R | apply H, C].
Qed.

(** The secret holds key bytes that are no PEM key: no error is signalled,
    the run goes on with a fresh key. *)
Lemma malformed_account_key_is_replaced :
  get_secret_value Scenario.garbage_key "arn:cert"
  = SecretString (json_dumps (JDict [("account_key", JStr "garbage")]))
  /\ load_pem_private_key Scenario.library (str_encode "garbage") = None
  /\ result_of (get_or_create_account_key Scenario.library Scenario.garbage_key
                  "arn:cert" start)
     = Returns (ec_generate_private_key Scenario.garbage_key).
Proof. repeat split. Qed.

(** An authorization that turns invalid at its second poll ends the run
    there; one that stays pending ends it after the thirtieth poll, with
    no finalize request. *)
Lemma authorization_polling_witness :
  result_of (Scenario.run Scenario.rejected 5)
  = Raises (Exception (MsgChallengeFailed (Scenario.authorization "invalid")))
  /\ result_of (Scenario.run Scenario.stalled 5)
     = Raises (Exception MsgChallengeTimeout)
  /\ count_line 267 (trace (Scenario.run Scenario.stalled 5)) = 0.
Proof.
  split.
  - destruct (authorization_polling Scenario.library Scenario.rejected 5 start)
      as (_ & _ & H & _).
    pose (t := trace (Scenario.run Scenario.rejected 5)).
    edestruct (H (firstn 12 t) (nth 12 t (0, Sleep 0)) (skipn 13 t)
                 (Scenario.authorization "invalid")) as [_ R];
      [vm_compute; reflexivity .. | exact R].
  - destruct (authorization_polling Scenario.library Scenario.stalled 5 start)
      as (_ & _ & _ & H).
    apply H; [vm_compute; reflexivity |].
    intros e He Hl. exists (Scenario.authorization "pending").
    split; [| exists (JStr "pending"); repeat split].
    vm_compute in He.
    repeat (destruct He as [<- | He];
            [first [discriminate Hl | vm_compute; reflexivity] |]).
    destruct He.
Defined.

(** The first run ends with its one write, of the bundle put together from
    the certificate it downloaded. *)
Lemma secret_written_once_at_the_end_witness :
  exists pre value,
    trace (generate_certificate Scenario.library Scenario.first_run 5 start)
    = pre ++ [(341, PutSecretValue "arn:cert" value)]
    /\ assembled_from Scenario.library pre value.
Proof.
  pose proof (secret_written_once_at_the_end Scenario.library
                Scenario.first_run 5 start) as H.
  apply proj2 in H.
  exists (removelast (trace (Scenario.run Scenario.first_run 5))),
         (Scenario.written (trace (Scenario.run Scenario.first_run 5))).
  match goal with
  | |- ?P /\ _ => assert (E : P) by (vm_compute; reflexivity)
  end.
  split; [exact E |]. exact (proj2 (H _ _ _ _ _ E)).
Defined.

(** Two keys, with a digest that tells any two texts apart. *)
Lemma jwk_thumbprint_rfc7638_witness :
  jwk_thumbprint Scenario.digest Scenario.account_key
  = Ok (base64url_encode
          (Bytes (Scenario.digest (thumbprint_input Scenario.account_key))))
  /\ jwk_thumbprint Scenario.digest Scenario.account_key
     <> jwk_thumbprint Scenario.digest Scenario.fresh_key.
Proof.
  assert (H1 : is_p256_key Scenario.account_key)
    by (vm_compute; intuition discriminate).
  assert (H2 : is_p256_key Scenario.fresh_key)
    by (vm_compute; intuition discriminate).
  destruct (@jwk_thumbprint_rfc7638 Scenario.digest _ _ H1 H2) as (A & _ & C).
  split; [exact A |]. apply C; [intros H; exact H | discriminate].
Defined.


(** The registration request of the first run: the payload field is the
    base64url of the text with a space after the colon. *)
Lemma jws_payload_field_witness :
  exists protected_b64 signature_bytes reply,
    trace Scenario.registration
    = [(0, AcmePost Scenario.new_account_url (Some "nonce-first")
             (Some Scenario.terms_of_service)
             (str_encode
                (json_dumps
                   (JDict (jws protected_b64
                               "eyJ0ZXJtc09mU2VydmljZUFncmVlZCI6IHRydWV9"
                               signature_bytes))))
             reply)].
Proof.
  edestruct (@jws_payload_field Scenario.first_run
               (JStr Scenario.new_account_url) Scenario.fresh_key None
               (Some "nonce-first") (Some Scenario.terms_of_service) start)
    as (prot & sg & D & _).
  - vm_compute. left. reflexivity.
  - cbv zeta in D.
    change (base64url_encode (Str (json_dumps Scenario.terms_of_service)))
      with "eyJ0ZXJtc09mU2VydmljZUFncmVlZCI6IHRydWV9" in D.
    exists prot, sg. eexists. rewrite <- D. vm_compute. reflexivity.
Defined.

(** The payload field of the registration is not the base64url of the
    compact text of its payload, which has no space after the colon. *)
Lemma payload_is_not_compact :
  payload_b64 (Some Scenario.terms_of_service)
  = "eyJ0ZXJtc09mU2VydmljZUFncmVlZCI6IHRydWV9"
  /\ base64url_encode (Str (json_dumps_compact Scenario.terms_of_service))
     = "eyJ0ZXJtc09mU2VydmljZUFncmVlZCI6dHJ1ZX0"
  /\ payload_b64 (Some Scenario.terms_of_service)
     <> base64url_encode (Str (json_dumps_compact Scenario.terms_of_service)).
Proof.
  split; [vm_compute; reflexivity |].
  split; [vm_compute; reflexivity |]. vm_compute. discriminate.
Qed.

(** A download with the configured token gets the stored bundle without
    the account key; before the first issuance it gets the 404 response. *)
Lemma fetch_current_hides_account_key_witness :
  result_of (handle_api_request Scenario.library Scenario.renewal
               (Scenario.download_event "Bearer s3cret") start)
  = Returns (certificate_response
               [("certificate", JStr Scenario.leaf_pem);
                ("chain", JStr Scenario.issuer_pem);
                ("private_key", JStr "PEM(rsa)");
                ("domain", JStr "example.com");
                ("expires", JStr "2027-01-01T00:00:00+00:00");
                ("account_key", JStr "PEM(ec)")])
  /\ result_of (handle_api_request Scenario.library Scenario.first_run
                  (Scenario.download_event "Bearer ") start)
     = Returns not_found.
Proof.
  split.
  - destruct (@fetch_current_hides_account_key Scenario.library
                Scenario.renewal (Scenario.download_event "Bearer s3cret")
                (JDict [("authorization", JStr "Bearer s3cret")])
                "s3cret" "arn:cert" start
                eq_refl eq_refl eq_refl eq_refl) as [_ H].
    destruct (H (json_dumps Scenario.stored_bundle) _ eq_refl eq_refl)
      as (R & _).
    exact R.
  - destruct (@fetch_current_hides_account_key Scenario.library
                Scenario.first_run (Scenario.download_event "Bearer ")
                (JDict [("authorization", JStr "Bearer ")])
                EmptyString "arn:cert" start
                eq_refl eq_refl eq_refl eq_refl) as [H _].
    destruct (H eq_refl) as [R _]. exact R.
Defined.

(** With no token configured, the header ["Bearer "] gets the bundle. *)
Lemma empty_token_is_accepted_witness :
  result_of (handle_api_request Scenario.library Scenario.no_token
               (Scenario.download_event "Bearer ") start)
  = Returns (certificate_response
               [("certificate", JStr Scenario.leaf_pem);
                ("chain", JStr Scenario.issuer_pem);
                ("private_key", JStr "PEM(rsa)");
                ("domain", JStr "example.com");
                ("expires", JStr "2027-01-01T00:00:00+00:00");
                ("account_key", JStr "PEM(ec)")]).
Proof.
  destruct (@empty_token_is_accepted Scenario.library Scenario.no_token
              (Scenario.download_event "Bearer ")
              (JDict [("authorization", JStr "Bearer ")]) start
              (or_introl eq_refl) eq_refl eq_refl) as (_ & _ & H).
  exact (H "arn:cert" (json_dumps Scenario.stored_bundle) _
           eq_refl eq_refl eq_refl).
Defined.

(* ================================================================== *)
(** * Further properties of the code

    The functions of the source the theorems above do not reach, and what
    the code itself shows of the others. *)

(* ------------------------------------------------------------------ *)
(** ** [base64url_encode] (source lines 361-365) *)

(** The bytes [base64url_encode] encodes: those of the UTF-8 text of a
    [str], the argument itself otherwise. *)
Definition encoded_bytes (data : str_or_bytes) : bytes :=
  match data with
  | Str s => str_encode s
  | Bytes b => b
  end.

Lemma length_bytes_decode (b : bytes) :
  String.length (bytes_decode b) = List.length b.
Proof.
  induction b as [| x b IH]; [reflexivity |].
  rewrite bytes_decode_cons. cbn [String.length List.length]. rewrite IH.
  reflexivity.
Qed.

Lemma length_b64_unpadded (data : bytes) :
  List.length (b64_unpadded data) = (4 * List.length data + 2) / 3.
Proof.
  induction data as [| a | a b | a b c rest IH] using bytes_ind3;
    try reflexivity.
  cbn [b64_unpadded List.length]. rewrite IH.
  replace (4 * S (S (S (List.length rest))) + 2)
    with ((4 * List.length rest + 2) + 4 * 3) by lia.
  rewrite Nat.div_add by discriminate. lia.
Qed.

(** X1: the result of [base64url_encode] is made of the 64 characters of
    the URL-safe alphabet only (no [=], [+] or [/]), and for [n] bytes it
    has [ceil(4n/3)] characters: the padding is gone, nothing else. *)
Theorem base64url_encode_shape (data : str_or_bytes) :
  b64_text (base64url_encode data) = true
  /\ String.length (base64url_encode data)
     = (4 * List.length (encoded_bytes data) + 2) / 3.
Proof.
  split; [apply base64url_encode_text |].
  unfold base64url_encode, encoded_bytes.
  rewrite rstrip_pad_encode, length_bytes_decode. apply length_b64_unpadded.
Qed.

(** X2: stripping the padding loses nothing: two arguments with the same
    encoding have the same bytes. *)
Theorem base64url_encode_lossless (a b : str_or_bytes) :
  base64url_encode a = base64url_encode b ->
  encoded_bytes a = encoded_bytes b.
Proof.
  intros E. apply base64url_encode_inj.
  destruct a, b; exact E.
Qed.

Lemma base64url_encode_lossless_witness :
  encoded_bytes (Str "{}") = encoded_bytes (Bytes ["{"%byte; "}"%byte]).
Proof.
  apply (@base64url_encode_lossless (Str "{}") (Bytes ["{"%byte; "}"%byte])).
  reflexivity.
Defined.

(* ------------------------------------------------------------------ *)
(** ** [handle_api_request] (source lines 36-71) *)

Section Download.

Variable lib : Library.
Variable w : World.

(** The header that passes the check of line 41 is the one text
    ["Bearer " + token]. *)
Lemma bearer_check header token :
  negb (startswith header "Bearer ")
  || negb (String.eqb (str_from 7 header) token) = false ->
  header = "Bearer " +++ token.
Proof.
  intros H. apply orb_false_elim in H. destruct H as [Hp He].
  apply negb_false_iff in Hp, He. apply String.eqb_eq in He.
  unfold startswith in Hp. apply prefix_cut in Hp.
  change (String.length "Bearer ") with 7 in Hp. rewrite He in Hp. exact Hp.
Qed.

(** X3: a download request whose authorization header is not exactly
    ["Bearer "] followed by the configured token (no header at all
    included) is answered with the 403 response, and the secret store is
    not touched: no call is made. *)
Theorem unauthorized_download_is_refused event hdrs header s :
  value_get event "headers" (JDict []) = Ok hdrs ->
  value_get hdrs "authorization" (JStr EmptyString) = Ok (JStr header) ->
  header <> "Bearer " +++ os_environ_get w "CERT_TOKEN" ->
  handle_api_request lib w event s = (Returns forbidden, s, []).
Proof.
  intros Hh Ha Hn. unfold handle_api_request.
  rewrite bind_lift, Hh, bind_lift, Ha. cbv zeta. rewrite bind_ret.
  destruct (negb (startswith header "Bearer ")
            || negb (String.eqb (str_from 7 header)
                                (os_environ_get w "CERT_TOKEN"))) eqn:E;
    [reflexivity |].
  apply bearer_check in E. contradiction.
Qed.






End Download.


Lemma unauthorized_download_is_refused_witness :
  handle_api_request Scenario.library Scenario.renewal
    (Scenario.download_event "Bearer guess") start
  = (Returns forbidden, start, []).
Proof.
  apply (@unauthorized_download_is_refused Scenario.library Scenario.renewal
           (Scenario.download_event "Bearer guess")
           (JDict [("authorization", JStr "Bearer guess")]) "Bearer guess"
           start eq_refl eq_refl).
  vm_compute. discriminate.
Defined.


(* ------------------------------------------------------------------ *)
(** ** Response headers as a dictionary (source lines 162, 354, 463) *)

Lemma sdict_get_set k k' v d :
  sdict_get k (sdict_set k' v d)
  = if String.eqb k k' then Some v else sdict_get k d.
Proof.
  induction d as [| [k0 v0] d IH]; simpl.
  - destruct (String.eqb k k'); reflexivity.
  - destruct (String.eqb k' k0) eqn:E0; simpl.
    + apply String.eqb_eq in E0. subst k0.
      destruct (String.eqb k k'); reflexivity.
    + destruct (String.eqb k k0) eqn:E1.
      * apply String.eqb_eq in E1. subst k0.
        rewrite String.eqb_sym in E0. rewrite E0. reflexivity.
      * exact IH.
Qed.

Lemma msg_get_here k v h : In (k, v) h -> msg_get k h <> None.
Proof.
  induction h as [| [k0 v0] h IH]; simpl; [tauto |].
  intros [E | Hin].
  - injection E as -> ->. rewrite String.eqb_refl. discriminate.
  - destruct (String.eqb (str_lower k0) (str_lower k)); [discriminate | auto].
Qed.

(** A header sent under the name [k], spelled so. *)
Definition sent_as (k : pystr) (h : headers) : bool :=
  existsb (fun kv => String.eqb k (fst kv)) h.

Lemma dict_of_headers_fold k h l d :
  incl l h ->
  sdict_get k
    (fold_left
       (fun d kv =>
          match msg_get (fst kv) h with
          | Some v => sdict_set (fst kv) v d
          | None => d
          end) l d)
  = if sent_as k l then msg_get k h else sdict_get k d.
Proof.
  revert d. induction l as [| [k0 v0] l IH]; intros d Hl; [reflexivity |].
  cbn [fold_left sent_as existsb fst].
  assert (Hin : In (k0, v0) h) by (apply Hl; left; reflexivity).
  rewrite IH by (intros x Hx; apply Hl; right; exact Hx).
  fold (sent_as k l). destruct (sent_as k l); [rewrite orb_true_r; reflexivity |].
  rewrite orb_false_r.
  destruct (msg_get k0 h) as [v |] eqn:E;
    [| exfalso; exact (@msg_get_here _ _ _ Hin E)].
  rewrite sdict_get_set. destruct (String.eqb k k0) eqn:E0; [| reflexivity].
  apply String.eqb_eq in E0. subst k0. symmetry. exact E.
Qed.

(** [dict(response.headers)[name]]: the value the message gives for
    [name], under the spellings that were sent and no other. *)
Lemma dict_of_headers_get k h :
  sdict_get k (dict_of_headers h)
  = if sent_as k h then msg_get k h else None.
Proof. unfold dict_of_headers. apply dict_of_headers_fold, incl_refl. Qed.

Lemma sent_as_false k h :
  (forall k' v, In (k', v) h -> k' <> k) -> sent_as k h = false.
Proof.
  intros H. unfold sent_as. apply not_true_is_false. intros E.
  apply existsb_exists in E. destruct E as ([k' v] & Hin & E).
  apply String.eqb_eq in E. simpl in E. subst k'. exact (H _ _ Hin eq_refl).
Qed.

(* ------------------------------------------------------------------ *)
(** ** [generate_certificate] (source lines 115-344): its first steps *)

Lemma bind_step {A B} (m : M A) (f : A -> M B) s a s1 t1 o s2 t2 :
  m s = (Returns a, s1, t1) -> f a s1 = (o, s2, t2) ->
  bind m f s = (o, s2, t1 ++ t2).
Proof. intros Hm Hf. unfold bind. rewrite Hm, Hf. reflexivity. Qed.

Section Issuance.

Variable lib : Library.
Variable w : World.

(** *** The calls of the first lines, one by one *)

Lemma get_or_create_account_key_run arn s :
  get_or_create_account_key lib w arn s
  = (Returns (match stored_account_key lib w arn with
              | Some key => key
              | None => ec_generate_private_key w
              end),
     s, [(140, GetSecretValue arn)]).
Proof.
  unfold get_or_create_account_key, load_account_key, stored_account_key,
    secrets_get_secret_value, loads, contains, getitem, dict_mem,
    try_except, bind, at_line, lift, emit, ret, raise.
  destruct (get_secret_value w arn) as [str | | e]; simpl; auto.
  destruct (json_loads lib str) as [j |]; simpl; auto.
  destruct j as [ | b | z | text | l | d]; simpl; auto.
  - destruct (String.index 0 "account_key" text); reflexivity.
  - destruct (existsb _ l); reflexivity.
  - destruct (dict_get "account_key" d) as [v |]; simpl; auto.
    destruct v; simpl; auto.
    destruct (load_pem_private_key lib (str_encode s0)); reflexivity.
Qed.

Lemma fetch_url_run u method b h l s :
  urlopen w method u = Http2xx b h ->
  (fetch_url w (JStr u) method @@ l) s
  = (Returns b, s, [(l, UrlOpen method u)]).
Proof.
  intros E.
  unfold fetch_url, fetch, at_line, bind, lift, emit, request_url, ret.
  rewrite E. reflexivity.
Qed.

Lemma fetch_url_headers_run u method b h l s :
  urlopen w method u = Http2xx b h ->
  (fetch_url_headers w (JStr u) method @@ l) s
  = (Returns (dict_of_headers h), s, [(l, UrlOpen method u)]).
Proof.
  intros E.
  unfold fetch_url_headers, fetch, at_line, bind, lift, emit, request_url, ret.
  rewrite E. reflexivity.
Qed.

(** X5: the first nonce is read from [dict(response.headers)] under the
    key ['Replay-Nonce'] as it stands: when the newNonce response carries
    no header spelled exactly so (a nonce sent as [replay-nonce], say,
    which [acme_request] would accept from a later response), the run
    raises [KeyError('Replay-Nonce')] after the two fetches, before any
    signed request. *)
Theorem first_nonce_needs_exact_header fuel s d z a hd text directory u b h :
  os_environ w "DOMAIN" = Ok d -> os_environ w "ZONE_ID" = Ok z ->
  os_environ w "CERT_SECRET_ARN" = Ok a -> cryptography_importable w = true ->
  urlopen w "GET" ACME_DIRECTORY = Http2xx text hd ->
  json_loads lib text = Some directory ->
  getitem directory "newNonce" = Ok (JStr u) ->
  urlopen w "HEAD" u = Http2xx b h ->
  (forall k v, In (k, v) h -> k <> "Replay-Nonce") ->
  generate_certificate lib w fuel s
  = (Raises (KeyError "Replay-Nonce"), s,
     [(140, GetSecretValue a);
      (159, UrlOpen "GET" ACME_DIRECTORY);
      (162, UrlOpen "HEAD" u)]).
Proof.
  intros Hd Hz Ha Hc Hdir Hloads Hnn Hhead Hno.
  rewrite (@generate_certificate_issue lib w fuel d z a s Hd Hz Ha Hc).
  unfold issue. apply bind_raises. unfold order_challenge.
  eapply (@bind_step _ _ _ _ _ _ _ [(140, GetSecretValue a)]);
    [apply get_or_create_account_key_run |].
  apply bind_raises. unfold open_account.
  eapply (@bind_step _ _ _ _ _ _ _ [(159, UrlOpen "GET" ACME_DIRECTORY)]);
    [eapply fetch_url_run; exact Hdir |].
  rewrite bind_lift. unfold loads. rewrite Hloads. cbv beta iota.
  rewrite bind_lift, Hnn.
  eapply (@bind_step _ _ _ _ _ _ _ [(162, UrlOpen "HEAD" u)]);
    [eapply fetch_url_headers_run; exact Hhead |].
  rewrite dict_of_headers_get. erewrite sent_as_false by exact Hno. reflexivity.
Qed.

(** *** An account key that is no EC key *)

Lemma acme_request_rsa url n e au nonce payload s :
  acme_request w url (RSAKey n e) au nonce payload s
  = (Raises AttributeError, s, []).
Proof. reflexivity. Qed.

(** A computation that does not return. *)
Definition no_return {A} (m : M A) : Prop :=
  forall s a, result_of (m s) <> Returns a.

Lemma no_return_bind_l {A B} (m : M A) (f : A -> M B) :
  no_return m -> no_return (bind m f).
Proof.
  intros H s b. specialize (H s). unfold result_of, bind in *.
  destruct (m s) as [[o s1] t1]. destruct o; cbn in *;
    [exfalso; exact (H a eq_refl) | discriminate ..].
Qed.

Lemma no_return_bind_r {A B} (m : M A) (f : A -> M B) :
  (forall a, no_return (f a)) -> no_return (bind m f).
Proof.
  intros H s b. unfold result_of, bind.
  destruct (m s) as [[o s1] t1]. destruct o; cbn; [| discriminate ..].
  specialize (H a s1 b). unfold result_of in H.
  destruct (f a s1) as [[o2 s2] t2]. exact H.
Qed.

Lemma no_return_at_line {A} l (m : M A) : no_return m -> no_return (m @@ l).
Proof.
  intros H s a. specialize (H s a). unfold result_of, at_line in *.
  destruct (m s) as [[o s1] t1]. exact H.
Qed.

Lemma open_account_rsa n e s :
  exists x s' t,
    open_account lib w (RSAKey n e) s = (Raises x, s', t)
    /\ Forall (placed 159 162) t.
Proof.
  assert (N : no_return (open_account lib w (RSAKey n e))).
  { unfold open_account. do 6 (apply no_return_bind_r; intros).
    apply no_return_bind_l, no_return_at_line. unfold acme_register.
    apply no_return_bind_l. intros s0 r. rewrite acme_request_rsa.
    discriminate. }
  assert (P : emits (placed 159 162) (open_account lib w (RSAKey n e))).
  { unfold open_account.
    repeat first
      [ apply emits_ret | apply emits_raise | apply emits_lift
      | apply emits_bind; [| intros]
      | match goal with
        | |- emits _ (acme_register _ _ _ _ @@ _) =>
            intros s0; unfold acme_register, at_line, bind, trace;
            rewrite acme_request_rsa; constructor
        | |- emits _ (_ @@ _) => apply emits_at_line
        | |- emits _ (match ?x with _ => _ end) => destruct x
        end
      | apply emits_emit
      | progress unfold fetch_url, fetch_url_headers, fetch ];
    try (intros; cbv beta; unfold placed, well_placed; simpl;
         repeat split; auto 12; lia). }
  specialize (N s). specialize (P s).
  pose proof (@open_account_steady lib w (RSAKey n e) s) as [_ S].
  unfold trace, result_of in *.
  destruct (open_account lib w (RSAKey n e) s) as [[o s'] t].
  cbn [fst snd] in *. destruct o as [r | x |].
  - exfalso. exact (N r eq_refl).
  - exists x, s', t. auto.
  - exfalso. apply S. reflexivity.
Qed.

(** X6: a stored account key that loads but is no EC key is reused, not
    replaced, and no run gets past it: the registration request fails
    before it is sent, so a run makes the three reads of lines 140, 159
    and 162 at most (no signed request, no DNS change, no write), it does
    not wait, and the only value it can return is the 500 response for a
    missing [cryptography]. *)
Theorem non_ec_account_key_blocks_issuance fuel s arn n e :
  os_environ w "CERT_SECRET_ARN" = Ok arn ->
  stored_account_key lib w arn = Some (RSAKey n e) ->
  Forall (placed 140 162) (trace (generate_certificate lib w fuel s))
  /\ result_of (generate_certificate lib w fuel s) <> OutOfFuel
  /\ (forall r, result_of (generate_certificate lib w fuel s) = Returns r ->
                cryptography_importable w = false).
Proof.
  intros Ha Hk. unfold generate_certificate.
  rewrite bind_lift. destruct (os_environ w "DOMAIN") as [d | x].
  2: { repeat split; [constructor | discriminate | discriminate]. }
  rewrite bind_lift. destruct (os_environ w "ZONE_ID") as [z | x].
  2: { repeat split; [constructor | discriminate | discriminate]. }
  rewrite bind_lift, Ha. destruct (cryptography_importable w).
  2: { repeat split; [constructor | discriminate]. }
  destruct (open_account_rsa n e s) as (x & s' & t & E & F).
  assert (R : issue lib w fuel d z arn s
              = (Raises x, s', (140, GetSecretValue arn) :: t)).
  { unfold issue. apply bind_raises. unfold order_challenge.
    eapply (@bind_step _ _ _ _ _ _ _ [(140, GetSecretValue arn)]);
      [apply get_or_create_account_key_run |].
    rewrite Hk. apply bind_raises. exact E. }
  rewrite R. cbn [trace result_of fst snd].
  split; [| split; [discriminate | discriminate]].
  constructor.
  - unfold placed, well_placed. simpl. lia.
  - eapply Forall_impl; [| exact F]. intros ev. apply placed_weaken; lia.
Qed.

(** *** The time a run sleeps *)

(** The seconds of the calls of [time.sleep] of a trace. *)
Definition seconds (e : event) : Z :=
  match snd e with
  | Sleep n => n
  | _ => 0
  end.

Fixpoint slept (t : list event) : Z :=
  match t with
  | [] => 0
  | e :: t' => seconds e + slept t'
  end.

Lemma slept_app t1 t2 : slept (t1 ++ t2) = (slept t1 + slept t2)%Z.
Proof.
  induction t1 as [| e t1 IH]; [reflexivity |].
  cbn [app slept]. rewrite IH. lia.
Qed.

Lemma slept_at_line l t : slept (map (fun e => (l, snd e)) t) = slept t.
Proof.
  induction t as [| e t IH]; [reflexivity |].
  cbn [map slept]. rewrite IH. reflexivity.
Qed.

(** [m] sleeps at most [n] seconds, and five more for each status query
    of line 238. *)
Definition budget {A} (n : Z) (m : M A) : Prop :=
  forall s,
    (slept (trace (m s))
     <= n + 5 * Z.of_nat (count_line 238 (trace (m s))))%Z.

Lemma budget_weaken {A} n n' (m : M A) :
  budget n m -> (n <= n')%Z -> budget n' m.
Proof. intros H Hn s. specialize (H s). lia. Qed.

Lemma budget_bind {A B} n1 n2 (m : M A) (f : A -> M B) :
  budget n1 m -> (0 <= n2)%Z -> (forall a, budget n2 (f a)) ->
  budget (n1 + n2) (bind m f).
Proof.
  intros Hm Hn Hf s. specialize (Hm s). unfold trace, bind in *.
  destruct (m s) as [[o s1] t1]. cbn [snd] in Hm.
  destruct o; cbn [snd]; try lia.
  specialize (Hf a s1). unfold trace in Hf.
  destruct (f a s1) as [[o2 s2] t2]. cbn [snd] in *.
  rewrite slept_app, count_line_app. lia.
Qed.

Lemma budget_skip {A B} n (m : M A) (f : A -> M B) :
  budget 0 m -> (0 <= n)%Z -> (forall a, budget n (f a)) ->
  budget n (bind m f).
Proof. intros Hm Hn Hf. exact (@budget_bind _ _ 0 n m f Hm Hn Hf). Qed.

(** An event that is no sleep. *)
Definition awake (e : event) : Prop :=
  match snd e with
  | Sleep _ => False
  | _ => True
  end.

Lemma slept_awake t : Forall awake t -> slept t = 0%Z.
Proof.
  induction 1 as [| [l c] t Ha _ IH]; [reflexivity |].
  cbn [slept]. rewrite IH.
  destruct c; try reflexivity. destruct Ha.
Qed.

Lemma budget_awake {A} (m : M A) : emits awake m -> budget 0 m.
Proof. intros H s. rewrite (slept_awake (H s)). lia. Qed.

Ltac awake_go :=
  solve
    [ repeat first
        [ apply emits_acme_request; intros
        | apply emits_get_change
        | apply emits_ret | apply emits_raise | apply emits_lift
        | apply emits_out_of_fuel
        | apply emits_bind; [| intros]
        | apply emits_try; [| intros]
        | apply emits_at_line
        | apply emits_emit
        | match goal with
          | |- emits _ (match ?x with _ => _ end) => destruct x
          | |- emits _ (let '(_, _) := ?x in _) => destruct x
          end
        | progress unfold secrets_get_secret_value, secrets_put_secret_value,
            route53_change, fetch_url, fetch_url_headers, fetch,
            acme_register ];
      try (intros; cbv beta; unfold awake; simpl; exact I) ].

Ltac quietly := apply budget_skip; [apply budget_awake; awake_go | lia | intros].

Lemma wait_insync_budget fuel id : budget 0 (wait_insync w fuel id).
Proof.
  induction fuel as [| fuel IH]; intros s; [cbn; lia |].
  rewrite wait_insync_step. cbv zeta.
  destruct (get_change w (polls s) id) as [doc | e]; [| cbn; lia].
  destruct (getitem doc "ChangeInfo") as [info | e]; [| cbn; lia].
  destruct (getitem info "Status") as [status | e]; [| cbn; lia].
  destruct (is_str status "INSYNC"); [cbn; lia |].
  specialize (IH {| posts := posts s; polls := S (polls s) |}).
  unfold trace in *.
  destruct (wait_insync w fuel id _) as [[o s2] t2]. cbn [fst snd] in *.
  rewrite !count_line_cons. cbn [fst Nat.eqb].
  cbn [slept seconds snd app]. lia.
Qed.

Lemma sleep_budget n l : budget n (time_sleep n @@ l).
Proof.
  intros s. change (trace ((time_sleep n @@ l) s)) with [(l, Sleep n)].
  cbn [slept seconds snd]. lia.
Qed.

Lemma poll_authorization_budget n url key au nonce :
  budget (2 * Z.of_nat n) (poll_authorization lib w n url key au nonce).
Proof.
  revert nonce. induction n as [| n IH]; intros nonce.
  - intros s. cbn. lia.
  - cbn [poll_authorization].
    replace (2 * Z.of_nat (S n))%Z with (0 + (2 + 2 * Z.of_nat n))%Z by lia.
    apply budget_bind; [apply budget_awake; awake_go | lia |].
    intros [resp nonce']. do 2 quietly.
    destruct (is_str _ "valid");
      [eapply budget_weaken; [apply budget_awake; awake_go | lia] |].
    quietly.
    destruct (is_str _ "invalid");
      [eapply budget_weaken; [apply budget_awake; awake_go | lia] |].
    apply budget_bind; [apply sleep_budget | lia | intros _; apply IH].
Qed.

Lemma poll_order_budget n url key au nonce :
  budget (2 * Z.of_nat n) (poll_order lib w n url key au nonce).
Proof.
  revert nonce. induction n as [| n IH]; intros nonce.
  - intros s. cbn. lia.
  - cbn [poll_order].
    replace (2 * Z.of_nat (S n))%Z with (0 + (2 + 2 * Z.of_nat n))%Z by lia.
    apply budget_bind; [apply budget_awake; awake_go | lia |].
    intros [resp nonce']. do 3 quietly.
    match goal with
    | |- budget _ (if ?b then _ else _) => destruct b
    end; [eapply budget_weaken; [apply budget_awake; awake_go | lia] |].
    quietly.
    destruct (is_str _ "invalid");
      [eapply budget_weaken; [apply budget_awake; awake_go | lia] |].
    apply budget_bind; [apply sleep_budget | lia | intros _; apply IH].
Qed.

Lemma issue_budget fuel d z a : budget 130 (issue lib w fuel d z a).
Proof.
  unfold issue.
  apply budget_skip; [| lia | intros v].
  { apply budget_awake. unfold order_challenge, get_or_create_account_key,
      load_account_key, open_account, create_order, provision_challenge.
    awake_go. }
  apply budget_skip; [apply wait_insync_budget | lia | intros _].
  change 130%Z with (10 + 120)%Z.
  apply budget_bind; [| lia | intros nonce1].
  { unfold notify_challenge. change 10%Z with (10 + 0)%Z.
    apply budget_bind; [apply sleep_budget | lia | intros _].
    apply budget_awake. awake_go. }
  change 120%Z with (2 * Z.of_nat 30 + 60)%Z.
  apply budget_bind; [apply poll_authorization_budget | lia | intros nonce2].
  change 60%Z with (60 + 0)%Z.
  apply budget_bind; [| lia | intros [[c ch] ex]].
  { unfold obtain_certificate. do 2 quietly.
    match goal with
    | |- budget _ (let '(_, _) := ?x in _) => destruct x as [resp n1]
    end.
    change 60%Z with (2 * Z.of_nat 30 + 0)%Z.
    apply budget_bind; [apply poll_order_budget | lia | intros [doc n2]].
    apply budget_awake. unfold download_certificate, cleanup. awake_go. }
  apply budget_awake. unfold store. awake_go.
Qed.

(** X7: a run sleeps at most 130 seconds (10 before the challenge is
    notified, 2 after each of at most 30 polls of the authorization and
    of the order) beside the wait for DNS propagation, which sleeps at
    most 5 seconds for each status query it makes. *)
Theorem time_asleep fuel s :
  (slept (trace (generate_certificate lib w fuel s))
   <= 130 + 5 * Z.of_nat (count_line 238
                            (trace (generate_certificate lib w fuel s))))%Z.
Proof.
  revert s. change (budget 130 (generate_certificate lib w fuel)).
  unfold generate_certificate. do 3 quietly.
  destruct (cryptography_importable w); [apply issue_budget |].
  eapply budget_weaken; [apply budget_awake; awake_go | lia].
Qed.

End Issuance.

(** A server that sends the nonce of newNonce in lower case, as HTTP/2
    front ends do. *)
Definition lowercase_nonce : World :=
  {| environ := environ Scenario.first_run;
     cryptography_importable := true;
     get_secret_value := get_secret_value Scenario.first_run;
     put_secret_value := put_secret_value Scenario.first_run;
     ec_generate_private_key := Scenario.fresh_key;
     rsa_generate_private_key := Scenario.certificate_key;
     ecdsa_sign := ecdsa_sign Scenario.first_run;
     urlopen := fun method url =>
       if String.eqb url Scenario.new_nonce_url
       then Http2xx EmptyString [("replay-nonce", "nonce-first")]
       else urlopen Scenario.first_run method url;
     acme_post := acme_post Scenario.first_run;
     change_resource_record_sets :=
       change_resource_record_sets Scenario.first_run;
     get_change := get_change Scenario.first_run |}.

Lemma first_nonce_needs_exact_header_witness :
  msg_get "Replay-Nonce" [("replay-nonce", "nonce-first")]
  = Some "nonce-first"
  /\ generate_certificate Scenario.library lowercase_nonce 5 start
     = (Raises (KeyError "Replay-Nonce"), start,
        [(140, GetSecretValue "arn:cert");
         (159, UrlOpen "GET" ACME_DIRECTORY);
         (162, UrlOpen "HEAD" Scenario.new_nonce_url)]).
Proof.
  split; [reflexivity |].
  apply (@first_nonce_needs_exact_header Scenario.library lowercase_nonce 5
           start "example.com" "Z1" "arn:cert" []
           (json_dumps Scenario.directory) Scenario.directory
           Scenario.new_nonce_url EmptyString
           [("replay-nonce", "nonce-first")]);
    try reflexivity.
  intros k v [E | []]. injection E as <- _. discriminate.
Defined.

(** A library whose PEM loader finds an RSA key in the stored text. *)
Definition rsa_library : Library :=
  {| sha256 := Scenario.digest;
     json_loads := Scenario.parse;
     load_pem_private_key := fun _ => Some Scenario.certificate_key;
     private_bytes := Scenario.to_pem;
     csr_public_bytes := csr_public_bytes Scenario.library;
     not_valid_after := Scenario.expiry;
     py_repr := json_dumps |}.

Lemma non_ec_account_key_blocks_issuance_witness :
  Forall (placed 140 162)
         (trace (generate_certificate rsa_library Scenario.renewal 5 start))
  /\ result_of (generate_certificate rsa_library Scenario.renewal 5 start)
     <> OutOfFuel.
Proof.
  destruct (@non_ec_account_key_blocks_issuance rsa_library Scenario.renewal
              5 start "arn:cert" 3233%Z 65537%Z eq_refl eq_refl)
    as (F & N & _).
  split; [exact F | exact N].
Defined.

(* ------------------------------------------------------------------ *)
(** ** [generate_certificate]: the TXT record and the stored bundle *)

(** The two values [generate_certificate] returns. *)
Definition certificate_generated (expires : pystr) : json :=
  JDict [("statusCode", JNum 200);
         ("body",
          JStr (json_dumps
                  (JDict [("message", JStr "Certificate generated");
                          ("expires", JStr expires)])))].

Definition cryptography_unavailable : json :=
  JDict [("statusCode", JNum 500);
         ("body", JStr "cryptography library not available")].

Section Record.

Variable lib : Library.
Variable w : World.

Lemma store_run arn site ck ak certificate chain expires s :
  store lib w arn site ck ak certificate chain expires s
  = let value :=
      json_dumps (cert_data certificate chain (private_bytes lib ck) site
                            expires (private_bytes lib ak)) in
    (match put_secret_value w arn value with
     | None => Returns (certificate_generated expires)
     | Some e => Raises e
     end, s, [(341, PutSecretValue arn value)]).
Proof.
  unfold store, secrets_put_secret_value, bind, at_line, emit. cbv zeta.
  destruct (put_secret_value w arn _); reflexivity.
Qed.

Lemma cleanup_run zone name value s :
  cleanup w zone name value s
  = (Returns tt, s,
     [(302, ChangeRecordSets "DELETE" zone name (quote +++ value +++ quote))]).
Proof.
  unfold cleanup, try_except, route53_change, bind, at_line, emit, lift.
  destruct (change_resource_record_sets w "DELETE" zone name _); reflexivity.
Qed.

(** What [order_challenge] returns keeps the three settings, and the TXT
    record it has set is the one its result names. *)
Lemma order_challenge_returns d z a s v s' t :
  order_challenge lib w d z a s = (Returns v, s', t) ->
  domain v = d /\ zone_id v = z /\ secret_arn v = a
  /\ txt_name v = "_acme-challenge." +++ d
  /\ In (219, ChangeRecordSets "UPSERT" z (txt_name v)
                (quote +++ dns_value v +++ quote)) t.
Proof.
  unfold order_challenge. intros H.
  apply bind_returns_inv in H. destruct H as (key & s1 & t1 & r1 & _ & H & ->).
  apply bind_returns_inv in H.
  destruct H as ([[dir au] n0] & s2 & t2 & r2 & _ & H & ->).
  cbv zeta in H.
  apply bind_returns_inv in H.
  destruct H as ([[[[o ou] aurl] auth] n1] & s3 & t3 & r3 & _ & H & ->).
  apply bind_returns_inv in H.
  destruct H as ([[[ch tn] dv] cid] & s4 & t4 & r4 & E & H & ->).
  injection H as <- _ <-. cbn [domain zone_id secret_arn txt_name dns_value].
  rewrite app_nil_r.
  unfold provision_challenge in E.
  rewrite bind_lift in E. destruct (getitem auth "challenges") as [chs |]; [| discriminate].
  rewrite bind_lift in E. destruct (find_challenge chs) as [found |]; [| discriminate].
  apply bind_returns_inv in E. destruct E as (c & s5 & t5 & r5 & E0 & E & ->).
  assert (t5 = []) by (destruct found; inversion E0; reflexivity). subst t5.
  rewrite bind_lift in E.
  destruct (jwk_thumbprint (sha256 lib) key) as [tp |]; [| discriminate].
  rewrite bind_lift in E. destruct (getitem c "token") as [tok |]; [| discriminate].
  cbv zeta in E.
  apply bind_returns_inv in E. destruct E as (cr & s6 & t6 & r6 & E1 & E & ->).
  rewrite bind_lift in E. destruct (getitem cr "ChangeInfo") as [ci |]; [| discriminate].
  rewrite bind_lift in E. destruct (getitem ci "Id") as [cid0 |]; [| discriminate].
  injection E as <- <- <- <- _ <-.
  unfold route53_change, at_line, bind, emit, lift in E1.
  destruct (change_resource_record_sets w _ _ _ _); [| discriminate].
  injection E1 as _ _ <-.
  repeat split. repeat rewrite in_app_iff. cbn [In]. auto 20.
Qed.

(** [obtain_certificate] ends before line 302 without a result, or with
    the DELETE of line 302 as its last call and a result. *)
Lemma obtain_certificate_anatomy v nonce s o s' t :
  obtain_certificate lib w v nonce s = (o, s', t) ->
  (Forall (placed 267 285) t /\ forall x, o <> Returns x)
  \/ exists t0 x,
       Forall (placed 267 285) t0
       /\ t = t0 ++ [(302, ChangeRecordSets "DELETE" (zone_id v) (txt_name v)
                            (quote +++ dns_value v +++ quote))]
       /\ o = Returns x.
Proof.
  unfold obtain_certificate. intros H.
  assert (W : forall lo hi, 267 <= lo -> hi <= 285 ->
                   forall e : event, placed lo hi e -> placed 267 285 e).
  { intros lo hi ? ? e. apply placed_weaken; assumption. }
  rewrite bind_lift in H.
  destruct (getitem (order v) "finalize") as [url | e].
  2: { injection H as <- _ <-. left. split; [constructor | discriminate]. }
  apply bind_inv in H.
  destruct H as [([resp n1] & s1 & t1 & r1 & E1 & H & ->)
                | [(e & E1 & ->) | (E1 & ->)]];
    (eapply emits_run in E1;
     [| apply (@emits_at_line _ (placed 267 267)), emits_acme_request;
        intros; unfold placed, well_placed; simpl; auto 12]);
    apply (Forall_impl _ (W 267 267 ltac:(lia) ltac:(lia))) in E1.
  2, 3: left; split; [exact E1 | discriminate].
  apply bind_inv in H.
  destruct H as [([doc n2] & s2 & t2 & r2 & E2 & H & ->)
                | [(e & E2 & ->) | (E2 & ->)]];
    (eapply emits_run in E2; [| apply poll_order_placed]);
    apply (Forall_impl _ (W 271 279 ltac:(lia) ltac:(lia))) in E2.
  2, 3: left; split; [apply Forall_app; auto | discriminate].
  apply bind_inv in H.
  destruct H as [([[c ch] ex] & s3 & t3 & r3 & E3 & H & ->)
                | [(e & E3 & ->) | (E3 & ->)]];
    (eapply emits_run in E3; [| apply download_certificate_placed]);
    apply (Forall_impl _ (W 285 285 ltac:(lia) ltac:(lia))) in E3.
  2, 3: left; split; [repeat (apply Forall_app; split); auto | discriminate].
  unfold bind in H. rewrite cleanup_run in H. injection H as <- _ <-.
  right. exists (t1 ++ t2 ++ t3), (c, ch, ex).
  split; [repeat (apply Forall_app; split); auto |].
  split; [rewrite <- !app_assoc; reflexivity | reflexivity].
Qed.

(** The bundle a run stores. *)
Definition bundle (v : locals) (certificate chain expires : pystr) : pystr :=
  json_dumps (cert_data certificate chain (private_bytes lib (cert_key v))
                        (domain v) expires
                        (private_bytes lib (account_key v))).

(** A run of [issue]: it stops while the order and the challenge are set
    up; or later, before the DELETE of line 302; or it makes the DELETE
    and the write, and ends as the write does. *)
Lemma issue_anatomy fuel d z a s o s' t :
  issue lib w fuel d z a s = (o, s', t) ->
  (exists oc s1,
      order_challenge lib w d z a s = (oc, s1, t)
      /\ (forall v, oc <> Returns v) /\ forall x, o <> Returns x)
  \/ exists v s1 t1 t2,
       order_challenge lib w d z a s = (Returns v, s1, t1)
       /\ Forall (placed 238 285) t2
       /\ ((t = t1 ++ t2 /\ forall x, o <> Returns x)
           \/ exists certificate chain expires,
                t = t1 ++ t2
                    ++ [(302, ChangeRecordSets "DELETE" (zone_id v)
                                (txt_name v)
                                (quote +++ dns_value v +++ quote));
                        (341, PutSecretValue (secret_arn v)
                                (bundle v certificate chain expires))]
                /\ o = match put_secret_value w (secret_arn v)
                                (bundle v certificate chain expires) with
                       | None => Returns (certificate_generated expires)
                       | Some e => Raises e
                       end).
Proof.
  unfold issue. intros H.
  assert (W : forall lo hi, 238 <= lo -> hi <= 285 ->
                   forall e : event, placed lo hi e -> placed 238 285 e).
  { intros lo hi ? ? e. apply placed_weaken; assumption. }
  apply bind_inv in H.
  destruct H as [(v & s1 & t1 & r1 & E1 & H & ->) | [(e & E1 & ->) | (E1 & ->)]].
  2: { left. exists (Raises e), s'. repeat split; try exact E1; discriminate. }
  2: { left. exists OutOfFuel, s'. repeat split; try exact E1; discriminate. }
  right. exists v, s1, t1.
  assert (Stop : forall t2 (o' : outcome json),
             Forall (placed 238 285) t2 -> (forall x, o' <> Returns x) ->
             exists t3,
               order_challenge lib w d z a s = (Returns v, s1, t1)
               /\ Forall (placed 238 285) t3
               /\ ((t1 ++ t2 = t1 ++ t3 /\ forall x, o' <> Returns x)
                   \/ exists certificate chain expires,
                        t1 ++ t2
                        = t1 ++ t3
                          ++ [(302, ChangeRecordSets "DELETE" (zone_id v)
                                      (txt_name v)
                                      (quote +++ dns_value v +++ quote));
                              (341, PutSecretValue (secret_arn v)
                                      (bundle v certificate chain expires))]
                        /\ o' = match put_secret_value w (secret_arn v)
                                        (bundle v certificate chain expires)
                                with
                                | None =>
                                    Returns (certificate_generated expires)
                                | Some e => Raises e
                                end)).
  { intros t2 o' F N. exists t2. auto. }
  apply bind_inv in H.
  destruct H as [(u & s2 & t2 & r2 & E2 & H & ->) | [(e & E2 & ->) | (E2 & ->)]];
    (eapply emits_run in E2; [| apply wait_insync_placed]);
    apply (Forall_impl _ (W 238 241 ltac:(lia) ltac:(lia))) in E2.
  2, 3: apply Stop; [exact E2 | discriminate].
  apply bind_inv in H.
  destruct H as [(n & s3 & t3 & r3 & E3 & H & ->) | [(e & E3 & ->) | (E3 & ->)]];
    (eapply emits_run in E3; [| apply notify_challenge_placed]);
    apply (Forall_impl _ (W 244 248 ltac:(lia) ltac:(lia))) in E3.
  2, 3: apply Stop; [apply Forall_app; auto | discriminate].
  apply bind_inv in H.
  destruct H as [(n' & s4 & t4 & r4 & E4 & H & ->) | [(e & E4 & ->) | (E4 & ->)]];
    (eapply emits_run in E4; [| apply poll_authorization_placed]);
    apply (Forall_impl _ (W 252 261 ltac:(lia) ltac:(lia))) in E4.
  2, 3: apply Stop; [repeat (apply Forall_app; split); auto | discriminate].
  assert (W' : forall t, Forall (placed 267 285) t -> Forall (placed 238 285) t).
  { intros t0 F. eapply Forall_impl; [| exact F]. apply W; lia. }
  apply bind_inv in H.
  destruct H as [([[c ch] ex] & s5 & t5 & r5 & E5 & H & ->)
                | [(e & E5 & ->) | (E5 & ->)]];
    apply obtain_certificate_anatomy in E5;
    destruct E5 as [(F5 & N5) | (t0 & x & F5 & E5 & N5)];
    try discriminate N5;
    try (exfalso; eapply N5; reflexivity);
    try (apply Stop;
         [repeat (apply Forall_app; split); auto | discriminate]).
  subst t5. rewrite store_run in H. cbv zeta in H.
  fold (bundle v c ch ex) in H. injection H as <- _ <-.
  exists (t2 ++ t3 ++ t4 ++ t0).
  split; [exact E1 |].
  split; [repeat (apply Forall_app; split); auto |].
  right. exists c, ch, ex. split; [| reflexivity].
  rewrite <- !app_assoc. reflexivity.
Qed.

(** The DNS change of line 219 is the UPSERT of the challenge record of
    the domain. *)
Definition sets_challenge_record (z d : pystr) (e : event) : Prop :=
  fst e = 219 ->
  exists value,
    snd e = ChangeRecordSets "UPSERT" z ("_acme-challenge." +++ d) value.

Lemma placed_sets_challenge_record z d lo hi :
  hi < 219 \/ 219 < lo ->
  forall e, placed lo hi e -> sets_challenge_record z d e.
Proof. intros Hl e [He _] E. lia. Qed.

Lemma order_challenge_upsert d z a :
  emits (sets_challenge_record z d) (order_challenge lib w d z a).
Proof.
  unfold order_challenge.
  apply emits_bind;
    [eapply emits_weaken; [| apply get_or_create_account_key_placed];
     apply placed_sets_challenge_record; lia | intros key].
  apply emits_bind;
    [eapply emits_weaken; [| apply open_account_placed];
     apply placed_sets_challenge_record; lia | intros [[dir au] n0]].
  cbv zeta. apply emits_bind;
    [eapply emits_weaken; [| apply create_order_placed];
     apply placed_sets_challenge_record; lia
    | intros [[[[o ou] aurl] auth] n1]].
  apply emits_bind; [| intros [[[ch tn] dv] cid]; apply emits_ret].
  unfold provision_challenge.
  repeat first
    [ apply emits_ret | apply emits_raise | apply emits_lift
    | apply emits_bind; [| intros]
    | apply emits_at_line
    | apply emits_emit
    | match goal with
      | |- emits _ (match ?x with _ => _ end) => destruct x
      end
    | progress unfold route53_change ].
  intros _. eexists. reflexivity.
Qed.

Lemma no_write_before lo hi t t0 line arn value :
  Forall (placed lo hi) t -> hi < 341 ->
  t <> t0 ++ [(line, PutSecretValue arn value)].
Proof.
  intros F Hh E. subst t. apply Forall_app in F. destruct F as [_ F].
  inversion F as [| e l [Hl Hw] _]; subst. unfold well_placed in Hw.
  cbn in Hl, Hw. lia.
Qed.

Lemma generate_certificate_cases fuel s :
  (generate_certificate lib w fuel s
   = (Returns cryptography_unavailable, s, [])
   /\ cryptography_importable w = false)
  \/ (exists e, generate_certificate lib w fuel s = (Raises e, s, []))
  \/ exists d z a,
       os_environ w "DOMAIN" = Ok d /\ os_environ w "ZONE_ID" = Ok z
       /\ os_environ w "CERT_SECRET_ARN" = Ok a
       /\ generate_certificate lib w fuel s = issue lib w fuel d z a s.
Proof.
  unfold generate_certificate.
  rewrite bind_lift. destruct (os_environ w "DOMAIN") as [d | x]; [| eauto].
  rewrite bind_lift. destruct (os_environ w "ZONE_ID") as [z | x]; [| eauto].
  rewrite bind_lift.
  destruct (os_environ w "CERT_SECRET_ARN") as [a | x]; [| eauto].
  destruct (cryptography_importable w).
  - right. right. exists d, z, a. auto.
  - left. split; reflexivity.
Qed.

(** X8: the value a run returns tells whether the bundle was stored.  A
    run returns the 500 response when [cryptography] is missing, having
    made no call; any other value it returns is the 200 response with the
    expiry of the bundle it has just written, and the write succeeded.
    When the write of line 341 raises, the run raises that exception: the
    certificate it downloaded is not kept anywhere. *)
Theorem success_means_stored fuel s :
  (forall r,
      result_of (generate_certificate lib w fuel s) = Returns r ->
      (cryptography_importable w = false /\ r = cryptography_unavailable
       /\ trace (generate_certificate lib w fuel s) = [])
      \/ exists t0 arn certificate chain key site expires account,
           os_environ w "CERT_SECRET_ARN" = Ok arn
           /\ trace (generate_certificate lib w fuel s)
              = t0 ++ [(341, PutSecretValue arn
                               (json_dumps
                                  (cert_data certificate chain key site
                                             expires account)))]
           /\ put_secret_value w arn
                (json_dumps
                   (cert_data certificate chain key site expires account))
              = None
           /\ r = certificate_generated expires)
  /\ (forall t0 line arn value e,
         trace (generate_certificate lib w fuel s)
         = t0 ++ [(line, PutSecretValue arn value)] ->
         put_secret_value w arn value = Some e ->
         result_of (generate_certificate lib w fuel s) = Raises e).
Proof.
  destruct (generate_certificate_cases fuel s)
    as [(E & Hc) | [(x & E) | (d & z & a & Hd & Hz & Ha & E)]];
    rewrite E; cbn [result_of trace fst snd].
  - split.
    + intros r Hr. injection Hr as <-. left. auto.
    + intros t0 line arn value e Ht. destruct t0; discriminate Ht.
  - split; [discriminate |].
    intros t0 line arn value e Ht. destruct t0; discriminate Ht.
  - clear E. destruct (issue lib w fuel d z a s) as [[o s'] t] eqn:E.
    cbn [fst snd]. apply issue_anatomy in E.
    destruct E as [(oc & s1 & E & N1 & N) | (v & s1 & t1 & t2 & E & F2 & E')].
    { eapply emits_run in E; [| apply order_challenge_placed].
      split; [intros r Hr; exfalso; exact (N r Hr) |].
      intros t0 line arn value e Ht. exfalso.
      exact (@no_write_before 140 219 t t0 line arn value E ltac:(lia) Ht). }
    pose proof E as V; apply order_challenge_returns in V;
      destruct V as (Vd & Vz & Va & Vn & Vin).
    eapply emits_run in E; [| apply order_challenge_placed].
    destruct E' as [(-> & N) | (c & ch & ex & -> & ->)].
    { split; [intros r Hr; exfalso; exact (N r Hr) |].
      intros t0 line arn value e Ht. exfalso.
      refine (@no_write_before 140 285 (t1 ++ t2) t0 line arn value _
                ltac:(lia) Ht).
      apply Forall_app; split;
        (eapply Forall_impl; [| eassumption]);
        intros ev; apply placed_weaken; lia. }
    rewrite Va. split.
    + intros r Hr. right.
      destruct (put_secret_value w a (bundle v c ch ex)) eqn:P;
        [discriminate Hr |].
      injection Hr as <-.
      exists (t1 ++ t2
              ++ [(302, ChangeRecordSets "DELETE" (zone_id v) (txt_name v)
                          (quote +++ dns_value v +++ quote))]).
      exists a, c, ch, (private_bytes lib (cert_key v)), (domain v), ex,
        (private_bytes lib (account_key v)).
      split; [exact Ha |]. split; [| split; [exact P | reflexivity]].
      rewrite <- !app_assoc. reflexivity.
    + intros t0 line arn value e Ht Hp.
      change (t1 ++ t2
              ++ [(302, ChangeRecordSets "DELETE" (zone_id v) (txt_name v)
                          (quote +++ dns_value v +++ quote));
                  (341, PutSecretValue a (bundle v c ch ex))])
        with (t1 ++ t2
              ++ [(302, ChangeRecordSets "DELETE" (zone_id v) (txt_name v)
                          (quote +++ dns_value v +++ quote))]
              ++ [(341, PutSecretValue a (bundle v c ch ex))]) in Ht.
      rewrite !app_assoc in Ht. apply app_inj_tail in Ht.
      destruct Ht as [_ Ht]. injection Ht as _ <- <-.
      rewrite Hp. reflexivity.
Qed.

(** X9: the TXT record is deleted in the runs that reach the write, and
    in no other: a run has as many calls at line 302 as at line 341.  The
    call of line 302 is a DELETE of the zone, name and value of the UPSERT
    of line 219, and that UPSERT is for [_acme-challenge.] followed by
    [DOMAIN], in the zone [ZONE_ID].  So a run that fails between the two
    lines leaves the record in the zone, and a DELETE that fails does not
    stop the run. *)
Theorem txt_record_is_cleaned_up fuel s :
  count_line 302 (trace (generate_certificate lib w fuel s))
  = count_line 341 (trace (generate_certificate lib w fuel s))
  /\ (forall action zone name value,
         In (302, ChangeRecordSets action zone name value)
            (trace (generate_certificate lib w fuel s)) ->
         action = "DELETE"
         /\ In (219, ChangeRecordSets "UPSERT" zone name value)
               (trace (generate_certificate lib w fuel s)))
  /\ (forall action zone name value,
         In (219, ChangeRecordSets action zone name value)
            (trace (generate_certificate lib w fuel s)) ->
         action = "UPSERT"
         /\ os_environ w "ZONE_ID" = Ok zone
         /\ exists d,
              os_environ w "DOMAIN" = Ok d
              /\ name = "_acme-challenge." +++ d).
Proof.
  assert (Out : forall lo hi t l c,
             Forall (placed lo hi) t -> l < lo \/ hi < l -> ~ In (l, c) t).
  { intros lo hi t l c F Hl Hin. rewrite Forall_forall in F.
    destruct (F _ Hin) as [Hr _]. cbn in Hr. lia. }
  destruct (generate_certificate_cases fuel s)
    as [(E & Hc) | [(x & E) | (d & z & a & Hd & Hz & Ha & E)]];
    rewrite E; cbn [result_of trace fst snd].
  1, 2: split; [reflexivity | split; intros ? ? ? ? []].
  clear E. destruct (issue lib w fuel d z a s) as [[o s'] t] eqn:E.
  unfold trace. cbn [fst snd]. apply issue_anatomy in E.
  assert (Up : forall t1 action zone name value,
             Forall (sets_challenge_record z d) t1 ->
             In (219, ChangeRecordSets action zone name value) t1 ->
             action = "UPSERT" /\ os_environ w "ZONE_ID" = Ok zone
             /\ exists d0, os_environ w "DOMAIN" = Ok d0
                           /\ name = "_acme-challenge." +++ d0).
  { intros t1 action zone name value F Hin. rewrite Forall_forall in F.
    destruct (F _ Hin eq_refl) as [value' Ev]. cbn in Ev.
    injection Ev as -> -> -> _. eauto. }
  destruct E as [(oc & s1 & E & N1 & N) | (v & s1 & t1 & t2 & E & F2 & E')].
  { pose proof E as U; (eapply emits_run in U; [| apply order_challenge_upsert]).
    eapply emits_run in E; [| apply order_challenge_placed].
    split; [| split].
    - rewrite !(@count_line_placed _ 140 219 t E) by lia. reflexivity.
    - intros action zone name value Hin. exfalso.
      exact (Out 140 219 t 302 _ E ltac:(lia) Hin).
    - intros action zone name value Hin. exact (Up t _ _ _ _ U Hin). }
  pose proof E as V; apply order_challenge_returns in V;
    destruct V as (Vd & Vz & Va & Vn & Vin).
  pose proof E as U; (eapply emits_run in U; [| apply order_challenge_upsert]).
  eapply emits_run in E; [| apply order_challenge_placed].
  destruct E' as [(-> & N) | (c & ch & ex & -> & ->)].
  { split; [| split].
    - rewrite !count_line_app.
      rewrite !(@count_line_placed _ 140 219 t1 E) by lia.
      rewrite !(@count_line_placed _ 238 285 t2 F2) by lia. reflexivity.
    - intros action zone name value Hin. exfalso.
      apply in_app_or in Hin. destruct Hin as [Hin | Hin].
      + exact (Out 140 219 t1 302 _ E ltac:(lia) Hin).
      + exact (Out 238 285 t2 302 _ F2 ltac:(lia) Hin).
    - intros action zone name value Hin.
      apply in_app_or in Hin. destruct Hin as [Hin | Hin].
      + exact (Up t1 _ _ _ _ U Hin).
      + exfalso. exact (Out 238 285 t2 219 _ F2 ltac:(lia) Hin). }
  split; [| split].
  - rewrite !count_line_app.
    rewrite !(@count_line_placed _ 140 219 t1 E) by lia.
    rewrite !(@count_line_placed _ 238 285 t2 F2) by lia. reflexivity.
  - intros action zone name value Hin.
    apply in_app_or in Hin. destruct Hin as [Hin | Hin];
      [exfalso; exact (Out 140 219 t1 302 _ E ltac:(lia) Hin) |].
    apply in_app_or in Hin. destruct Hin as [Hin | Hin];
      [exfalso; exact (Out 238 285 t2 302 _ F2 ltac:(lia) Hin) |].
    destruct Hin as [Hin | [Hin | []]]; [| discriminate Hin].
    injection Hin as <- <- <- <-. split; [reflexivity |].
    apply in_or_app. left. rewrite Vz. exact Vin.
  - intros action zone name value Hin.
    apply in_app_or in Hin. destruct Hin as [Hin | Hin];
      [exact (Up t1 _ _ _ _ U Hin) |].
    apply in_app_or in Hin. destruct Hin as [Hin | Hin];
      [exfalso; exact (Out 238 285 t2 219 _ F2 ltac:(lia) Hin) |].
    destruct Hin as [Hin | [Hin | []]]; discriminate Hin.
Qed.

(** *** The value of the TXT record *)

(** The challenge the loop of lines 202-205 stops at: the first one of
    type [dns-01]. *)
Definition first_of_type_dns01 (challenges : list json) (c : json) : Prop :=
  exists pre post,
    challenges = pre ++ c :: post
    /\ getitem c "type" = Ok (JStr "dns-01")
    /\ Forall (fun c' => exists type, getitem c' "type" = Ok type
                                      /\ type <> JStr "dns-01") pre.

Lemma first_dns01_some l c :
  first_dns01 l = Ok (Some c) -> first_of_type_dns01 l c.
Proof.
  induction l as [| c0 l IH]; [discriminate |].
  cbn [first_dns01]. unfold rbind.
  destruct (getitem c0 "type") as [type |] eqn:Et; [| discriminate].
  destruct (is_str type "dns-01") eqn:Ei.
  - intros H. injection H as <-. apply is_str_eq in Ei. subst type.
    exists [], l. repeat split; [exact Et | constructor].
  - intros H. destruct (IH H) as (pre & post & -> & Hc & Hpre).
    exists (c0 :: pre), post. repeat split; [exact Hc |].
    constructor; [| exact Hpre]. exists type. split; [exact Et |].
    intros ->. cbn in Ei. discriminate.
Qed.

(** The key authorization of RFC 8555, section 8.1, and the TXT value for
    it, section 8.4, as lines 211-213 and 228 compute them. *)
Definition txt_value (token : json) (thumbprint : pystr) : pystr :=
  quote
  +++ base64url_encode
        (Bytes (sha256 lib
                  (str_encode (format_value lib token +++ "." +++ thumbprint))))
  +++ quote.

Lemma provision_challenge_inv d z key auth s o s' t :
  provision_challenge lib w d z key auth s = (o, s', t) ->
  t = []
  \/ exists challenges c token thumbprint,
       getitem auth "challenges" = Ok (JList challenges)
       /\ first_of_type_dns01 challenges c
       /\ getitem c "token" = Ok token
       /\ jwk_thumbprint (sha256 lib) key = Ok thumbprint
       /\ t = [(219, ChangeRecordSets "UPSERT" z ("_acme-challenge." +++ d)
                       (txt_value token thumbprint))].
Proof.
  unfold provision_challenge. intros H.
  rewrite bind_lift in H.
  destruct (getitem auth "challenges") as [chs |] eqn:Ec;
    [| injection H as _ _ <-; auto].
  rewrite bind_lift in H.
  destruct (find_challenge chs) as [found |] eqn:Ef;
    [| injection H as _ _ <-; auto].
  destruct found as [c |];
    [rewrite bind_ret in H | injection H as _ _ <-; auto].
  rewrite bind_lift in H.
  destruct (jwk_thumbprint (sha256 lib) key) as [tp |] eqn:Et;
    [| injection H as _ _ <-; auto].
  rewrite bind_lift in H.
  destruct (getitem c "token") as [tok |] eqn:Ek;
    [| injection H as _ _ <-; auto].
  cbv zeta in H. right.
  assert (exists l, chs = JList l /\ first_dns01 l = Ok (Some c))
    as (l & -> & Hl).
  { destruct chs as [| b | n | x | l | [| kv dd]]; try discriminate Ef.
    - destruct x; discriminate Ef.
    - exists l. auto. }
  exists l, c, tok, tp.
  split; [reflexivity |]. split; [apply first_dns01_some, Hl |].
  split; [exact Ek |]. split; [reflexivity |].
  unfold route53_change, at_line, bind, emit, lift in H.
  destruct (change_resource_record_sets w _ _ _ _) as [cr |];
    [| injection H as _ _ <-; reflexivity].
  cbn in H.
  destruct (getitem cr "ChangeInfo") as [ci |];
    [| injection H as _ _ <-; reflexivity].
  cbn in H.
  destruct (getitem ci "Id") as [cid |]; injection H as _ _ <-; reflexivity.
Qed.

Lemma create_order_returns domain directory key au nonce s r s' t :
  create_order lib w domain directory key au nonce s = (Returns r, s', t) ->
  exists u n data text hdrs,
    In (197, AcmePost u n None data (Http2xx text hdrs)) t
    /\ json_loads lib text = Some (snd (fst r)).
Proof.
  unfold create_order. cbv zeta. intros H. rewrite bind_lift in H.
  destruct (getitem directory "newOrder") as [url |]; [| discriminate H].
  apply bind_returns_inv in H.
  destruct H as ([resp n1] & s1 & t1 & r1 & _ & H & ->).
  rewrite bind_lift in H.
  destruct (loads lib (body resp)) as [o |]; [| discriminate H].
  rewrite bind_lift in H.
  destruct (getitem o "authorizations") as [auths |]; [| discriminate H].
  rewrite bind_lift in H.
  destruct (getitem0 auths) as [aurl |]; [| discriminate H].
  apply bind_returns_inv in H.
  destruct H as ([resp2 n2] & s2 & t2 & r2 & E & H & ->).
  rewrite bind_lift in H. unfold loads in H.
  destruct (json_loads lib (body resp2)) as [auth |] eqn:El;
    [| discriminate H].
  injection H as <- _ <-. cbn [fst snd].
  apply acme_request_at_inv in E.
  destruct E as [(_ & _ & e & E) | (u & data & _ & -> & _ & E)];
    [discriminate E |].
  destruct (acme_post w (posts s1) u data) as [text hdrs | |];
    try discriminate E.
  cbn [acme_outcome] in E. injection E as E _. subst resp2. cbn [body] in El.
  exists u, n1, data, text, hdrs. split; [| exact El].
  apply in_or_app. right. left. reflexivity.
Qed.

(** Where the change of line 219 comes from: the account key, and the
    authorization the server sent in answer to line 197. *)
Definition record_of_challenge (arn : pystr) (t : list event) (value : pystr)
  : Prop :=
  exists u n data text hdrs auth challenges c token thumbprint,
    In (197, AcmePost u n None data (Http2xx text hdrs)) t
    /\ json_loads lib text = Some auth
    /\ getitem auth "challenges" = Ok (JList challenges)
    /\ first_of_type_dns01 challenges c
    /\ getitem c "token" = Ok token
    /\ jwk_thumbprint (sha256 lib)
         (match stored_account_key lib w arn with
          | Some key => key
          | None => ec_generate_private_key w
          end) = Ok thumbprint
    /\ value = txt_value token thumbprint.

Lemma order_challenge_record d z a s o s' t action zone name value :
  order_challenge lib w d z a s = (o, s', t) ->
  In (219, ChangeRecordSets action zone name value) t ->
  record_of_challenge a t value.
Proof.
  assert (Out : forall lo hi t l c,
             Forall (placed lo hi) t -> l < lo \/ hi < l -> ~ In (l, c) t).
  { intros lo hi t0 l c F Hl Hin. rewrite Forall_forall in F.
    destruct (F _ Hin) as [Hr _]. cbn in Hr. lia. }
  unfold order_challenge. intros H Hin. unfold bind at 1 in H.
  rewrite get_or_create_account_key_run in H.
  set (key := match stored_account_key lib w a with
              | Some key => key
              | None => ec_generate_private_key w
              end) in *.
  destruct ((' p <- open_account lib w key ;; _) s) as [[o1 s1] t1] eqn:E.
  injection H as <- <- <-.
  destruct Hin as [Hin | Hin]; [discriminate Hin |].
  apply bind_inv in E.
  destruct E as [([[dir au] n0] & s2 & t2 & r2 & E2 & E & ->)
                | [(e & E2 & _) | (E2 & _)]];
    (eapply emits_run in E2; [| apply open_account_placed]);
    try (exfalso; exact (Out 159 165 _ 219 _ E2 ltac:(lia) Hin)).
  apply in_app_or in Hin. destruct Hin as [Hin | Hin];
    [exfalso; exact (Out 159 165 _ 219 _ E2 ltac:(lia) Hin) |].
  cbv zeta in E. apply bind_inv in E.
  destruct E as [(r & s3 & t3 & r3 & E3 & E & ->)
                | [(e & E3 & _) | (E3 & _)]];
    pose proof E3 as P3;
    (eapply emits_run in P3; [| apply create_order_placed]);
    try (exfalso; exact (Out 188 197 _ 219 _ P3 ltac:(lia) Hin)).
  apply in_app_or in Hin. destruct Hin as [Hin | Hin];
    [exfalso; exact (Out 188 197 _ 219 _ P3 ltac:(lia) Hin) |].
  apply create_order_returns in E3.
  destruct E3 as (u & n & data & text & hdrs & H197 & Hl).
  destruct r as [[[[o ou] aurl] auth] n1]. cbn [fst snd] in Hl.
  assert (exists op sp tp,
             provision_challenge lib w d z key auth s3 = (op, sp, tp)
             /\ In (219, ChangeRecordSets action zone name value) tp)
    as (op & sp & tp & Ep & Hp).
  { apply bind_inv in E.
    destruct E as [([[[ch tn] dv] cid] & s4 & t4 & r4 & E4 & E & ->)
                  | [(e & E4 & _) | (E4 & _)]]; eauto.
    injection E as _ _ <-. rewrite app_nil_r in Hin. eauto. }
  apply provision_challenge_inv in Ep.
  destruct Ep as [-> | (chs & c & tok & thumb & Hc & Hf & Hk & Ht & ->)];
    [destruct Hp |].
  destruct Hp as [Hp | []]. injection Hp as _ _ _ <-.
  exists u, n, data, text, hdrs, auth, chs, c, tok, thumb.
  repeat split; auto.
  right. apply in_or_app. right. apply in_or_app. left. exact H197.
Qed.

(** X10: the value of the TXT record.  Whenever a run changes the zone
    at line 219, the value it sets is, between double quotes, the
    base64url of the SHA-256 digest of [token.thumbprint], where the
    token is that of the first challenge of type [dns-01] in the
    authorization the server sent in answer to line 197, and the
    thumbprint is that of the account key of the run. *)
Theorem challenge_record_value fuel s action zone name value :
  In (219, ChangeRecordSets action zone name value)
     (trace (generate_certificate lib w fuel s)) ->
  exists arn,
    os_environ w "CERT_SECRET_ARN" = Ok arn
    /\ record_of_challenge arn (trace (generate_certificate lib w fuel s))
                           value.
Proof.
  assert (Out : forall lo hi t l c,
             Forall (placed lo hi) t -> l < lo \/ hi < l -> ~ In (l, c) t).
  { intros lo hi t0 l c F Hl Hin. rewrite Forall_forall in F.
    destruct (F _ Hin) as [Hr _]. cbn in Hr. lia. }
  assert (More : forall arn t t',
             record_of_challenge arn t value ->
             record_of_challenge arn (t ++ t') value).
  { intros arn t t' (u & n & data & text & hdrs & auth & chs & c & tok & th
                    & H & R).
    exists u, n, data, text, hdrs, auth, chs, c, tok, th.
    split; [apply in_or_app; left; exact H | exact R]. }
  destruct (generate_certificate_cases fuel s)
    as [(E & Hc) | [(x & E) | (d & z & a & Hd & Hz & Ha & E)]];
    rewrite E; unfold trace; cbn [fst snd]; try (intros []).
  clear E. destruct (issue lib w fuel d z a s) as [[o s'] t] eqn:E.
  cbn [fst snd]. intros Hin. exists a. split; [exact Ha |].
  apply issue_anatomy in E.
  destruct E as [(oc & s1 & E & _) | (v & s1 & t1 & t2 & E & F2 & E')].
  { eapply order_challenge_record; eassumption. }
  assert (In1 : In (219, ChangeRecordSets action zone name value) t1).
  { destruct E' as [(-> & _) | (c & ch & ex & -> & _)];
      apply in_app_or in Hin; destruct Hin as [Hin | Hin]; try exact Hin.
    - exfalso. exact (Out 238 285 _ 219 _ F2 ltac:(lia) Hin).
    - apply in_app_or in Hin. destruct Hin as [Hin | Hin];
        [exfalso; exact (Out 238 285 _ 219 _ F2 ltac:(lia) Hin) |].
      destruct Hin as [Hin | [Hin | []]]; discriminate Hin. }
  assert (R : record_of_challenge a t1 value)
    by (eapply order_challenge_record; eassumption).
  destruct E' as [(-> & _) | (c & ch & ex & -> & _)]; apply More; exact R.
Qed.

End Record.

(** The first run returns the 200 response, after its write. *)
Lemma success_means_stored_witness :
  exists t0 value,
    trace (generate_certificate Scenario.library Scenario.first_run 5 start)
    = t0 ++ [(341, PutSecretValue "arn:cert" value)]
    /\ result_of (generate_certificate Scenario.library Scenario.first_run 5
                                       start)
       = Returns (certificate_generated "2027-01-01T00:00:00+00:00").
Proof.
  destruct (@success_means_stored Scenario.library Scenario.first_run 5 start)
    as [H _].
  destruct (H (certificate_generated "2027-01-01T00:00:00+00:00"))
    as [(C & _) | (t0 & arn & c & ch & k & site & ex & acc & A & T & _ & _)].
  - vm_compute. reflexivity.
  - discriminate C.
  - injection A as <-. exists t0. eexists. split; [exact T |].
    vm_compute. reflexivity.
Defined.

(** The record the first run sets. *)
Lemma challenge_record_value_witness :
  record_of_challenge Scenario.library Scenario.first_run "arn:cert"
    (trace (generate_certificate Scenario.library Scenario.first_run 5 start))
    (txt_value Scenario.library (JStr "tok1")
       (base64url_encode
          (Bytes (thumbprint_input Scenario.fresh_key)))).
Proof.
  destruct (@challenge_record_value Scenario.library Scenario.first_run 5
              start "UPSERT" "Z1" "_acme-challenge.example.com"
              (txt_value Scenario.library (JStr "tok1")
                 (base64url_encode
                    (Bytes (thumbprint_input Scenario.fresh_key)))))
    as (arn & A & R).
  - vm_compute. do 6 right. left. reflexivity.
  - injection A as <-. exact R.
Defined.

(* ------------------------------------------------------------------ *)
(** ** A refused request ends the run *)

(** Lines 458-469: the exception [acme_request] raises when its request
    gets no response; [None] for a request that got one, and for any other
    call. *)
Definition refusal (e : event) : option exn :=
  match snd e with
  | AcmePost _ _ _ _ (HttpError code b _) => Some (Exception (MsgAcme code b))
  | AcmePost _ _ _ _ (HttpFail x) => Some x
  | _ => None
  end.

Definition accepted (e : event) : Prop := refusal e = None.

(** Every signed request of [m] got a response, or the last call of [m]
    is a signed request that got none, and [m] raises its exception. *)
Definition stops_when_refused {A} (m : M A) : Prop :=
  forall s,
    Forall accepted (trace (m s))
    \/ exists t0 e x,
         trace (m s) = t0 ++ [e]
         /\ Forall accepted t0
         /\ refusal e = Some x
         /\ result_of (m s) = Raises x.

Section Refusal.

Variable lib : Library.
Variable w : World.

Lemma quiet_accepted e : quiet e -> accepted e.
Proof.
  destruct e as [l c]. destruct c; cbn; try reflexivity. intros [].
Qed.

Lemma stops_quiet {A} (m : M A) : emits quiet m -> stops_when_refused m.
Proof.
  intros H s. left. eapply Forall_impl; [| apply H]. exact quiet_accepted.
Qed.

Lemma stops_bind {A B} (m : M A) (f : A -> M B) :
  stops_when_refused m -> (forall a, stops_when_refused (f a)) ->
  stops_when_refused (bind m f).
Proof.
  intros Hm Hf s. specialize (Hm s). unfold bind, trace, result_of in *.
  destruct (m s) as [[[a | e |] s1] t1]; cbn [fst snd] in *.
  2: { destruct Hm as [Hm | (t0 & e' & x & -> & F & R & Hm)]; [left; exact Hm |].
       injection Hm as ->. right. exists t0, e', x. auto. }
  2: { destruct Hm as [Hm | (t0 & e' & x & _ & _ & _ & Hm)];
         [left; exact Hm | discriminate Hm]. }
  destruct Hm as [Hm | (t0 & e' & x & _ & _ & _ & Hm)]; [| discriminate Hm].
  specialize (Hf a s1). destruct (f a s1) as [[o s2] t2].
  unfold trace, result_of in Hf. cbn [fst snd] in *.
  destruct Hf as [Hf | (t0 & e' & x & -> & F & R & ->)].
  - left. apply Forall_app. auto.
  - right. exists (t1 ++ t0), e', x. rewrite app_assoc.
    split; [reflexivity |]. split; [apply Forall_app; split; assumption |].
    split; [exact R | reflexivity].
Qed.

Lemma accepted_at_line l (t : list event) :
  Forall accepted t -> Forall accepted (map (fun e => (l, snd e)) t).
Proof.
  induction 1 as [| e t He _ IH]; [constructor |].
  cbn [map]. constructor; [exact He | exact IH].
Qed.

Lemma stops_at_line {A} l (m : M A) :
  stops_when_refused m -> stops_when_refused (m @@ l).
Proof.
  intros Hm s. specialize (Hm s). unfold at_line, trace, result_of in *.
  destruct (m s) as [[o s1] t1]. cbn [fst snd] in *.
  destruct Hm as [Hm | (t0 & e & x & -> & F & R & ->)].
  - left. apply accepted_at_line, Hm.
  - right. exists (map (fun e => (l, snd e)) t0), (l, snd e), x.
    rewrite map_app.
    split; [reflexivity |]. split; [apply accepted_at_line, F |].
    split; [exact R | reflexivity].
Qed.

Lemma stops_acme_request url key au nonce payload :
  stops_when_refused (acme_request w url key au nonce payload).
Proof.
  intros s. unfold trace, result_of.
  destruct (acme_request w url key au nonce payload s) as [[o s'] t] eqn:E.
  apply acme_request_inv in E. cbn [fst snd].
  destruct E as [(-> & _) | (u & prot & sg & _ & E)]; [left; constructor |].
  cbv zeta in E. destruct E as (-> & _ & ->).
  destruct (acme_post w (posts s) u _) as [b h | code b h | e].
  - left. constructor; [reflexivity | constructor].
  - right. exists []. do 2 eexists.
    split; [reflexivity |]. split; [constructor |]. split; reflexivity.
  - right. exists []. do 2 eexists.
    split; [reflexivity |]. split; [constructor |]. split; reflexivity.
Qed.

Ltac stops_go :=
  repeat first
    [ apply stops_acme_request
    | apply stops_at_line
    | apply stops_bind; [| intros]
    | apply stops_quiet; quiet_here
    | match goal with
      | x : (_ * _)%type |- _ => destruct x
      | |- stops_when_refused (match ?x with _ => _ end) => destruct x
      end
    | progress cbv zeta
    | progress unfold acme_register ]
with quiet_here :=
  solve
    [ repeat first
        [ apply emits_get_change
        | apply emits_ret | apply emits_raise | apply emits_lift
        | apply emits_out_of_fuel
        | apply emits_bind; [| intros]
        | apply emits_try; [| intros]
        | apply emits_at_line
        | apply emits_emit
        | match goal with
          | |- emits _ (match ?x with _ => _ end) => destruct x
          end
        | progress unfold secrets_get_secret_value, secrets_put_secret_value,
            route53_change, time_sleep, fetch_url, fetch_url_headers, fetch ];
      try (intros; cbv beta; unfold quiet; simpl; exact I) ].

Lemma open_account_stops key : stops_when_refused (open_account lib w key).
Proof. unfold open_account. stops_go. Qed.

Lemma create_order_stops domain directory key au nonce :
  stops_when_refused (create_order lib w domain directory key au nonce).
Proof. unfold create_order. stops_go. Qed.

Lemma order_challenge_stops d z a :
  stops_when_refused (order_challenge lib w d z a).
Proof.
  unfold order_challenge.
  apply stops_bind;
    [apply stops_quiet, get_or_create_account_key_quiet | intros key].
  apply stops_bind; [apply open_account_stops | intros [[dir au] n0]].
  cbv zeta.
  apply stops_bind;
    [apply create_order_stops | intros [[[[o ou] aurl] auth] n1]].
  apply stops_bind;
    [apply stops_quiet, provision_challenge_quiet
    | intros [[[ch tn] dv] cid]; apply stops_quiet, emits_ret].
Qed.

Lemma notify_challenge_stops v : stops_when_refused (notify_challenge w v).
Proof. unfold notify_challenge. stops_go. Qed.

Lemma poll_authorization_stops n url key au nonce :
  stops_when_refused (poll_authorization lib w n url key au nonce).
Proof.
  revert nonce. induction n as [| n IH]; intros nonce; cbn [poll_authorization].
  - apply stops_quiet, emits_raise.
  - apply stops_bind; [stops_go | intros [resp n1]].
    apply stops_bind; [stops_go | intros auth].
    apply stops_bind; [stops_go | intros status].
    destruct (is_str status "valid"); [stops_go |].
    apply stops_bind; [stops_go | intros status'].
    destruct (is_str status' "invalid"); [stops_go |].
    apply stops_bind; [stops_go | intros _; apply IH].
Qed.

Lemma poll_order_stops n url key au nonce :
  stops_when_refused (poll_order lib w n url key au nonce).
Proof.
  revert nonce. induction n as [| n IH]; intros nonce; cbn [poll_order].
  - apply stops_quiet, emits_raise.
  - apply stops_bind; [stops_go | intros [resp n1]].
    apply stops_bind; [stops_go | intros order].
    apply stops_bind; [stops_go | intros status].
    apply stops_bind; [destruct (is_str status "valid"); stops_go | intros c].
    destruct c; [stops_go |].
    apply stops_bind; [stops_go | intros status'].
    destruct (is_str status' "invalid"); [stops_go |].
    apply stops_bind; [stops_go | intros _; apply IH].
Qed.

Lemma download_certificate_stops order key au nonce :
  stops_when_refused (download_certificate lib w order key au nonce).
Proof.
  unfold download_certificate.
  apply stops_bind; [stops_go | intros url].
  apply stops_bind; [stops_go | intros [resp n1]].
  cbv zeta. destruct (split_chain (body resp)) as [c ch].
  stops_go.
Qed.

Lemma obtain_certificate_stops v nonce :
  stops_when_refused (obtain_certificate lib w v nonce).
Proof.
  unfold obtain_certificate.
  apply stops_bind; [stops_go | intros url].
  apply stops_bind; [stops_go | intros [resp n1]].
  apply stops_bind; [apply poll_order_stops | intros [doc n2]].
  apply stops_bind; [apply download_certificate_stops | intros [[c ch] ex]].
  apply stops_bind; [apply stops_quiet, cleanup_quiet | intros _].
  apply stops_quiet, emits_ret.
Qed.

Lemma issue_stops fuel d z a : stops_when_refused (issue lib w fuel d z a).
Proof.
  unfold issue.
  apply stops_bind; [apply order_challenge_stops | intros v].
  apply stops_bind; [apply stops_quiet, wait_insync_quiet | intros _].
  apply stops_bind; [apply notify_challenge_stops | intros n].
  apply stops_bind; [apply poll_authorization_stops | intros n'].
  apply stops_bind; [apply obtain_certificate_stops | intros [[c ch] ex]].
  apply stops_quiet, store_quiet.
Qed.

Lemma generate_certificate_stops fuel :
  stops_when_refused (generate_certificate lib w fuel).
Proof.
  unfold generate_certificate.
  apply stops_bind; [stops_go | intros d].
  apply stops_bind; [stops_go | intros z].
  apply stops_bind; [stops_go | intros a].
  destruct (cryptography_importable w); [apply issue_stops | stops_go].
Qed.

(** X11: a signed request is never tried again.  When the server answers
    one with an HTTP error, or the request fails otherwise, it is the last
    call of the run, and the run raises the exception of [acme_request]:
    [Exception("ACME error <code>: <body>")] for an HTTP error, the
    exception of [urlopen] otherwise.  The TXT record, when it was set, is
    not deleted, and nothing is stored. *)
Theorem refused_request_ends_the_run fuel s pre e post x :
  trace (generate_certificate lib w fuel s) = pre ++ e :: post ->
  refusal e = Some x ->
  post = [] /\ result_of (generate_certificate lib w fuel s) = Raises x.
Proof.
  intros Et R.
  assert (N : ~ accepted e) by (unfold accepted; rewrite R; discriminate).
  destruct (generate_certificate_stops fuel s)
    as [F | (t0 & e' & x' & E & F & R' & Ho)].
  - exfalso. rewrite Et in F. apply Forall_app in F. destruct F as [_ F].
    inversion F as [| a b Hx _]; subst. exact (N Hx).
  - rewrite Et in E.
    destruct post as [| y post _] using rev_ind.
    + apply app_inj_tail in E. destruct E as [_ <-].
      rewrite R in R'. injection R' as <-.
      split; [reflexivity | exact Ho].
    + exfalso.
      change (pre ++ e :: post ++ [y]) with (pre ++ (e :: post) ++ [y]) in E.
      rewrite app_assoc in E. apply app_inj_tail in E. destruct E as [<- _].
      apply Forall_app in F. destruct F as [_ F].
      inversion F as [| a b Hx _]; subst. exact (N Hx).
Qed.

End Refusal.

(** The server of the first run, out of service at the request for the
    order (the second signed request). *)
Definition outage : World :=
  {| environ := environ Scenario.first_run;
     cryptography_importable := true;
     get_secret_value := get_secret_value Scenario.first_run;
     put_secret_value := put_secret_value Scenario.first_run;
     ec_generate_private_key := ec_generate_private_key Scenario.first_run;
     rsa_generate_private_key := rsa_generate_private_key Scenario.first_run;
     ecdsa_sign := ecdsa_sign Scenario.first_run;
     urlopen := urlopen Scenario.first_run;
     acme_post := fun n url data =>
       if Nat.eqb n 1 then HttpError 503 "busy" []
       else acme_post Scenario.first_run n url data;
     change_resource_record_sets :=
       change_resource_record_sets Scenario.first_run;
     get_change := get_change Scenario.first_run |}.

(** The order is refused: the run ends there, with the error of the
    server. *)
Lemma refused_request_ends_the_run_witness :
  result_of (generate_certificate Scenario.library outage 5 start)
  = Raises (Exception (MsgAcme 503 "busy"))
  /\ count_line 188
       (trace (generate_certificate Scenario.library outage 5 start)) = 1
  /\ count_line 197
       (trace (generate_certificate Scenario.library outage 5 start)) = 0.
Proof.
  split; [| split; vm_compute; reflexivity].
  pose (t := trace (generate_certificate Scenario.library outage 5 start)).
  edestruct (@refused_request_ends_the_run Scenario.library outage 5 start
               (firstn 4 t) (nth 4 t (0, Sleep 0)) (skipn 5 t)) as [_ R];
    [vm_compute; reflexivity .. | exact R].
Defined.

(* ------------------------------------------------------------------ *)
(** ** The order poll loop *)

(** Line 274: the order is valid and names its certificate. *)
Definition order_ready (doc : json) : Prop :=
  getitem doc "status" = Ok (JStr "valid")
  /\ contains "certificate" doc = Ok true.

(** The loop goes on: the status is not ["invalid"], and it is not
    ["valid"] or the order has no [certificate] member. *)
Definition order_awaited (doc : json) : Prop :=
  exists status,
    getitem doc "status" = Ok status
    /\ is_str status "invalid" = false
    /\ (is_str status "valid" = false
        \/ contains "certificate" doc = Ok false).

(** The events of lines 271 and 279. *)
Definition in_order_loop (e : event) : bool :=
  Nat.eqb (fst e) 271 || Nat.eqb (fst e) 279.

Section OrderLoop.

Variable lib : Library.
Variable w : World.

(** One iteration of the loop of lines 270-281. *)
Lemma poll_order_step n url key au nonce s :
  poll_order lib w (S n) url key au nonce s
  = match (acme_request w (of_option url) key au nonce None @@ 271) s with
    | (Returns (resp, nonce'), s1, t1) =>
        match json_loads lib (body resp) with
        | None => (Raises JSONDecodeError, s1, t1)
        | Some order =>
            match getitem order "status" with
            | Raised e => (Raises e, s1, t1)
            | Ok status =>
                match (if is_str status "valid"
                       then contains "certificate" order else Ok false) with
                | Raised e => (Raises e, s1, t1)
                | Ok true => (Returns (order, nonce'), s1, t1)
                | Ok false =>
                    if is_str status "invalid"
                    then (Raises (Exception (MsgOrderFailed order)), s1, t1)
                    else
                      match poll_order lib w n url key au nonce' s1 with
                      | (o, s2, t2) => (o, s2, t1 ++ (279, Sleep 2) :: t2)
                      end
                end
            end
        end
    | (Raises e, s1, t1) => (Raises e, s1, t1)
    | (OutOfFuel, s1, t1) => (OutOfFuel, s1, t1)
    end.
Proof.
  cbn [poll_order]. unfold bind at 1.
  destruct ((acme_request w (of_option url) key au nonce None @@ 271) s)
    as [[[[resp nonce'] | e |] s1] t1]; try reflexivity.
  rewrite bind_lift. unfold loads.
  destruct (json_loads lib (body resp)) as [order |];
    [| cbn; rewrite app_nil_r; reflexivity].
  rewrite bind_lift.
  destruct (getitem order "status") as [status | e] eqn:Es;
    [| cbn; rewrite app_nil_r; reflexivity].
  destruct (is_str status "valid").
  - rewrite bind_lift.
    destruct (contains "certificate" order) as [[|] | e];
      [unfold ret; rewrite app_nil_r; reflexivity | |
       cbn; rewrite app_nil_r; reflexivity].
    rewrite bind_lift.
    destruct (is_str status "invalid");
      [unfold raise; rewrite app_nil_r; reflexivity |].
    unfold bind, at_line, time_sleep, emit.
    destruct (poll_order lib w n url key au nonce' s1) as [[o s2] t2].
    reflexivity.
  - rewrite bind_ret. rewrite bind_lift.
    destruct (is_str status "invalid");
      [unfold raise; rewrite app_nil_r; reflexivity |].
    unfold bind, at_line, time_sleep, emit.
    destruct (poll_order lib w n url key au nonce' s1) as [[o s2] t2].
    reflexivity.
Qed.

(** What a run of the loop looks like. *)
Lemma poll_order_run n url key au nonce s o s' t :
  poll_order lib w n url key au nonce s = (o, s', t) ->
  spaced 271 279 t
  /\ (forall pre e post doc,
         t = pre ++ e :: post -> fst e = 271 ->
         poll_reply lib e = Some doc ->
         getitem doc "status" = Ok (JStr "invalid") ->
         post = [] /\ o = Raises (Exception (MsgOrderFailed doc)))
  /\ (count_line 271 t = n ->
      (forall e, In e t -> fst e = 271 ->
                 exists doc, poll_reply lib e = Some doc /\ order_awaited doc) ->
      o = Raises (Exception MsgOrderTimeout))
  /\ (forall doc nonce',
         o = Returns (doc, nonce') ->
         exists pre e,
           t = pre ++ [e] /\ fst e = 271
           /\ poll_reply lib e = Some doc /\ order_ready doc).
Proof.
  revert nonce s o s' t. induction n as [| n IH]; intros nonce s o s' t H.
  - cbn in H. injection H as <- <- <-.
    split; [exact I | split; [| split]].
    + intros [| ? ?] ? ? ? E; discriminate E.
    + reflexivity.
    + intros doc nonce' E. discriminate E.
  - rewrite poll_order_step in H.
    destruct ((acme_request w (of_option url) key au nonce None @@ 271) s)
      as [[o1 s1] t1] eqn:E1.
    apply acme_request_at_inv in E1.
    destruct E1 as [(-> & -> & e & ->) | (u & data & Eu & -> & -> & ->)].
    { injection H as <- <- <-.
      split; [exact I | split; [| split]].
      - intros [| ? ?] ? ? ? E; discriminate E.
      - intros E; discriminate E.
      - intros doc nonce' E. discriminate E. }
    set (reply := acme_post w (posts s) u data) in *.
    set (ev := (271, AcmePost u nonce None data reply)) in *.
    assert (Hone : forall (o0 : outcome (json * option pystr)),
               (forall doc, poll_reply lib ev = Some doc ->
                            getitem doc "status" = Ok (JStr "invalid") ->
                            o0 = Raises (Exception (MsgOrderFailed doc))) ->
               (forall doc, poll_reply lib ev = Some doc -> ~ order_awaited doc) ->
               (forall doc nonce', o0 = Returns (doc, nonce') ->
                                   poll_reply lib ev = Some doc /\ order_ready doc) ->
               spaced 271 279 [ev]
               /\ (forall pre e post doc,
                      [ev] = pre ++ e :: post -> fst e = 271 ->
                      poll_reply lib e = Some doc ->
                      getitem doc "status" = Ok (JStr "invalid") ->
                      post = [] /\ o0 = Raises (Exception (MsgOrderFailed doc)))
               /\ (count_line 271 [ev] = S n ->
                   (forall e, In e [ev] -> fst e = 271 ->
                              exists doc, poll_reply lib e = Some doc
                                          /\ order_awaited doc) ->
                   o0 = Raises (Exception MsgOrderTimeout))
               /\ (forall doc nonce',
                      o0 = Returns (doc, nonce') ->
                      exists pre e,
                        [ev] = pre ++ [e] /\ fst e = 271
                        /\ poll_reply lib e = Some doc /\ order_ready doc)).
    { intros o0 Hinv Hund Hret.
      split; [split; [reflexivity | exact I] | split; [| split]].
      - intros pre e post doc E He Hr Hs.
        destruct pre as [| x pre]; [| destruct pre; discriminate E].
        injection E as <- <-. split; [reflexivity | apply Hinv; assumption].
      - intros _ Hall. destruct (Hall ev (or_introl eq_refl) eq_refl)
          as (doc & Hdoc & Hu). destruct (Hund doc Hdoc Hu).
      - intros doc nonce' E. exists [], ev.
        destruct (Hret doc nonce' E) as [Hr Hd].
        split; [reflexivity | split; [reflexivity | split; assumption]]. }
    assert (Hrep : poll_reply lib ev
                   = match reply with
                     | Http2xx b _ => json_loads lib b
                     | _ => None
                     end) by reflexivity.
    assert (Hline : fst ev = 271) by reflexivity.
    clearbody ev. unfold acme_outcome in H.
    destruct reply as [b h | code b h | e];
      try (injection H as <- <- <-; apply Hone; rewrite Hrep;
           [intros doc Ha; discriminate Ha | intros doc Ha; discriminate Ha
            | intros doc nonce' Ha; discriminate Ha]).
    cbn [body] in H.
    destruct (json_loads lib b) as [order |] eqn:El;
      [| injection H as <- <- <-; apply Hone; rewrite Hrep;
         [intros a Ha; discriminate Ha | intros a Ha; discriminate Ha
          | intros a nonce' Ha; discriminate Ha]].
    destruct (getitem order "status") as [status | e] eqn:Es;
      [| injection H as <- <- <-; apply Hone; rewrite Hrep;
         [intros a Ha; injection Ha as <-; congruence
         | intros a Ha [st [Hst _]]; injection Ha as <-; congruence
         | intros a nonce' Ha; discriminate Ha]].
    destruct (if is_str status "valid"
              then contains "certificate" order else Ok false)
      as [[|] | e] eqn:Ec.
    { (* the order is ready *)
      destruct (is_str status "valid") eqn:Ev; [| discriminate Ec].
      apply is_str_eq in Ev. subst status.
      injection H as <- <- <-. apply Hone; rewrite Hrep.
      - intros a Ha Hs. injection Ha as <-. rewrite Es in Hs. discriminate Hs.
      - intros a Ha [st (Hst & _ & [Hv | Hc])]; injection Ha as <-.
        + rewrite Es in Hst. injection Hst as <-. discriminate Hv.
        + rewrite Ec in Hc. discriminate Hc.
      - intros a nonce' Ha. injection Ha as <- _.
        split; [reflexivity | split; assumption]. }
    2: { injection H as <- <- <-. apply Hone; rewrite Hrep.
         - intros a Ha Hs. injection Ha as <-. rewrite Es in Hs.
           injection Hs as ->. discriminate Ec.
         - intros a Ha [st (Hst & _ & [Hv | Hc])]; injection Ha as <-.
           + rewrite Es in Hst. injection Hst as <-. rewrite Hv in Ec.
             discriminate Ec.
           + destruct (is_str status "valid"); [| discriminate Ec].
             rewrite Ec in Hc. discriminate Hc.
         - intros a nonce' Ha. discriminate Ha. }
    destruct (is_str status "invalid") eqn:Ei.
    { injection H as <- <- <-. apply Hone; rewrite Hrep.
      - intros a Ha _. injection Ha as <-. reflexivity.
      - intros a Ha [st (Hst & Hi & _)]. injection Ha as <-.
        rewrite Es in Hst. injection Hst as <-. congruence.
      - intros a nonce' Ha. discriminate Ha. }
    destruct (poll_order lib w n url key au (msg_get "Replay-Nonce" h)
                {| posts := S (posts s); polls := polls s |})
      as [[o2 s2] t2] eqn:E2.
    injection H as <- <- <-. apply IH in E2.
    destruct E2 as (Hsp & Hinv & Hto & Hret).
    change ([ev] ++ (279, Sleep 2) :: t2) with (ev :: (279, Sleep 2) :: t2).
    split; [| split; [| split]].
    + split; [exact Hline | split; [reflexivity | exact Hsp]].
    + intros pre e post doc0 E He Hr Hs.
      destruct pre as [| x pre].
      * injection E as <- _. rewrite Hrep in Hr. injection Hr as <-.
        rewrite Es in Hs. injection Hs as ->. discriminate Ei.
      * destruct pre as [| y pre].
        -- injection E as _ <- _. discriminate He.
        -- injection E as _ _ E.
           apply (Hinv pre e post doc0 E He Hr Hs).
    + intros Hn Hall. apply Hto.
      * unfold count_line in *. cbn [filter] in Hn. rewrite Hline in Hn.
        cbn in Hn |- *. lia.
      * intros e He. apply Hall. right. right. exact He.
    + intros doc nonce' Eo. destruct (Hret doc nonce' Eo) as (pre & e & -> & R).
      exists (ev :: (279, Sleep 2) :: pre), e. split; [reflexivity | exact R].
Qed.

(** The one request of [download_certificate] goes to the [certificate]
    member of the order. *)
Lemma download_certificate_url doc key au nonce s o s' t l u n p d r :
  download_certificate lib w doc key au nonce s = (o, s', t) ->
  In (l, AcmePost u n p d r) t -> getitem doc "certificate" = Ok (JStr u).
Proof.
  unfold download_certificate. intros H Hin.
  rewrite bind_lift in H.
  destruct (getitem doc "certificate") as [url | e];
    [| injection H as _ _ <-; destruct Hin].
  unfold bind at 1 in H.
  destruct ((acme_request w url key au nonce None @@ 285) s)
    as [[o1 s1] t1] eqn:E1.
  apply acme_request_at_inv in E1.
  destruct E1 as [(-> & -> & e & ->) | (u' & data & -> & -> & -> & ->)].
  { injection H as _ _ <-. destruct Hin. }
  assert (Et : t = [(285, AcmePost u' nonce None data
                           (acme_post w (posts s) u' data))]).
  { destruct (acme_post w (posts s) u' data) as [b h | code b h | e];
      cbn [acme_outcome] in H; try (injection H as _ _ <-; reflexivity).
    cbv zeta in H. cbn [body] in H.
    destruct (split_chain b) as [c ch].
    destruct (not_valid_after lib (str_encode c));
      cbn in H; injection H as _ _ <-; reflexivity. }
  subst t. destruct Hin as [Hin | []].
  injection Hin as _ <- _ _ _ _. reflexivity.
Qed.

Lemma placed_in lo hi lo' hi' (t : list event) :
  lo' <= lo -> hi <= hi' ->
  Forall (placed lo hi) t -> Forall (placed lo' hi') t.
Proof.
  intros ? ? F. eapply Forall_impl; [| exact F].
  intros e. apply placed_weaken; assumption.
Qed.

(** A run of [obtain_certificate] stops at the finalize request, or goes
    through the loop of lines 270-281; what follows the loop asks for the
    certificate the order names. *)
Lemma obtain_certificate_order_inv v nonce s o s' t :
  obtain_certificate lib w v nonce s = (o, s', t) ->
  (Forall (placed 267 267) t /\ forall x, o <> Returns x)
  \/ exists t0 n1 s1 ol sl tl t2,
       Forall (placed 267 267) t0
       /\ poll_order lib w 30 (order_url v) (account_key v) (account_url v)
                     n1 s1 = (ol, sl, tl)
       /\ t = t0 ++ tl ++ t2
       /\ Forall (placed 285 302) t2
       /\ match ol with
          | Returns (doc, _) =>
              forall l u n p d r,
                In (l, AcmePost u n p d r) t2 ->
                getitem doc "certificate" = Ok (JStr u)
          | Raises e => o = Raises e /\ t2 = []
          | OutOfFuel => o = OutOfFuel /\ t2 = []
          end.
Proof.
  unfold obtain_certificate. intros H.
  rewrite bind_lift in H.
  destruct (getitem (order v) "finalize") as [url | e].
  2: { injection H as <- _ <-. left. split; [constructor | discriminate]. }
  apply bind_inv in H.
  destruct H as [([resp n1] & s1 & t1 & r1 & E1 & H & ->)
                | [(e & E1 & ->) | (E1 & ->)]];
    (eapply emits_run in E1;
     [| apply (@emits_at_line _ (placed 267 267)), emits_acme_request;
        intros; unfold placed, well_placed; simpl; auto 12]).
  2, 3: left; split; [exact E1 | discriminate].
  right. exists t1, n1, s1.
  apply bind_inv in H.
  destruct H as [([doc n2] & s2 & t2 & r2 & E2 & H & ->)
                | [(e & E2 & ->) | (E2 & ->)]].
  2: { exists (Raises e), s', r1, []. rewrite app_nil_r.
       repeat split; auto. }
  2: { exists OutOfFuel, s', r1, []. rewrite app_nil_r.
       repeat split; auto. }
  exists (Returns (doc, n2)), s2, t2, r2.
  split; [exact E1 |]. split; [exact E2 |]. split; [reflexivity |].
  apply bind_inv in H.
  destruct H as [([[c ch] ex] & s3 & t3 & r3 & E3 & H & ->)
                | [(e & E3 & ->) | (E3 & ->)]];
    pose proof E3 as F3;
    (eapply emits_run in F3; [| apply download_certificate_placed]);
    apply (@placed_in 285 285 285 302) in F3; try lia.
  2, 3: split; [exact F3 |]; intros l u n p d r Hin;
        (eapply download_certificate_url; [exact E3 | exact Hin]).
  unfold bind in H. rewrite cleanup_run in H. injection H as _ _ <-.
  split.
  - apply Forall_app. split; [exact F3 |].
    constructor; [| constructor].
    split; [cbn; lia | unfold well_placed; cbn; auto].
  - intros l u n p d r Hin. apply in_app_or in Hin.
    destruct Hin as [Hin | Hin];
      [(eapply download_certificate_url; [exact E3 | exact Hin]) |].
    destruct Hin as [Hin | []]. discriminate Hin.
Qed.

(** The same for a run of [issue]. *)
Lemma issue_order_inv fuel d z a s o s' t :
  issue lib w fuel d z a s = (o, s', t) ->
  (Forall (placed 140 267) t /\ forall x, o <> Returns x)
  \/ exists t0 v n1 s1 ol sl tl t2,
       Forall (placed 140 267) t0
       /\ poll_order lib w 30 (order_url v) (account_key v) (account_url v)
                     n1 s1 = (ol, sl, tl)
       /\ t = t0 ++ tl ++ t2
       /\ Forall (placed 285 341) t2
       /\ match ol with
          | Returns (doc, _) =>
              forall l u n p d r,
                In (l, AcmePost u n p d r) t2 ->
                getitem doc "certificate" = Ok (JStr u)
          | Raises e => o = Raises e /\ t2 = []
          | OutOfFuel => o = OutOfFuel /\ t2 = []
          end.
Proof.
  unfold issue. intros H.
  apply bind_inv in H.
  destruct H as [(v & s1 & t1 & r1 & E1 & H & ->) | [(e & E1 & ->) | (E1 & ->)]];
    (eapply emits_run in E1; [| apply order_challenge_placed]);
    apply (@placed_in 140 219 140 267) in E1; try lia.
  2, 3: left; split; [exact E1 | discriminate].
  apply bind_inv in H.
  destruct H as [(u & s2 & t2 & r2 & E2 & H & ->) | [(e & E2 & ->) | (E2 & ->)]];
    (eapply emits_run in E2; [| apply wait_insync_placed]);
    apply (@placed_in 238 241 140 267) in E2; try lia.
  2, 3: left; split; [apply Forall_app; auto | discriminate].
  apply bind_inv in H.
  destruct H as [(n & s3 & t3 & r3 & E3 & H & ->) | [(e & E3 & ->) | (E3 & ->)]];
    (eapply emits_run in E3; [| apply notify_challenge_placed]);
    apply (@placed_in 244 248 140 267) in E3; try lia.
  2, 3: left; split; [repeat (apply Forall_app; split); auto | discriminate].
  apply bind_inv in H.
  destruct H as [(n' & s4 & t4 & r4 & E4 & H & ->) | [(e & E4 & ->) | (E4 & ->)]];
    (eapply emits_run in E4; [| apply poll_authorization_placed]);
    apply (@placed_in 252 261 140 267) in E4; try lia.
  2, 3: left; split; [repeat (apply Forall_app; split); auto | discriminate].
  assert (F0 : Forall (placed 140 267) (t1 ++ t2 ++ t3 ++ t4))
    by (repeat (apply Forall_app; split); auto).
  apply bind_inv in H.
  destruct H as [([[c ch] ex] & s5 & t5 & r5 & E5 & H & ->)
                | [(e & E5 & ->) | (E5 & ->)]];
    apply obtain_certificate_order_inv in E5;
    destruct E5 as [(F5 & N5) | (t0 & n1 & sp & ol & sl & tl & tr
                                 & F5 & Ep & -> & Fr & Hol)];
    try (exfalso; eapply N5; reflexivity);
    try (left; split; [| discriminate];
         repeat (apply Forall_app; split); auto;
         apply (@placed_in 267 267 140 267); [lia | lia | exact F5]).
  - rewrite store_run in H. cbv zeta in H. injection H as _ _ <-.
    right. exists ((t1 ++ t2 ++ t3 ++ t4) ++ t0), v, n1, sp, ol, sl, tl.
    eexists (tr ++ [_]).
    split; [apply Forall_app; split;
            [exact F0 | apply (@placed_in 267 267 140 267); [lia | lia | exact F5]] |].
    split; [exact Ep |].
    split; [rewrite <- !app_assoc; reflexivity |].
    split.
    { apply Forall_app. split;
        [apply (@placed_in 285 302 285 341); [lia | lia | exact Fr] |].
      constructor; [| constructor].
      split; [cbn; lia | unfold well_placed; cbn; auto]. }
    destruct ol as [[doc n2] | e |];
      [| destruct Hol as [Hol _]; discriminate Hol ..].
    intros l u0 n0 p d0 r Hin. apply in_app_or in Hin.
    destruct Hin as [Hin | [Hin | []]]; [eapply Hol; exact Hin | discriminate Hin].
  - right. exists ((t1 ++ t2 ++ t3 ++ t4) ++ t0), v, n1, sp, ol, sl, tl, tr.
    split; [apply Forall_app; split;
            [exact F0 | apply (@placed_in 267 267 140 267); [lia | lia | exact F5]] |].
    split; [exact Ep |].
    split; [rewrite <- !app_assoc; reflexivity |].
    split; [apply (@placed_in 285 302 285 341); [lia | lia | exact Fr] |].
    destruct ol as [[doc n2] | e0 |]; [exact Hol | |];
      destruct Hol as [Hol ->]; try discriminate Hol;
      try injection Hol as ->; split; reflexivity.
  - right. exists ((t1 ++ t2 ++ t3 ++ t4) ++ t0), v, n1, sp, ol, sl, tl, tr.
    split; [apply Forall_app; split;
            [exact F0 | apply (@placed_in 267 267 140 267); [lia | lia | exact F5]] |].
    split; [exact Ep |].
    split; [rewrite <- !app_assoc; reflexivity |].
    split; [apply (@placed_in 285 302 285 341); [lia | lia | exact Fr] |].
    destruct ol as [[doc n2] | e0 |]; [exact Hol | |];
      destruct Hol as [Hol ->]; try discriminate Hol;
      try injection Hol as ->; split; reflexivity.
Qed.

Lemma filter_outside_order lo hi t :
  Forall (placed lo hi) t -> hi < 271 \/ 279 < lo ->
  filter in_order_loop t = [].
Proof.
  intros H Hl. induction H as [| e t [He _] _ IH]; [reflexivity |].
  cbn [filter]. unfold in_order_loop at 1.
  destruct (Nat.eqb_spec (fst e) 271); [lia |].
  destruct (Nat.eqb_spec (fst e) 279); [lia |]. exact IH.
Qed.

Lemma filter_inside_order t :
  Forall (placed 271 279) t -> filter in_order_loop t = t.
Proof.
  intros H. induction H as [| e t [He Hw] _ IH]; [reflexivity |].
  cbn [filter]. rewrite IH. unfold in_order_loop.
  assert (Hl : fst e = 271 \/ fst e = 279).
  { unfold well_placed in Hw. destruct e as [l c]. cbn [fst snd] in *.
    destruct c; cbn [In] in Hw;
      repeat match goal with
             | H : _ \/ _ |- _ => destruct H
             | H : (_, _) = (_, _) |- _ => injection H as ? ?
             end; subst; try lia; try contradiction; auto. }
  destruct Hl as [-> | ->]; reflexivity.
Qed.

(** X12: the order is polled (line 271) with a sleep of two seconds (line
    279) between one poll and the next.  A poll that receives the status
    ["invalid"] is the last call of the run, which raises the exception
    for a failed order with the document received.  An order that is
    ["valid"] but names no certificate is polled again like a pending
    one: when 30 polls each receive such a document, the run raises the
    timeout exception and asks for no certificate (line 285).  The
    request of line 285 goes to the [certificate] member of the document
    of the last poll, which showed the order ["valid"]. *)
Theorem order_polling fuel s :
  spaced 271 279
    (filter in_order_loop (trace (generate_certificate lib w fuel s)))
  /\ (forall pre e post doc,
         trace (generate_certificate lib w fuel s) = pre ++ e :: post ->
         fst e = 271 ->
         poll_reply lib e = Some doc ->
         getitem doc "status" = Ok (JStr "invalid") ->
         post = []
         /\ result_of (generate_certificate lib w fuel s)
            = Raises (Exception (MsgOrderFailed doc)))
  /\ (count_line 271 (trace (generate_certificate lib w fuel s)) = 30 ->
      (forall e, In e (trace (generate_certificate lib w fuel s)) ->
                 fst e = 271 ->
                 exists doc, poll_reply lib e = Some doc /\ order_awaited doc) ->
      result_of (generate_certificate lib w fuel s)
      = Raises (Exception MsgOrderTimeout)
      /\ count_line 285 (trace (generate_certificate lib w fuel s)) = 0)
  /\ (forall l u n p d r,
         In (l, AcmePost u n p d r) (trace (generate_certificate lib w fuel s)) ->
         l = 285 ->
         exists pre e post doc,
           trace (generate_certificate lib w fuel s) = pre ++ e :: post
           /\ fst e = 271 /\ count_line 271 post = 0
           /\ poll_reply lib e = Some doc
           /\ order_ready doc
           /\ getitem doc "certificate" = Ok (JStr u)).
Proof.
  unfold trace, result_of.
  destruct (generate_certificate lib w fuel s) as [[o s'] t] eqn:E.
  cbn [fst snd].
  assert (Hnone : Forall (placed 140 267) t ->
            spaced 271 279 (filter in_order_loop t)
            /\ (forall pre e post doc,
                   t = pre ++ e :: post -> fst e = 271 ->
                   poll_reply lib e = Some doc ->
                   getitem doc "status" = Ok (JStr "invalid") ->
                   post = [] /\ o = Raises (Exception (MsgOrderFailed doc)))
            /\ (count_line 271 t = 30 ->
                (forall e, In e t -> fst e = 271 ->
                           exists doc, poll_reply lib e = Some doc
                                       /\ order_awaited doc) ->
                o = Raises (Exception MsgOrderTimeout)
                /\ count_line 285 t = 0)
            /\ (forall l u n p d r,
                   In (l, AcmePost u n p d r) t -> l = 285 ->
                   exists pre e post doc,
                     t = pre ++ e :: post
                     /\ fst e = 271 /\ count_line 271 post = 0
                     /\ poll_reply lib e = Some doc
                     /\ order_ready doc
                     /\ getitem doc "certificate" = Ok (JStr u))).
  { intros F.
    assert (C : count_line 271 t = 0)
      by (eapply count_line_placed; [exact F | lia]).
    split; [| split; [| split]].
    - rewrite (@filter_outside_order _ _ _ F) by lia. exact I.
    - intros pre e post doc Et He _ _. exfalso.
      rewrite Forall_forall in F.
      assert (Hin : In e t) by (rewrite Et; apply in_elt).
      apply F, placed_line in Hin. lia.
    - intros C30 _. lia.
    - intros l u n p d r Hin ->. exfalso.
      rewrite Forall_forall in F. apply F, placed_line in Hin.
      cbn in Hin. lia. }
  apply generate_certificate_inv in E.
  destruct E as [(-> & _) | (d & z & a & E)]; [apply Hnone; constructor |].
  apply issue_order_inv in E.
  destruct E as [(F & _) | (t0 & v & nonce & s1 & ol & sl & tl & t2
                             & F0 & Ep & -> & F2 & Hol)];
    [apply Hnone; exact F |].
  clear Hnone.
  assert (Fl : Forall (placed 271 279) tl)
    by (eapply emits_run; [apply poll_order_placed | exact Ep]).
  apply poll_order_run in Ep.
  destruct Ep as (Hsp & Hinv & Hto & Hret).
  assert (C0 : count_line 271 t0 = 0)
    by (eapply count_line_placed; [exact F0 | lia]).
  assert (C2 : count_line 271 t2 = 0)
    by (eapply count_line_placed; [exact F2 | lia]).
  split; [| split; [| split]].
  - rewrite !filter_app, (@filter_outside_order _ _ _ F0),
      (@filter_outside_order _ _ _ F2) by lia.
    rewrite (@filter_inside_order _ Fl), app_nil_r. exact Hsp.
  - intros pre e post doc Et He Hr Hs.
    apply (split_middle (fun x : event => fst x = 271)) in Et;
      [| apply (@placed_not_line 271 _ _ _ F0); lia
       | apply (@placed_not_line 271 _ _ _ F2); lia
       | exact He].
    destruct Et as (pre' & post' & Etl & -> & ->).
    destruct (Hinv pre' e post' doc Etl He Hr Hs) as [-> ->].
    destruct Hol as [-> ->]. auto.
  - intros C30 Hall. rewrite !count_line_app in C30.
    assert (Hol' : ol = Raises (Exception MsgOrderTimeout)).
    { apply Hto; [lia |]. intros e He. apply Hall.
      apply in_or_app. right. apply in_or_app. left. exact He. }
    rewrite Hol' in Hol. destruct Hol as [-> ->]. split; [reflexivity |].
    rewrite !count_line_app.
    rewrite (@count_line_placed 285 _ _ _ F0), (@count_line_placed 285 _ _ _ Fl) by lia.
    reflexivity.
  - intros l u n p data r Hin ->.
    assert (Hin2 : In (285, AcmePost u n p data r) t2).
    { apply in_app_or in Hin. destruct Hin as [Hin | Hin].
      - exfalso. rewrite Forall_forall in F0. apply F0, placed_line in Hin.
        cbn in Hin. lia.
      - apply in_app_or in Hin. destruct Hin as [Hin | Hin]; [| exact Hin].
        exfalso. rewrite Forall_forall in Fl. apply Fl, placed_line in Hin.
        cbn in Hin. lia. }
    destruct ol as [[doc n2] | e |];
      [| destruct Hol as [_ ->]; destruct Hin2 ..].
    destruct (Hret doc n2 eq_refl) as (pre & e & -> & He & Hr & Hd).
    exists (t0 ++ pre), e, t2, doc.
    split; [rewrite <- !app_assoc; reflexivity |].
    split; [exact He |]. split; [exact C2 |]. split; [exact Hr |].
    split; [exact Hd |]. exact (Hol _ _ _ _ _ _ Hin2).
Qed.

End OrderLoop.

(** The order stays in processing. *)
Definition unfinished : World :=
  Scenario.world SecretNotFound [] Scenario.nonce_of
    (fun _ => "valid") (fun _ => "processing") (fun _ => "INSYNC").

Lemma order_polling_witness :
  result_of (Scenario.run unfinished 5) = Raises (Exception MsgOrderTimeout)
  /\ count_line 285 (trace (Scenario.run unfinished 5)) = 0.
Proof.
  destruct (order_polling Scenario.library unfinished 5 start)
    as (_ & _ & H & _).
  apply H; [vm_compute; reflexivity |].
  intros e He Hl. exists (Scenario.order "processing").
  split;
    [| exists (JStr "processing");
       split; [reflexivity | split; [reflexivity | left; reflexivity]]].
  vm_compute in He.
  repeat (destruct He as [<- | He];
          [first [discriminate Hl | vm_compute; reflexivity] |]).
  destruct He.
Defined.

(* ------------------------------------------------------------------ *)
(** ** [handler] and [handle_cfn_request] (source lines 20-33, 74-112) *)

(** The Lambda context object, as far as the source reads it. *)
Record lambda_context := { log_stream_name : pystr }.

(** The calls of an invocation: those of [generate_certificate] and of
    [handle_api_request], and the request of line 110, which carries the
    answer to CloudFormation. *)
Inductive lambda_call :=
| Call (e : event)
| PutResponse (url : pystr) (data : bytes).

(** How an invocation ends.  [urllib.error.HTTPError] is raised by line
    110 alone, where nothing catches it. *)
Inductive ending :=
| Done (r : json)
| Error (e : exn)
| HTTPError (code : Z) (body : pystr)
| Unfinished.

Definition invocation := (ending * counters * list lambda_call)%type.


(** [bool(v)] *)
Definition json_truthy (v : json) : bool :=
  match v with
  | JNull => false
  | JBool b => b
  | JNum z => negb (z =? 0)%Z
  | JStr s => negb (str_is_empty s)
  | JList l => match l with [] => false | _ => true end
  | JDict d => match d with [] => false | _ => true end
  end.

(** [v != 200] *)
Definition not_200 (v : json) : bool :=
  match v with
  | JNum z => negb (z =? 200)%Z
  | _ => true
  end.

(** The members of the event that lines 98-105 read with [event[...]], in
    the order they are read. *)
Definition required_members : list pystr :=
  ["StackId"; "RequestId"; "LogicalResourceId"; "ResponseURL"].

Section Lambda.

Variable lib : Library.
Variable w : World.

(** [str(e)] for an exception the program did not raise itself. *)
Variable library_text : exn -> pystr.

(** The text of the exceptions the program raises. *)
Definition message_text (m : message) : pystr :=
  match m with
  | MsgHttp code b => "HTTP " +++ dumps_int code +++ ": " +++ b
  | MsgAcme code b => "ACME error " +++ dumps_int code +++ ": " +++ b
  | MsgNoDns01 => "No DNS-01 challenge found"
  | MsgChallengeFailed auth => "Challenge failed: " +++ format_value lib auth
  | MsgChallengeTimeout => "Challenge validation timeout"
  | MsgOrderFailed order => "Order failed: " +++ format_value lib order
  | MsgOrderTimeout => "Order finalization timeout"
  | MsgUnsupportedKey => "Unsupported key type"
  end.

(** [str(e)] *)
Definition str_exn (e : exn) : pystr :=
  match e with
  | Exception m => message_text m
  | _ => library_text e
  end.

(** Lines 78-91: the status and the reason to report. *)
Definition cfn_generate (event : json) (fuel : nat) : M (pystr * json) :=
  try_except
    (request_type <- lift (getitem event "RequestType") ;;
     if is_str request_type "Create" || is_str request_type "Update"
     then
       result <- generate_certificate lib w fuel ;;
       code <- lift (value_get result "statusCode" (JNum 200)) ;;
       if not_200 code
       then
         reason <- lift (value_get result "body"
                                   (JStr "Certificate generation failed")) ;;
         ret ("FAILED", reason)
       else ret ("SUCCESS", JStr EmptyString)
     else ret ("SUCCESS", JStr EmptyString))
    (fun e => ret ("FAILED", JStr (str_exn e))).

(** Lines 94-102: the answer to CloudFormation. *)
Definition cfn_response (status : pystr) (reason physical stack request
                                          logical : json) : json :=
  JDict [("Status", JStr status);
         ("Reason", reason);
         ("PhysicalResourceId", physical);
         ("StackId", stack);
         ("RequestId", request);
         ("LogicalResourceId", logical);
         ("Data", JDict [])].

Definition cfn_response_body (event : json) (context : lambda_context)
    (status : pystr) (reason : json) : result pystr :=
  let reason :=
    if json_truthy reason then reason else JStr "See CloudWatch logs" in
  physical <-- value_get event "PhysicalResourceId"
                         (JStr (log_stream_name context)) ;;
  stack <-- getitem event "StackId" ;;
  request <-- getitem event "RequestId" ;;
  logical <-- getitem event "LogicalResourceId" ;;
  Ok (json_dumps (cfn_response status reason physical stack request logical)).

(** Line 112 *)
Definition cfn_result (status : pystr) : json :=
  JDict [("statusCode",
          JNum (if String.eqb status "SUCCESS" then 200 else 500))].

(** Lines 110-112: what the request of line 110 makes of the invocation. *)
Definition put_ending (u status : pystr) : ending :=
  match urlopen w "PUT" u with
  | Http2xx _ _ => Done (cfn_result status)
  | HttpError code b _ => HTTPError code b
  | HttpFail e => Error e
  end.

(** Lines 104-112: the answer is sent, and the handler returns. *)
Definition send_response (event : json) (response_body status : pystr)
    (s : counters) (t : list lambda_call) : invocation :=
  match (url <-- getitem event "ResponseURL" ;; request_url url) with
  | Raised e => (Error e, s, t)
  | Ok u =>
      (put_ending u status, s,
       t ++ [PutResponse u (str_encode response_body)])
  end.

Definition handle_cfn_request (event : json) (context : lambda_context)
    (fuel : nat) (s : counters) : invocation :=
  match cfn_generate event fuel s with
  | (Returns (status, reason), s1, t) =>
      match cfn_response_body event context status reason with
      | Ok response_body =>
          send_response event response_body status s1 (map Call t)
      | Raised e => (Error e, s1, map Call t)
      end
  | (Raises e, s1, t) => (Error e, s1, map Call t)
  | (OutOfFuel, s1, t) => (Unfinished, s1, map Call t)
  end.



(** *** What is reported to CloudFormation *)

(** [generate_certificate] returns one of two values. *)
Lemma generate_certificate_returns fuel s r s1 t :
  generate_certificate lib w fuel s = (Returns r, s1, t) ->
  r = cryptography_unavailable \/ exists expires, r = certificate_generated expires.
Proof.
  intros E.
  destruct (generate_certificate_cases lib w fuel s)
    as [[E' _] | [[e E'] | (d & z & a & _ & _ & _ & E')]];
    rewrite E' in E.
  - injection E as <- _ _. left. reflexivity.
  - discriminate E.
  - apply issue_anatomy in E.
    destruct E as [(oc & s2 & _ & _ & N) | (v & s2 & t1 & t2 & _ & _ & E)];
      [exfalso; eapply N; reflexivity |].
    destruct E as [[_ N] | (c & ch & ex & _ & E)];
      [exfalso; eapply N; reflexivity |].
    destruct (put_secret_value w (secret_arn v) _); [discriminate E |].
    injection E as ->. right. exists ex. reflexivity.
Qed.

(** Lines 82-91 for a request to create or update the resource. *)
Lemma cfn_generate_run d rt fuel s o s1 t :
  dict_get "RequestType" d = Some (JStr rt) ->
  rt = "Create" \/ rt = "Update" ->
  generate_certificate lib w fuel s = (o, s1, t) ->
  match o with
  | Returns r =>
      (r = cryptography_unavailable
       /\ cfn_generate (JDict d) fuel s
          = (Returns ("FAILED", JStr "cryptography library not available"),
             s1, t))
      \/ (exists expires,
             r = certificate_generated expires
             /\ cfn_generate (JDict d) fuel s
                = (Returns ("SUCCESS", JStr EmptyString), s1, t))
  | Raises e =>
      cfn_generate (JDict d) fuel s
      = (Returns ("FAILED", JStr (str_exn e)), s1, t)
  | OutOfFuel => cfn_generate (JDict d) fuel s = (OutOfFuel, s1, t)
  end.
Proof.
  intros Hrt Hc E.
  assert (Hb : is_str (JStr rt) "Create" || is_str (JStr rt) "Update" = true)
    by (destruct Hc as [-> | ->]; reflexivity).
  assert (U : cfn_generate (JDict d) fuel s
              = match
                  bind (generate_certificate lib w fuel)
                    (fun result =>
                       code <- lift (value_get result "statusCode" (JNum 200)) ;;
                       if not_200 code
                       then
                         reason <- lift (value_get result "body"
                                           (JStr "Certificate generation failed")) ;;
                         ret ("FAILED", reason)
                       else ret ("SUCCESS", JStr EmptyString)) s
                with
                | (Raises e, s2, t2) =>
                    (Returns ("FAILED", JStr (str_exn e)), s2, t2 ++ [])
                | r => r
                end).
  { unfold cfn_generate, try_except. rewrite bind_lift. cbn [getitem].
    rewrite Hrt. cbv beta iota. rewrite Hb. reflexivity. }
  unfold bind at 1 in U. rewrite E in U.
  destruct o as [r | e |].
  - destruct (generate_certificate_returns _ _ E) as [-> | [ex ->]];
      [left | right; exists ex]; (split; [reflexivity |]);
      rewrite U; cbn; rewrite app_nil_r; reflexivity.
  - rewrite U. cbn. rewrite app_nil_r. reflexivity.
  - rewrite U. reflexivity.
Qed.





(** The first of the members the answer needs that the event lacks. *)
Definition missing_member (d : dict) : option pystr :=
  find (fun k => negb (dict_mem k d)) required_members.

(** X15: an event of CloudFormation without one of [StackId],
    [RequestId], [LogicalResourceId] and [ResponseURL] is found out after
    the run only: for a request to create or update the resource the
    certificate is issued and stored as for any other run, then the handler
    raises [KeyError] for the first member that is missing, and no answer
    is sent to CloudFormation. *)
Theorem cfn_event_without_member d context fuel s rt k o s1 t :
  dict_get "RequestType" d = Some (JStr rt) ->
  rt = "Create" \/ rt = "Update" ->
  missing_member d = Some k ->
  generate_certificate lib w fuel s = (o, s1, t) ->
  handle_cfn_request (JDict d) context fuel s
  = (match o with
     | OutOfFuel => Unfinished
     | _ => Error (KeyError k)
     end, s1, map Call t).
Proof.
  intros Hrt Hc Hm E.
  pose proof (@cfn_generate_run d rt fuel s o s1 t Hrt Hc E) as G.
  assert (A : forall status reason t0,
             match cfn_response_body (JDict d) context status reason with
             | Ok response_body =>
                 send_response (JDict d) response_body status s1 t0
             | Raised e => (Error e, s1, t0)
             end = (Error (KeyError k), s1, t0)).
  { intros status reason t0.
    unfold cfn_response_body, send_response, rbind. cbn [value_get getitem].
    unfold missing_member, required_members, dict_mem in Hm. cbn [find] in Hm.
    destruct (dict_get "PhysicalResourceId" d);
      (destruct (dict_get "StackId" d);
       [| injection Hm as <-; reflexivity]);
      (destruct (dict_get "RequestId" d);
       [| injection Hm as <-; reflexivity]);
      (destruct (dict_get "LogicalResourceId" d);
       [| injection Hm as <-; reflexivity]);
      (destruct (dict_get "ResponseURL" d);
       [discriminate Hm | injection Hm as <-; reflexivity]). }
  unfold handle_cfn_request.
  destruct o as [r | e |].
  - destruct G as [[_ G] | (ex & _ & G)]; rewrite G; apply A.
  - rewrite G. apply A.
  - rewrite G. reflexivity.
Qed.

(** *** Where an event goes *)




End Lambda.

(** An event of CloudFormation, the context of its invocation, and a
    service that takes the answer. *)
Definition stack_event (request_type : pystr) : dict :=
  [("RequestType", JStr request_type);
   ("ResponseURL", JStr "https://cfn.test/response");
   ("StackId", JStr "stack/1");
   ("RequestId", JStr "request-1");
   ("LogicalResourceId", JStr "Certificate")].

Definition stream : lambda_context := {| log_stream_name := "2026/11/03/1" |}.

Definition answered (w : World) : World :=
  {| environ := environ w;
     cryptography_importable := cryptography_importable w;
     get_secret_value := get_secret_value w;
     put_secret_value := put_secret_value w;
     ec_generate_private_key := ec_generate_private_key w;
     rsa_generate_private_key := rsa_generate_private_key w;
     ecdsa_sign := ecdsa_sign w;
     urlopen := fun method url =>
       if String.eqb method "PUT" then Http2xx EmptyString []
       else urlopen w method url;
     acme_post := acme_post w;
     change_resource_record_sets := change_resource_record_sets w;
     get_change := get_change w |}.

(** The text of the exceptions the libraries raise plays no role in these
    runs. *)
Definition unnamed (e : exn) : pystr := EmptyString.



(** An event with no [LogicalResourceId]: the certificate is issued and
    stored, and the handler raises. *)
Lemma cfn_event_without_member_witness :
  exists s1 t value,
    handle_cfn_request Scenario.library (answered Scenario.first_run) unnamed
      (JDict (removelast (stack_event "Create"))) stream 5 start
    = (Error (KeyError "LogicalResourceId"), s1,
       map Call (t ++ [(341, PutSecretValue "arn:cert" value)])).
Proof.
  pose (G := generate_certificate Scenario.library
               (answered Scenario.first_run) 5 start).
  assert (E : G = (Returns (certificate_generated "2027-01-01T00:00:00+00:00"),
                   snd (fst G),
                   removelast (trace G)
                   ++ [(341, PutSecretValue "arn:cert"
                               (Scenario.written (trace G)))]))
    by (vm_compute; reflexivity).
  exists (snd (fst G)), (removelast (trace G)), (Scenario.written (trace G)).
  exact (@cfn_event_without_member Scenario.library
           (answered Scenario.first_run) unnamed
           (removelast (stack_event "Create"))
           stream 5 start "Create" "LogicalResourceId" _ _ _
           eq_refl (or_introl eq_refl) eq_refl E).
Defined.


(* ------------------------------------------------------------------ *)
(** ** The body of a signed request (source lines 400-456) *)

Lemma length_be_bytes len z : List.length (be_bytes len z) = len.
Proof.
  revert z. induction len as [| len IH]; intros z; [reflexivity |].
  cbn [be_bytes]. rewrite List.length_app, IH. cbn. lia.
Qed.

Lemma to_bytes_32_inv z b :
  to_bytes 32 z = Ok b -> (0 <= z < 2 ^ 256)%Z /\ b = be_bytes 32 z.
Proof.
  unfold to_bytes. intros H.
  destruct (0 <=? z)%Z eqn:H1; [| discriminate H].
  destruct (z <? 256 ^ Z.of_nat 32)%Z eqn:H2; [| discriminate H].
  injection H as <-. apply Z.leb_le in H1. apply Z.ltb_lt in H2.
  change (256 ^ Z.of_nat 32)%Z with (2 ^ 256)%Z in H2. auto.
Qed.

Lemma length_base64url_encode_bytes (b : bytes) :
  String.length (base64url_encode (Bytes b)) = (4 * List.length b + 2) / 3.
Proof.
  unfold base64url_encode.
  rewrite rstrip_pad_encode, length_bytes_decode. apply length_b64_unpadded.
Qed.

(** Lines 410-456: the body of the request for a key with the public
    point [(x, y)] and a signature with the numbers [r] and [sg]. *)
Definition request_body (x y : Z) (account_url : option pystr) (u : pystr)
    (nonce : option pystr) (payload : option json) (r sg : Z) : bytes :=
  let jwk := jwk_of (be_bytes 32 x) (be_bytes 32 y) in
  let header := protected_header (JStr u) account_url nonce jwk in
  let protected_b64 := base64url_encode (Str (json_dumps (JDict header))) in
  str_encode
    (json_dumps
       (JDict (jws protected_b64 (payload_b64 payload)
                   (be_bytes 32 r ++ be_bytes 32 sg)))).

Section Jws.

Variable w : World.

(** The request [acme_request] sends, when it sends one. *)
Lemma acme_request_sent url key au nonce payload s l u n p data reply :
  In (l, AcmePost u n p data reply)
     (trace (acme_request w url key au nonce payload s)) ->
  exists x y r sg,
    key = ECKey x y /\ url = JStr u /\ n = nonce /\ p = payload
    /\ (0 <= x < 2 ^ 256 /\ 0 <= y < 2 ^ 256)%Z
    /\ (0 <= r < 2 ^ 256 /\ 0 <= sg < 2 ^ 256)%Z
    /\ ecdsa_sign w (posts s) key
         (str_encode
            (base64url_encode
               (Str (json_dumps
                       (JDict (protected_header url au nonce
                                 (jwk_of (be_bytes 32 x) (be_bytes 32 y))))))
             +++ "." +++ payload_b64 payload))
       = (r, sg)
    /\ data = request_body x y au u nonce payload r sg
    /\ reply = acme_post w (posts s) u data.
Proof.
  unfold acme_request, trace. intros H.
  destruct key as [nx ny | n0 e0];
    [rewrite bind_ret in H | rewrite bind_raise in H; destruct H].
  rewrite bind_lift in H.
  destruct (to_bytes 32 nx) as [x |] eqn:Ex; [| destruct H].
  rewrite bind_lift in H.
  destruct (to_bytes 32 ny) as [y |] eqn:Ey; [| destruct H].
  apply to_bytes_32_inv in Ex, Ey.
  destruct Ex as [Bx ->]. destruct Ey as [By ->].
  cbv zeta in H. rewrite bind_sign in H.
  destruct (ecdsa_sign w (posts s) (ECKey nx ny) _) as [r sg] eqn:Es.
  rewrite bind_lift in H.
  destruct (to_bytes 32 r) as [rb |] eqn:Er; [| destruct H].
  rewrite bind_lift in H.
  destruct (to_bytes 32 sg) as [sb |] eqn:Eg; [| destruct H].
  apply to_bytes_32_inv in Er, Eg.
  destruct Er as [Br ->]. destruct Eg as [Bg ->].
  rewrite bind_lift in H.
  destruct url as [| | | u' | |]; cbv beta iota delta [request_url] in H;
    try destruct H.
  assert (Hin : (l, AcmePost u n p data reply)
                = (0, let d := request_body nx ny au u' nonce payload r sg in
                      AcmePost u' nonce payload d (acme_post w (posts s) u' d))).
  { cbv zeta. unfold request_body. cbv zeta. unfold bind, urlopen_post in H.
    match type of H with
    | context [acme_post w (posts s) ?u0 ?d0] =>
        destruct (acme_post w (posts s) u0 d0) eqn:E
    end; cbn in H; destruct H as [H | []]; rewrite <- H; reflexivity. }
  cbv zeta in Hin. injection Hin as _ -> -> -> -> ->.
  exists nx, ny, r, sg.
  split; [reflexivity |]. split; [reflexivity |].
  split; [reflexivity |]. split; [reflexivity |].
  split; [auto |]. split; [auto |].
  split; [exact Es |]. split; reflexivity.
Qed.

(** X17: the body of a signed request.  A request is sent only for an EC
    key whose coordinates fit in 32 bytes and a signature whose two numbers
    do.  Its body is the JSON object with the members [protected],
    [payload] and [signature], in this order.  The protected header has
    [alg] ES256, the nonce and the URL of the request, and either [kid],
    when an account URL that is not empty is in hand, or else [jwk] with
    the public key, never both.  The signature is made over
    [protected.payload] with the key, and sent as the base64url of the 64
    bytes of [r] and [s]: 86 characters. *)
Theorem signed_request_body url key au nonce payload s l u n p data reply :
  In (l, AcmePost u n p data reply)
     (trace (acme_request w url key au nonce payload s)) ->
  exists x y r sg,
    key = ECKey x y /\ url = JStr u /\ n = nonce /\ p = payload
    /\ (0 <= x < 2 ^ 256 /\ 0 <= y < 2 ^ 256)%Z
    /\ (0 <= r < 2 ^ 256 /\ 0 <= sg < 2 ^ 256)%Z
    /\ let jwk := jwk_of (be_bytes 32 x) (be_bytes 32 y) in
       let header := protected_header url au nonce jwk in
       let protected_b64 :=
         base64url_encode (Str (json_dumps (JDict header))) in
       let signature :=
         base64url_encode (Bytes (be_bytes 32 r ++ be_bytes 32 sg)) in
       ecdsa_sign w (posts s) key
         (str_encode (protected_b64 +++ "." +++ payload_b64 payload))
       = (r, sg)
       /\ data = str_encode
                  (json_dumps
                     (JDict [("protected", JStr protected_b64);
                             ("payload", JStr (payload_b64 payload));
                             ("signature", JStr signature)]))
       /\ String.length signature = 86
       /\ dict_get "alg" header = Some (JStr "ES256")
       /\ dict_get "nonce" header = Some (of_option nonce)
       /\ dict_get "url" header = Some url
       /\ (if truthy au
           then dict_get "kid" header = Some (of_option au)
                /\ dict_get "jwk" header = None
           else dict_get "kid" header = None
                /\ dict_get "jwk" header = Some (JDict jwk))
       /\ reply = acme_post w (posts s) u data.
Proof.
  intros H. apply acme_request_sent in H.
  destruct H as (x & y & r & sg & -> & -> & -> & -> & Bk & Bs & Es & -> & ->).
  exists x, y, r, sg.
  split; [reflexivity |]. split; [reflexivity |].
  split; [reflexivity |]. split; [reflexivity |].
  split; [exact Bk |]. split; [exact Bs |]. cbv zeta.
  split; [exact Es |]. split; [reflexivity |].
  split.
  { rewrite length_base64url_encode_bytes, List.length_app, !length_be_bytes.
    reflexivity. }
  unfold protected_header.
  destruct (truthy au); cbn; repeat split; reflexivity.
Qed.

End Jws.

(** The registration request of the first run: the header carries the
    public key, the signature field has 86 characters. *)
Lemma signed_request_body_witness :
  exists data reply header signature,
    trace Scenario.registration
    = [(0, AcmePost Scenario.new_account_url (Some "nonce-first")
             (Some Scenario.terms_of_service) data reply)]
    /\ data = str_encode
               (json_dumps
                  (JDict [("protected",
                           JStr (base64url_encode
                                   (Str (json_dumps (JDict header)))));
                          ("payload",
                           JStr "eyJ0ZXJtc09mU2VydmljZUFncmVlZCI6IHRydWV9");
                          ("signature", JStr signature)]))
    /\ String.length signature = 86
    /\ dict_get "kid" header = None
    /\ dict_get "jwk" header
       = Some (JDict (jwk_of (be_bytes 32 11) (be_bytes 32 13))).
Proof.
  pose (e := nth 0 (trace Scenario.registration) (0, Sleep 0)).
  assert (E : trace Scenario.registration
              = [(0, AcmePost Scenario.new_account_url (Some "nonce-first")
                       (Some Scenario.terms_of_service)
                       match snd e with
                       | AcmePost _ _ _ d _ => d
                       | _ => []
                       end
                       match snd e with
                       | AcmePost _ _ _ _ r => r
                       | _ => HttpFail URLError
                       end)])
    by (vm_compute; reflexivity).
  edestruct (@signed_request_body Scenario.first_run
               (JStr Scenario.new_account_url) Scenario.fresh_key None
               (Some "nonce-first") (Some Scenario.terms_of_service) start)
    as (x & y & r & sg & K & _ & _ & _ & _ & _ & H).
  - unfold Scenario.registration in E. rewrite E. left. reflexivity.
  - injection K as <- <-. cbv zeta in H.
    destruct H as (_ & D & L & _ & _ & _ & J & _).
    cbn [truthy] in J. destruct J as [J1 J2].
    do 4 eexists. split; [exact E |].
    split; [exact D |]. split; [exact L |]. split; [exact J1 | exact J2].
Defined.

(* ------------------------------------------------------------------ *)
(** ** One key and one account for a run *)





Section Account.

Variable lib : Library.
Variable w : World.





















End Account.


(* ------------------------------------------------------------------ *)
(** ** Validation is asked for after the record is in sync *)

Section Propagation.

Variable lib : Library.
Variable w : World.

(** The wait of lines 236-241 returns at the first query that Route 53
    answers with INSYNC. *)
Lemma wait_insync_returns fuel id s u s' t :
  wait_insync w fuel id s = (Returns u, s', t) ->
  exists k pre,
    t = pre ++ [(238, GetChange id)]
    /\ count_line 238 t = k + 1
    /\ reports_insync (get_change w (polls s + k) id) = true
    /\ forall j, j < k ->
                 reports_pending (get_change w (polls s + j) id) = true.
Proof.
  revert s s' t. induction fuel as [| fuel IH]; intros s s' t H;
    [discriminate H |].
  rewrite wait_insync_step in H. cbv zeta in H.
  destruct (get_change w (polls s) id) as [doc |] eqn:Eg; [| discriminate H].
  destruct (getitem doc "ChangeInfo") as [info |] eqn:Ei; [| discriminate H].
  destruct (getitem info "Status") as [status |] eqn:Es; [| discriminate H].
  destruct (is_str status "INSYNC") eqn:Ev.
  - injection H as _ _ <-. exists 0, [].
    split; [reflexivity |]. split; [reflexivity |].
    split; [| intros j Hj; lia].
    rewrite Nat.add_0_r, Eg. unfold reports_insync. rewrite Ei, Es. exact Ev.
  - destruct (wait_insync w fuel id _) as [[o2 s2] t2] eqn:E2.
    injection H as -> _ <-. apply IH in E2. cbn [polls] in E2.
    destruct E2 as (k & pre & -> & Hc & Hin & Hp).
    exists (S k), ((238, GetChange id) :: (241, Sleep 5) :: pre).
    split; [reflexivity |].
    split; [rewrite !count_line_cons, Hc; reflexivity |].
    split.
    + replace (polls s + S k) with (S (polls s) + k) by lia. exact Hin.
    + intros [| j] Hj.
      * rewrite Nat.add_0_r, Eg. unfold reports_pending.
        rewrite Ei, Es, Ev. reflexivity.
      * replace (polls s + S j) with (S (polls s) + j) by lia.
        apply Hp. lia.
Qed.

(** Lines 243-248: the sleep, then the request at most. *)
Lemma notify_challenge_trace v s o s' t :
  notify_challenge w v s = (o, s', t) ->
  t = [(244, Sleep 10)] \/ exists c, t = [(244, Sleep 10); (248, c)].
Proof.
  unfold notify_challenge. intros H.
  unfold bind at 1, at_line at 1, time_sleep, emit in H. cbn [map snd] in H.
  rewrite bind_lift in H.
  destruct (getitem (challenge v) "url") as [url |].
  2: { injection H as _ _ <-. left. reflexivity. }
  unfold bind at 1 in H.
  destruct ((acme_request w url (account_key v) (account_url v) (nonce v)
               (Some (JDict [])) @@ 248) s) as [[o1 s1] t1] eqn:E1.
  apply acme_request_at_inv in E1.
  destruct E1 as [(-> & _ & e & ->) | (u & data & _ & -> & _ & ->)].
  - injection H as _ _ <-. left. reflexivity.
  - right. eexists.
    destruct (acme_outcome _) as [[resp n1] | e |]; cbn in H;
      injection H as _ _ <-; reflexivity.
Qed.

(** The change [order_challenge] hands on is the one Route 53 made for
    the UPSERT of line 219. *)
Lemma order_challenge_change d z a s v s' t :
  order_challenge lib w d z a s = (Returns v, s', t) ->
  exists zone name value response info,
    In (219, ChangeRecordSets "UPSERT" zone name value) t
    /\ change_resource_record_sets w "UPSERT" zone name value = Ok response
    /\ getitem response "ChangeInfo" = Ok info
    /\ getitem info "Id" = Ok (change_id v).
Proof.
  unfold order_challenge. intros H.
  apply bind_returns_inv in H. destruct H as (key & s1 & t1 & r1 & _ & H & ->).
  apply bind_returns_inv in H.
  destruct H as ([[dir au] n0] & s2 & t2 & r2 & _ & H & ->).
  cbv zeta in H.
  apply bind_returns_inv in H.
  destruct H as ([[[[o ou] aurl] auth] n1] & s3 & t3 & r3 & _ & H & ->).
  apply bind_returns_inv in H.
  destruct H as ([[[ch tn] dv] cid] & s4 & t4 & r4 & E & H & ->).
  injection H as <- _ <-. cbn [change_id].
  rewrite app_nil_r.
  unfold provision_challenge in E.
  rewrite bind_lift in E.
  destruct (getitem auth "challenges") as [chs |]; [| discriminate].
  rewrite bind_lift in E. destruct (find_challenge chs) as [found |]; [| discriminate].
  apply bind_returns_inv in E. destruct E as (c & s5 & t5 & r5 & E0 & E & ->).
  assert (t5 = []) by (destruct found; inversion E0; reflexivity). subst t5.
  rewrite bind_lift in E.
  destruct (jwk_thumbprint (sha256 lib) key) as [tp |]; [| discriminate].
  rewrite bind_lift in E. destruct (getitem c "token") as [tok |]; [| discriminate].
  cbv zeta in E.
  apply bind_returns_inv in E. destruct E as (cr & s6 & t6 & r6 & E1 & E & ->).
  rewrite bind_lift in E.
  destruct (getitem cr "ChangeInfo") as [ci |] eqn:Ec; [| discriminate].
  rewrite bind_lift in E.
  destruct (getitem ci "Id") as [cid0 |] eqn:Ed; [| discriminate].
  injection E as _ _ _ <- _ <-.
  unfold route53_change, at_line, bind, emit, lift in E1.
  destruct (change_resource_record_sets w _ _ _ _) as [resp |] eqn:Er;
    [| discriminate].
  injection E1 as <- _ <-.
  do 5 eexists. split; [| split; [exact Er | split; [exact Ec | exact Ed]]].
  repeat rewrite in_app_iff. cbn [In map snd]. auto 20.
Qed.

(** A run of [issue] that asks for the validation has set the record up
    and waited. *)
Lemma issue_notify_inv fuel d z a s o s' t c :
  issue lib w fuel d z a s = (o, s', t) ->
  In (248, c) t ->
  exists v s1 t1 u s2 tw post,
    order_challenge lib w d z a s = (Returns v, s1, t1)
    /\ wait_insync w fuel (change_id v) s1 = (Returns u, s2, tw)
    /\ t = t1 ++ tw ++ (244, Sleep 10) :: (248, c) :: post
    /\ Forall (placed 252 341) post.
Proof.
  assert (Out : forall lo hi (t0 : list event),
             Forall (placed lo hi) t0 -> 248 < lo \/ hi < 248 ->
             ~ In (248, c) t0).
  { intros lo hi t0 F Hl Hin. rewrite Forall_forall in F.
    destruct (F _ Hin) as [Hr _]. cbn in Hr. lia. }
  unfold issue. intros H Hin.
  apply bind_inv in H.
  destruct H as [(v & s1 & t1 & r1 & E1 & H & ->) | [(e & E1 & ->) | (E1 & ->)]];
    pose proof (@emits_run _ _ _ _ _ _ _ (order_challenge_placed lib w d z a) E1)
      as F1.
  2, 3: exfalso; exact (Out _ _ _ F1 ltac:(lia) Hin).
  apply bind_inv in H.
  destruct H as [(u & s2 & t2 & r2 & E2 & H & ->) | [(e & E2 & ->) | (E2 & ->)]];
    pose proof (@emits_run _ _ _ _ _ _ _
                  (wait_insync_placed w fuel (change_id v)) E2) as F2.
  2, 3: exfalso; apply in_app_or in Hin; destruct Hin as [Hin | Hin];
        [exact (Out _ _ _ F1 ltac:(lia) Hin) | exact (Out _ _ _ F2 ltac:(lia) Hin)].
  apply bind_inv in H.
  destruct H as [(n & s3 & t3 & r3 & E3 & H & ->) | [(e & E3 & ->) | (E3 & ->)]].
  - assert (F3 : Forall (placed 252 341) r3).
    { eapply emits_run; [| exact H].
      apply emits_bind;
        [eapply emits_placed_in;
         [apply poll_authorization_placed | lia | lia] | intros n'].
      apply emits_bind;
        [eapply emits_placed_in;
         [apply obtain_certificate_placed | lia | lia] | intros [[c0 ch] ex]].
      eapply emits_placed_in; [apply store_placed | lia | lia]. }
    exists v, s1, t1, u, s2, t2, r3. split; [exact E1 |]. split; [exact E2 |].
    split; [| exact F3].
    apply notify_challenge_trace in E3.
    destruct E3 as [-> | [c' ->]].
    + exfalso. apply in_app_or in Hin. destruct Hin as [Hin | Hin];
        [exact (Out _ _ _ F1 ltac:(lia) Hin) |].
      apply in_app_or in Hin. destruct Hin as [Hin | Hin];
        [exact (Out _ _ _ F2 ltac:(lia) Hin) |].
      destruct Hin as [Hin | Hin]; [discriminate Hin |].
      exact (Out _ _ _ F3 ltac:(lia) Hin).
    + assert (c' = c).
      { apply in_app_or in Hin. destruct Hin as [Hin | Hin];
          [exfalso; exact (Out _ _ _ F1 ltac:(lia) Hin) |].
        apply in_app_or in Hin. destruct Hin as [Hin | Hin];
          [exfalso; exact (Out _ _ _ F2 ltac:(lia) Hin) |].
        destruct Hin as [Hin | [Hin | Hin]];
          [discriminate Hin | injection Hin as ->; reflexivity |].
        exfalso. exact (Out _ _ _ F3 ltac:(lia) Hin). }
      subst c'. reflexivity.
  - exists v, s1, t1, u, s2, t2, []. split; [exact E1 |]. split; [exact E2 |].
    split; [| constructor].
    apply notify_challenge_trace in E3.
    destruct E3 as [-> | [c' ->]].
    + exfalso. apply in_app_or in Hin. destruct Hin as [Hin | Hin];
        [exact (Out _ _ _ F1 ltac:(lia) Hin) |].
      apply in_app_or in Hin. destruct Hin as [Hin | Hin];
        [exact (Out _ _ _ F2 ltac:(lia) Hin) |].
      destruct Hin as [Hin | []]. discriminate Hin.
    + assert (c' = c).
      { apply in_app_or in Hin. destruct Hin as [Hin | Hin];
          [exfalso; exact (Out _ _ _ F1 ltac:(lia) Hin) |].
        apply in_app_or in Hin. destruct Hin as [Hin | Hin];
          [exfalso; exact (Out _ _ _ F2 ltac:(lia) Hin) |].
        destruct Hin as [Hin | [Hin | []]];
          [discriminate Hin | injection Hin as ->; reflexivity]. }
      subst c'. reflexivity.
  - exfalso.
    pose proof (@steady_run _ _ _ _ _ _ (notify_challenge_steady w v) E3)
      as [_ N].
    apply N. reflexivity.
Qed.

(** X19: the server is asked to validate the challenge (line 248) only
    after Route 53 has reported the change of line 219 as INSYNC.  In a run
    that makes the request, the status queries of line 238, all for the Id
    of that change, were answered with another status until the last one,
    which was answered with INSYNC; that query, the sleep of ten seconds
    of line 244 and the request follow one another. *)
Theorem validation_after_insync fuel s c :
  In (248, c) (trace (generate_certificate lib w fuel s)) ->
  exists k id pre post,
    trace (generate_certificate lib w fuel s)
    = pre ++ (238, GetChange id) :: (244, Sleep 10) :: (248, c) :: post
    /\ count_line 238 (trace (generate_certificate lib w fuel s)) = k + 1
    /\ reports_insync (get_change w (polls s + k) id) = true
    /\ (forall j, j < k ->
                  reports_pending (get_change w (polls s + j) id) = true)
    /\ exists zone name value response info,
         In (219, ChangeRecordSets "UPSERT" zone name value) pre
         /\ change_resource_record_sets w "UPSERT" zone name value
            = Ok response
         /\ getitem response "ChangeInfo" = Ok info
         /\ getitem info "Id" = Ok id.
Proof.
  intros Hin.
  destruct (generate_certificate_cases lib w fuel s)
    as [[E _] | [[e E] | (d & z & a & _ & _ & _ & E)]];
    try (rewrite E in Hin; destruct Hin).
  rewrite E in *. clear E. unfold trace in *.
  destruct (issue lib w fuel d z a s) as [[o s'] t] eqn:E. cbn [snd] in *.
  destruct (@issue_notify_inv fuel d z a s o s' t c E Hin)
    as (v & s1 & t1 & u & s2 & tw & post & E1 & E2 & -> & Fp).
  pose proof (@steady_run _ _ _ _ _ _ (order_challenge_steady lib w d z a) E1)
    as [P1 _].
  pose proof (@emits_run _ _ _ _ _ _ _ (order_challenge_placed lib w d z a) E1)
    as F1.
  destruct (@order_challenge_change d z a s v s1 t1 E1)
    as (zone & name & value & resp & info & Hup & Hr & Hi & Hd).
  apply wait_insync_returns in E2.
  destruct E2 as (k & pre & -> & Hc & Hs & Hp). rewrite P1 in Hs, Hp.
  exists k, (change_id v), (t1 ++ pre), post.
  split; [rewrite <- !app_assoc; reflexivity |].
  split.
  { rewrite (@count_line_app 238 t1).
    rewrite (@count_line_app 238 (pre ++ [(238, GetChange (change_id v))])).
    rewrite Hc.
    rewrite (@count_line_placed 238 140 219 _ F1) by lia.
    rewrite !count_line_cons. cbn [fst Nat.eqb].
    rewrite (@count_line_placed 238 252 341 _ Fp) by lia. lia. }
  split; [exact Hs |]. split; [exact Hp |].
  exists zone, name, value, resp, info.
  split; [apply in_or_app; left; exact Hup |].
  split; [exact Hr |]. split; [exact Hi | exact Hd].
Qed.

End Propagation.

(** The first run: in sync at the second query. *)
Lemma validation_after_insync_witness :
  exists pre post c,
    trace (Scenario.run Scenario.first_run 5)
    = pre ++ (238, GetChange (JStr "/change/C1")) :: (244, Sleep 10)
          :: (248, c) :: post
    /\ count_line 238 (trace (Scenario.run Scenario.first_run 5)) = 2.
Proof.
  pose (t := trace (generate_certificate Scenario.library Scenario.first_run
                      5 start)).
  assert (Hin : In (248, snd (nth 11 t (0, Sleep 0))) t)
    by (vm_compute; do 11 right; left; reflexivity).
  destruct (@validation_after_insync Scenario.library Scenario.first_run 5
              start _ Hin)
    as (k & id & pre & post & E & C & _ & _ & (zone & name & value & resp & info
                                                  & _ & R & I & D)).
  injection R as <-. injection I as <-. injection D as <-.
  exists pre, post. eexists. split; [exact E |].
  unfold Scenario.run. vm_compute. reflexivity.
Defined.
